(** * EduFlow: a shallow embedding of the course save, the editor and the
    student-side progress code, with the properties of the specification.

  Sources embedded here
  - [src/unnamed/part_004]            (types.ts: Course, Module, Lesson, ...)
  - [src/index.tsx], [src/unnamed/part_000]
                                      (normalizeFileType, enumToMimeType,
                                       the file type of the two fetches and
                                       of the payload, getCourseProgress)
  - [src/components/CoursePreview.tsx] (CourseEditor: onDragEnd,
                                       handleFileChange, removeFile, the
                                       handlers that add, rename and delete
                                       modules and lessons; CoursePlayer:
                                       handleLessonComplete, navigateLesson)
  - [src/components/Auth.tsx]         (handleSubmit, toggleMode)
  - [src/supabase/migrations/20250101000012_fix_null_content_handling.sql]
  - [src/supabase/SETUP_COMPLETO_NUEVO_PROYECTO.sql]
                                      (tables with their constraints,
                                       handle_new_user and the two
                                       definitions of
                                       save_course_with_children)
  - [src/unnamed/part_003]            (handle_new_user with its exception
                                       handler)

  Part I holds the definitions, Part II the lemmas and theorems. *)

From stdpp Require Import gmap strings list fin_maps pretty sorting.
From Stdlib Require Import Ascii ZArith QArith Qround Lia.

Close Scope Q_scope.

(* ===================================================================== *)
(** * Part I. Definitions                                                 *)
(* ===================================================================== *)

(** ** Media kinds ([index.tsx] 64-83, [StudentDashboard] 12-28)

  Both files carry the same two helpers, character for character. *)
Module Media.

(** [normalizeFileType]: MIME type to enum value, [None] for JS [null]. *)
Definition normalizeFileType (mimeType : string) : option string :=
  if String.eqb mimeType "application/pdf" then Some "pdf"
  else if String.prefix "video/" mimeType then Some "video"
  else None.

(** [enumToMimeType]: enum value back to MIME type, with the PDF fallback. *)
Definition enumToMimeType (enumValue : string) : string :=
  if String.eqb enumValue "pdf" then "application/pdf"
  else if String.eqb enumValue "video" then "video/mp4"
  else "application/pdf".

(** The server-side enumeration and the MIME tokens of [LessonFile.type]. *)
Definition enum_tokens : list string := ["pdf"; "video"].
Definition mime_tokens : list string := ["video/mp4"; "application/pdf"].

(** JS [x || d] on a nullable or possibly empty string. *)
Definition or_else (x : option string) (d : string) : string :=
  match x with
  | Some s => if String.eqb s "" then d else s
  | None => d
  end.

(** What [handleSaveCourse] puts in the payload
    ([normalizeFileType(lesson.content.type) || 'pdf']). *)
Definition payload_type (mimeType : string) : string :=
  or_else (normalizeFileType mimeType) "pdf".

(** How the student dashboard reads [lessons.file_type]
    ([enumToMimeType(l.file_type || 'pdf')]). *)
Definition student_fetch_type (file_type : option string) : string :=
  enumToMimeType (or_else file_type "pdf").

(** How the teacher's fetch in [index.tsx] reads the same column
    ([enumToMimeType(normalizeFileType(l.file_type || 'pdf') || 'pdf')]). *)
Definition teacher_fetch_type (file_type : option string) : string :=
  enumToMimeType (or_else (normalizeFileType (or_else file_type "pdf")) "pdf").

End Media.

(** ** The client types ([types.ts]) *)
Module Types.

Record LessonFile := {
  lf_name : string;
  lf_type : string;          (* 'video/mp4' | 'application/pdf' *)
  lf_url : string;
  lf_size : Z
}.

Record Lesson := {
  lesson_id : string;
  lesson_title : string;
  lesson_content : option LessonFile;
  lesson_order : Z
}.

(** [Module] of [types.ts]; the name is a keyword here. *)
Record Module_ := {
  module_id : string;
  module_title : string;
  module_lessons : list Lesson;
  module_order : Z
}.

Record Course := {
  course_id : string;
  course_title : string;
  course_description : string;
  course_category : string;
  course_imageUrl : option string;
  course_modules : list Module_;
  course_isPublished : bool;
  course_teacher_id : string
}.

Record Progress := {
  progress_id : string;
  progress_student_id : string;
  progress_lesson_id : string;
  progress_is_completed : bool;
  progress_updated_at : string
}.

End Types.

(** ** The student dashboard ([StudentDashboard] 139-147) *)
Module Dashboard.
Import Types.

(** [Array.prototype.includes] on strings. *)
Definition includes (l : list string) (x : string) : bool :=
  existsb (String.eqb x) l.

(** [course.modules.reduce((acc, m) => acc + m.lessons.length, 0)] *)
Definition totalLessons (course : Course) : nat :=
  foldl (fun acc m => acc + length (module_lessons m))%nat 0%nat
        (course_modules course).

(** [course.modules.flatMap(m => m.lessons.map(l => l.id))] *)
Definition courseLessonIds (course : Course) : list string :=
  flat_map (fun m => map lesson_id (module_lessons m)) (course_modules course).

(** [progress.filter(p => courseLessonIds.includes(p.lesson_id)
                          && p.is_completed).length] *)
Definition completedLessons (progress : list Progress) (course : Course) : nat :=
  length (List.filter
            (fun p => includes (courseLessonIds course) (progress_lesson_id p)
                      && progress_is_completed p)
            progress).

(** [Math.round]: the nearest integer, ties towards plus infinity. *)
Definition Math_round (x : Q) : Z := Qfloor (x + (1 # 2))%Q.

Section Binary64.

(** JS numbers are binary64 values.  Both operands of the division are
    array lengths, which binary64 holds exactly; the quotient and the
    product are rounded to the nearest binary64 value.  That rounding is
    the parameter [rnd]; the section assumes of it only what
    round-to-nearest guarantees: it is monotone and it keeps the
    representable numbers 0, 1 and 100. *)
Variable rnd : Q -> Q.

Definition fdiv (a b : Q) : Q := rnd (a / b)%Q.
Definition fmul (a b : Q) : Q := rnd (a * b)%Q.

Definition getCourseProgress (progress : list Progress) (course : Course) : Z :=
  let total := totalLessons course in
  if Nat.eqb total 0 then 0%Z
  else
    let completed := completedLessons progress course in
    Math_round (fmul (fdiv (inject_Z (Z.of_nat completed))
                           (inject_Z (Z.of_nat total)))
                     (inject_Z 100)).

End Binary64.

(** A course of two lessons, and a progress list completing one of them. *)
Definition half_done_course : Course :=
  {| course_id := "c"; course_title := "t"; course_description := "";
     course_category := ""; course_imageUrl := None;
     course_modules :=
       [ {| module_id := "m"; module_title := "M"; module_order := 0;
            module_lessons :=
              [ {| lesson_id := "l1"; lesson_title := "a";
                   lesson_content := None; lesson_order := 0 |};
                {| lesson_id := "l2"; lesson_title := "b";
                   lesson_content := None; lesson_order := 1 |} ] |} ];
     course_isPublished := true; course_teacher_id := "u" |}.

Definition half_done_progress : list Progress :=
  [ {| progress_id := "p"; progress_student_id := "s";
       progress_lesson_id := "l1"; progress_is_completed := true;
       progress_updated_at := "2025-01-25" |} ].

(** The same course with both lessons completed. *)
Definition all_done_progress : list Progress :=
  half_done_progress ++
  [ {| progress_id := "q"; progress_student_id := "s";
       progress_lesson_id := "l2"; progress_is_completed := true;
       progress_updated_at := "2025-01-26" |} ].

End Dashboard.


(** ** The tables ([SETUP_COMPLETO_NUEVO_PROYECTO.sql] 25-103) *)
Module Db.

(** A [uuid] is a 128-bit number and a [timestamp with time zone] a number
    of microseconds; neither width matters to what follows. *)
Abbreviation uuid := N (only parsing).
Abbreviation timestamp := Z (only parsing).

(** Modelled from the spec: the enum type [public.file_type] that
    migration 12 casts to has no [CREATE TYPE] in the sources.  Its two
    values are the ones of the spec ("video"/"pdf") and of the [CHECK]
    constraint on [lessons.file_type]. *)
Inductive file_type := pdf | video.

#[global] Instance file_type_eq_dec : EqDecision file_type.
Proof. solve_decision. Defined.

Definition file_type_label (t : file_type) : string :=
  match t with pdf => "pdf" | video => "video" end.

Record course_row := {
  c_teacher_id : uuid;                (* NOT NULL REFERENCES profiles(id) *)
  c_title : string;                   (* NOT NULL *)
  c_description : string;             (* NOT NULL *)
  c_category : string;                (* NOT NULL *)
  c_image_url : option string;
  c_is_published : bool;              (* NOT NULL *)
  c_created_at : timestamp;
  c_updated_at : timestamp
}.

Record module_row := {
  m_course_id : uuid;                 (* NOT NULL REFERENCES courses(id) ON DELETE CASCADE *)
  m_title : string;                   (* NOT NULL *)
  m_order : Z;                        (* integer NOT NULL *)
  m_created_at : timestamp
}.

Record lesson_row := {
  l_module_id : uuid;                 (* NOT NULL REFERENCES modules(id) ON DELETE CASCADE *)
  l_title : string;                   (* NOT NULL *)
  l_order : Z;                        (* integer NOT NULL *)
  l_file_name : option string;
  l_file_type : option file_type;
  l_file_url : option string;
  l_file_size : option Z;             (* bigint *)
  l_created_at : timestamp
}.

Record progress_row := {
  p_id : uuid;                        (* PRIMARY KEY *)
  p_student_id : uuid;                (* NOT NULL REFERENCES profiles(id) *)
  p_lesson_id : uuid;                 (* NOT NULL REFERENCES lessons(id) ON DELETE CASCADE *)
  p_is_completed : bool;
  p_updated_at : timestamp
}.

(** The persisted state.  A table with a primary key alone is a finite map
    from the key; [progress] also carries [UNIQUE(student_id, lesson_id)]
    and is kept as the list of its rows. *)
Record DB := {
  profiles : gset N;
  courses : gmap N course_row;
  modules : gmap N module_row;
  lessons : gmap N lesson_row;
  progress : list progress_row
}.

Definition empty_db : DB :=
  {| profiles := ∅; courses := ∅; modules := ∅; lessons := ∅; progress := [] |}.

Definition set_courses (cs : gmap N course_row) (db : DB) : DB :=
  {| profiles := profiles db; courses := cs; modules := modules db;
     lessons := lessons db; progress := progress db |}.

Definition set_modules (ms : gmap N module_row) (db : DB) : DB :=
  {| profiles := profiles db; courses := courses db; modules := ms;
     lessons := lessons db; progress := progress db |}.

Definition set_lessons (ls : gmap N lesson_row) (db : DB) : DB :=
  {| profiles := profiles db; courses := courses db; modules := modules db;
     lessons := ls; progress := progress db |}.

(** *** Errors and results *)

Inductive pg_error :=
| insufficient_privilege     (* RAISE EXCEPTION 'User does not have permission ...' *)
| not_null_violation
| foreign_key_violation
| unique_violation
| check_violation
| invalid_text_representation (* a text that is no value of the enum *)
| numeric_value_out_of_range
| row_security_violation.

Inductive result (A : Type) :=
| Ok (a : A)
| Err (e : pg_error).
Arguments Ok {A} a.
Arguments Err {A} e.

#[global] Instance result_ret : MRet result := fun A a => Ok a.
#[global] Instance result_bind : MBind result := fun A B f r =>
  match r with Ok a => f a | Err e => Err e end.

(** A column declared [NOT NULL]. *)
Definition not_null {A} (x : option A) : result A :=
  match x with Some a => Ok a | None => Err not_null_violation end.

(** [(x)::integer] and [(x)::bigint]; NULL casts to NULL. *)
Definition cast_range (lo hi : Z) (x : option Z) : result (option Z) :=
  match x with
  | None => Ok None
  | Some z => if bool_decide (lo <= z < hi)%Z then Ok (Some z)
              else Err numeric_value_out_of_range
  end.
Definition cast_integer := cast_range (- 2 ^ 31) (2 ^ 31).
Definition cast_bigint := cast_range (- 2 ^ 63) (2 ^ 63).

(** [(x)::public.file_type] *)
Definition cast_file_type (x : option string) : result (option file_type) :=
  match x with
  | None => Ok None
  | Some s => if String.eqb s "pdf" then Ok (Some pdf)
              else if String.eqb s "video" then Ok (Some video)
              else Err invalid_text_representation
  end.

(** [NULLIF(x, y)] *)
Definition nullif (x : option string) (y : string) : option string :=
  match x with
  | Some s => if String.eqb s y then None else Some s
  | None => None
  end.

(** [id NOT IN (SELECT ...)] is true: every listed value is non-null and
    differs from [id].  With a NULL in the list the predicate is never true. *)
Definition sql_not_in (id : N) (ids : list (option N)) : Prop :=
  Forall is_Some ids /\ Some id ∉ ids.

#[global] Instance sql_not_in_dec id ids : Decision (sql_not_in id ids).
Proof. unfold sql_not_in. apply _. Defined.

(** *** The payload of the RPC

    [course_data] is JSON.  A field read with [->>] is NULL when the key is
    absent or holds JSON null, hence the options; texts that are cast to
    [uuid], [integer], [bigint] or [boolean] are taken already parsed (a
    text that does not parse raises, like the errors kept here). *)
Record content_json := {
  content_name : option string;
  content_type : option string;
  content_url : option string;
  content_size : option Z
}.

Record lesson_json := {
  lj_id : option N;
  lj_title : option string;
  lj_order : option Z;
  lj_content : option content_json   (* [None]: absent or JSON null *)
}.

Record module_json := {
  mj_id : option N;
  mj_title : option string;
  mj_order : option Z;
  mj_lessons : list lesson_json
}.

Record course_json := {
  cj_id : option N;
  cj_teacher_id : option N;
  cj_title : option string;
  cj_description : option string;
  cj_category : option string;
  cj_image_url : option string;
  cj_is_published : option bool;
  cj_modules : list module_json
}.

(** The session a call runs in: [auth.uid()] (NULL without a signed-in
    user) and [now()]. *)
Record session := {
  auth_uid : option N;
  now : Z
}.

(** *** Deletes with their cascades *)

(** [DELETE FROM lessons WHERE P]; [progress.lesson_id] is
    [ON DELETE CASCADE]. *)
Definition delete_lessons (P : N * lesson_row -> Prop) `{!forall x, Decision (P x)}
    (db : DB) : DB :=
  let gone := filter P (lessons db) in
  {| profiles := profiles db; courses := courses db; modules := modules db;
     lessons := filter (fun x => ~ P x) (lessons db);
     progress := filter (fun p => gone !! p_lesson_id p = None) (progress db) |}.

(** [DELETE FROM modules WHERE P]; [lessons.module_id] is
    [ON DELETE CASCADE], and so on to [progress]. *)
Definition delete_modules (P : N * module_row -> Prop) `{!forall x, Decision (P x)}
    (db : DB) : DB :=
  let gone := filter P (modules db) in
  delete_lessons (fun x => is_Some (gone !! l_module_id x.2))
    (set_modules (filter (fun x => ~ P x) (modules db)) db).

(** [FOR x IN SELECT * FROM jsonb_array_elements(...) LOOP body END LOOP] *)
Fixpoint for_each {A} (body : A -> DB -> result DB) (xs : list A) (db : DB)
    : result DB :=
  match xs with
  | [] => Ok db
  | x :: xs => db ← body x db; for_each body xs db
  end.

End Db.

(** ** [save_course_with_children], migration 12
       ([20250101000012_fix_null_content_handling.sql] 8-123) *)
Module Migration12.
Import Db.

(** The rows the three upserts write.  The first arguments are the columns
    an [ON CONFLICT (id) DO UPDATE] leaves as they are: the parent key and
    the timestamps. *)
Definition course_row_of (teacher_id : uuid) (created_at updated_at : timestamp)
    (title description category : string) (image_url : option string)
    (is_published : bool) : course_row :=
  {| c_teacher_id := teacher_id; c_title := title;
     c_description := description; c_category := category;
     c_image_url := image_url; c_is_published := is_published;
     c_created_at := created_at; c_updated_at := updated_at |}.

Definition module_row_of (course_id : uuid) (created_at : timestamp)
    (title : string) (order : Z) : module_row :=
  {| m_course_id := course_id; m_title := title; m_order := order;
     m_created_at := created_at |}.

(** The four file columns of a lesson row. *)
Record file_columns := {
  fc_name : option string;
  fc_type : option file_type;
  fc_url : option string;
  fc_size : option Z
}.

Definition no_file : file_columns :=
  {| fc_name := None; fc_type := None; fc_url := None; fc_size := None |}.

Definition file_columns_of (row : lesson_row) : file_columns :=
  {| fc_name := l_file_name row; fc_type := l_file_type row;
     fc_url := l_file_url row; fc_size := l_file_size row |}.

Definition lesson_row_of (module_id : uuid) (created_at : timestamp)
    (title : string) (order : Z) (files : file_columns) : lesson_row :=
  {| l_module_id := module_id; l_title := title; l_order := order;
     l_file_name := fc_name files; l_file_type := fc_type files;
     l_file_url := fc_url files; l_file_size := fc_size files;
     l_created_at := created_at |}.

(** Lines 24-26.  The condition is three-valued: with [auth.uid()] NULL and
    a non-null [teacher_id_val] it is NULL, and [IF] takes a NULL condition
    for false. *)
Definition check_owner (ctx : session) (teacher_id_val : option N) (db : DB)
    : result DB :=
  match teacher_id_val with
  | None => Err insufficient_privilege
  | Some t =>
      match auth_uid ctx with
      | None => Ok db
      | Some u => if decide (t = u) then Ok db else Err insufficient_privilege
      end
  end.

(** Lines 29-44.  The proposed row is checked against [NOT NULL] before the
    conflict on [id] is looked for; the foreign key is checked for a row
    that is inserted. *)
Definition upsert_course (ctx : session) (course_data : course_json) (db : DB)
    : result DB :=
  id ← not_null (cj_id course_data);
  teacher ← not_null (cj_teacher_id course_data);
  title ← not_null (cj_title course_data);
  description ← not_null (cj_description course_data);
  category ← not_null (cj_category course_data);
  is_published ← not_null (cj_is_published course_data);
  let image_url := nullif (cj_image_url course_data) "null" in
  match courses db !! id with
  | Some old =>
      Ok (set_courses
            (<[id := course_row_of (c_teacher_id old) (c_created_at old)
                       (c_updated_at old) title description category
                       image_url is_published]> (courses db)) db)
  | None =>
      if decide (teacher ∈ profiles db) then
        Ok (set_courses
              (<[id := course_row_of teacher (now ctx) (now ctx)
                         title description category
                         image_url is_published]> (courses db)) db)
      else Err foreign_key_violation
  end.

(** Lines 49-60. *)
Definition upsert_module (ctx : session) (course_id_val : option N)
    (module_json : module_json) (db : DB) : result DB :=
  order ← cast_integer (mj_order module_json);
  id ← not_null (mj_id module_json);
  course_id ← not_null course_id_val;
  title ← not_null (mj_title module_json);
  order ← not_null order;
  match modules db !! id with
  | Some old =>
      Ok (set_modules
            (<[id := module_row_of (m_course_id old) (m_created_at old)
                       title order]> (modules db)) db)
  | None =>
      if decide (is_Some (courses db !! course_id)) then
        Ok (set_modules
              (<[id := module_row_of course_id (now ctx) title order]>
                 (modules db)) db)
      else Err foreign_key_violation
  end.

(** Lines 66-105, the values of the file columns: from [content] when it is
    there, four NULLs otherwise. *)
Definition lesson_files (lesson_json : lesson_json) : result file_columns :=
  match lj_content lesson_json with
  | Some content =>
      type ← cast_file_type (content_type content);
      size ← cast_bigint (content_size content);
      Ok {| fc_name := content_name content; fc_type := type;
            fc_url := content_url content; fc_size := size |}
  | None => Ok no_file
  end.

(** Lines 63-105.  Both branches insert under [module_id_val] and, on a
    conflict on [id], overwrite the title, the order and the four file
    columns; [module_id] is not among the columns overwritten. *)
Definition upsert_lesson (ctx : session) (module_id_val : option N)
    (lesson_json : lesson_json) (db : DB) : result DB :=
  order ← cast_integer (lj_order lesson_json);
  files ← lesson_files lesson_json;
  id ← not_null (lj_id lesson_json);
  module_id ← not_null module_id_val;
  title ← not_null (lj_title lesson_json);
  order ← not_null order;
  match lessons db !! id with
  | Some old =>
      Ok (set_lessons
            (<[id := lesson_row_of (l_module_id old) (l_created_at old)
                       title order files]> (lessons db)) db)
  | None =>
      if decide (is_Some (modules db !! module_id)) then
        Ok (set_lessons
              (<[id := lesson_row_of module_id (now ctx) title order files]>
                 (lessons db)) db)
      else Err foreign_key_violation
  end.

(** Lines 109-112. *)
Definition delete_lessons_not_in (module_id_val : option N)
    (ids : list (option N)) (db : DB) : DB :=
  match module_id_val with
  | None => db
  | Some module_id =>
      delete_lessons
        (fun x => l_module_id x.2 = module_id /\ sql_not_in x.1 ids) db
  end.

(** Lines 117-120. *)
Definition delete_modules_not_in (course_id_val : option N)
    (ids : list (option N)) (db : DB) : DB :=
  match course_id_val with
  | None => db
  | Some course_id =>
      delete_modules
        (fun x => m_course_id x.2 = course_id /\ sql_not_in x.1 ids) db
  end.

(** The function body, lines 19-122. *)
Definition save_course_with_children (ctx : session) (course_data : course_json)
    (db : DB) : result DB :=
  let course_id_val := cj_id course_data in
  let teacher_id_val := cj_teacher_id course_data in
  db ← check_owner ctx teacher_id_val db;
  db ← upsert_course ctx course_data db;
  db ← for_each
         (fun module_json db =>
            let module_id_val := mj_id module_json in
            db ← upsert_module ctx course_id_val module_json db;
            db ← for_each (upsert_lesson ctx module_id_val)
                          (mj_lessons module_json) db;
            Ok (delete_lessons_not_in module_id_val
                  (lj_id <$> mj_lessons module_json) db))
         (cj_modules course_data) db;
  Ok (delete_modules_not_in course_id_val (mj_id <$> cj_modules course_data) db).

(** *** The same body as the sequence of its statements

    The loops run over the payload, not over the tables, so the statements
    a call executes are known from the payload alone. *)
Inductive stmt :=
| CheckOwner (teacher_id_val : option N)
| UpsertCourse (course_data : course_json)
| UpsertModule (course_id_val : option N) (module_json : module_json)
| UpsertLesson (module_id_val : option N) (lesson_json : lesson_json)
| DeleteLessonsNotIn (module_id_val : option N) (ids : list (option N))
| DeleteModulesNotIn (course_id_val : option N) (ids : list (option N)).

Definition exec (ctx : session) (s : stmt) (db : DB) : result DB :=
  match s with
  | CheckOwner t => check_owner ctx t db
  | UpsertCourse c => upsert_course ctx c db
  | UpsertModule c m => upsert_module ctx c m db
  | UpsertLesson m l => upsert_lesson ctx m l db
  | DeleteLessonsNotIn m ids => Ok (delete_lessons_not_in m ids db)
  | DeleteModulesNotIn c ids => Ok (delete_modules_not_in c ids db)
  end.

Definition run (ctx : session) (ss : list stmt) (db : DB) : result DB :=
  for_each (exec ctx) ss db.

Definition module_stmts (course_id_val : option N) (module_json : module_json)
    : list stmt :=
  UpsertModule course_id_val module_json ::
  (UpsertLesson (mj_id module_json) <$> mj_lessons module_json) ++
  [DeleteLessonsNotIn (mj_id module_json) (lj_id <$> mj_lessons module_json)].

Definition save_stmts (course_data : course_json) : list stmt :=
  CheckOwner (cj_teacher_id course_data) ::
  UpsertCourse course_data ::
  (cj_modules course_data ≫= module_stmts (cj_id course_data)) ++
  [DeleteModulesNotIn (cj_id course_data) (mj_id <$> cj_modules course_data)].

(** *** The call as a transaction

    PostgREST runs an RPC in a transaction of its own, and the body has no
    [EXCEPTION] block: an error in any statement aborts the transaction.
    Other sessions, and the caller afterwards, read the committed state. *)
Inductive txn :=
| Running (committed working : DB) (todo : list stmt)
| Committed (db : DB)
| Aborted (db : DB) (e : pg_error).

Definition txn_begin (course_data : course_json) (db : DB) : txn :=
  Running db db (save_stmts course_data).

Definition txn_visible (t : txn) : DB :=
  match t with
  | Running committed _ _ => committed
  | Committed db => db
  | Aborted db _ => db
  end.

Inductive txn_step (ctx : session) : txn -> txn -> Prop :=
| step_stmt committed working working' s todo :
    exec ctx s working = Ok working' ->
    txn_step ctx (Running committed working (s :: todo))
                 (Running committed working' todo)
| step_abort committed working s todo e :
    exec ctx s working = Err e ->
    txn_step ctx (Running committed working (s :: todo)) (Aborted committed e)
| step_commit committed working :
    txn_step ctx (Running committed working []) (Committed working).

(** What the caller gets back and what is persisted afterwards. *)
Definition rpc (ctx : session) (course_data : course_json) (db : DB)
    : DB * option pg_error :=
  match save_course_with_children ctx course_data db with
  | Ok db' => (db', None)
  | Err e => (db, Some e)
  end.

(** *** Course trees

    The ids of a payload, and two conditions on a payload: its ids are
    pairwise distinct (module ids among the modules, lesson ids across the
    tree, as rows of [lessons] are keyed by id alone); and no lesson of the
    payload is stored under another module than the one that lists it. *)
Definition module_ids (course_data : course_json) : list (option N) :=
  mj_id <$> cj_modules course_data.

Definition lesson_ids (module_json : module_json) : list (option N) :=
  lj_id <$> mj_lessons module_json.

Definition tree_lesson_ids (course_data : course_json) : list (option N) :=
  cj_modules course_data ≫= lesson_ids.

Definition distinct_ids (course_data : course_json) : Prop :=
  NoDup (module_ids course_data) /\ NoDup (tree_lesson_ids course_data).

Definition lessons_stay_put (course_data : course_json) (db : DB) : Prop :=
  forall m l mid lid row,
    m ∈ cj_modules course_data -> l ∈ mj_lessons m ->
    mj_id m = Some mid -> lj_id l = Some lid ->
    lessons db !! lid = Some row -> l_module_id row = mid.

(** A stored row carries what a payload entry says (the columns the
    upsert writes; the parent key and the timestamp are left open). *)
Definition lesson_row_matches (l : lesson_json) (row : lesson_row) : Prop :=
  lj_title l = Some (l_title row) /\
  cast_integer (lj_order l) = Ok (Some (l_order row)) /\
  lesson_files l = Ok (file_columns_of row).

Definition module_row_matches (m : module_json) (row : module_row) : Prop :=
  mj_title m = Some (m_title row) /\
  cast_integer (mj_order m) = Ok (Some (m_order row)).

Definition course_row_matches (c : course_json) (row : course_row) : Prop :=
  cj_title c = Some (c_title row) /\
  cj_description c = Some (c_description row) /\
  cj_category c = Some (c_category row) /\
  nullif (cj_image_url c) "null" = c_image_url row /\
  cj_is_published c = Some (c_is_published row).

(** *** Statements classified by the rows they can touch *)

(** [s] upserts the lesson [lid]. *)
Definition upserts_lesson (lid : N) (s : stmt) : Prop :=
  match s with
  | UpsertLesson _ l => lj_id l = Some lid
  | _ => False
  end.

(** [s] can insert lessons under the module [mid]. *)
Definition adds_under (mid : N) (s : stmt) : Prop :=
  match s with
  | UpsertLesson mo _ => mo = Some mid
  | _ => False
  end.

(** [s] leaves a lesson row [lid] stored under [mid] as it is. *)
Definition keeps_lesson (lid mid : N) (s : stmt) : Prop :=
  match s with
  | UpsertLesson _ l => lj_id l <> Some lid
  | DeleteLessonsNotIn mo ids => mo <> Some mid \/ Some lid ∈ ids
  | DeleteModulesNotIn _ ids => Some mid ∈ ids
  | _ => True
  end.

(** [s] upserts the module [mid]. *)
Definition upserts_module (mid : N) (s : stmt) : Prop :=
  match s with
  | UpsertModule _ m => mj_id m = Some mid
  | _ => False
  end.

(** [s] leaves a module row [mid] as it is. *)
Definition keeps_module (mid : N) (s : stmt) : Prop :=
  match s with
  | UpsertModule _ m => mj_id m <> Some mid
  | DeleteModulesNotIn _ ids => Some mid ∈ ids
  | _ => True
  end.

(** [s] does not write to [courses]. *)
Definition keeps_courses (s : stmt) : Prop :=
  match s with
  | UpsertCourse _ => False
  | _ => True
  end.

(** Every lesson stored under [mid] has its id in [ids]; every module of
    the course [cid] has its id in [ids]. *)
Definition lessons_within (mid : N) (ids : list (option N)) (db : DB) : Prop :=
  forall lid row,
    lessons db !! lid = Some row -> l_module_id row = mid -> Some lid ∈ ids.

Definition modules_within (cid : N) (ids : list (option N)) (db : DB) : Prop :=
  forall mid row,
    modules db !! mid = Some row -> m_course_id row = cid -> Some mid ∈ ids.

(** [m] is a module of the payload whose id no later module repeats: all
    of them, when the module ids are distinct. *)
Definition last_of_its_id (course_data : course_json) (m : module_json) : Prop :=
  exists ms1 ms2,
    cj_modules course_data = (ms1 ++ m :: ms2)%list /\
    mj_id m ∉ mj_id <$> ms2.

(** The four file columns of a stored lesson are what the payload entry
    gives: four NULLs without [content], the four fields of [content]
    (the two casts applied) with it. *)
Definition files_as_given (l : lesson_json) (row : lesson_row) : Prop :=
  match lj_content l with
  | None =>
      l_file_name row = None /\ l_file_type row = None /\
      l_file_url row = None /\ l_file_size row = None
  | Some content =>
      l_file_name row = content_name content /\
      cast_file_type (content_type content) = Ok (l_file_type row) /\
      l_file_url row = content_url content /\
      cast_bigint (content_size content) = Ok (l_file_size row)
  end.

End Migration12.

(** ** The payloads a call of migration 12 goes through on

    What the statements of the body ask of the payload and of the state,
    read off the casts, the [NOT NULL] columns, the ownership check and
    the foreign key of [courses]; the foreign keys of [modules] and
    [lessons] are met by the rows the call itself has written. *)
Module Acceptance.
Import Db Migration12.

(** A number that is given and fits the type it is cast to. *)
Definition fits (lo hi : Z) (x : option Z) : Prop :=
  exists z, x = Some z /\ (lo <= z < hi)%Z.

Definition content_accepted (content : content_json) : Prop :=
  (content_type content = None \/ content_type content = Some "pdf" \/
   content_type content = Some "video") /\
  (forall z, content_size content = Some z -> (- 2 ^ 63 <= z < 2 ^ 63)%Z).

Definition lesson_accepted (l : lesson_json) : Prop :=
  is_Some (lj_id l) /\ is_Some (lj_title l) /\
  fits (- 2 ^ 31) (2 ^ 31) (lj_order l) /\
  (forall content, lj_content l = Some content -> content_accepted content).

Definition module_accepted (m : module_json) : Prop :=
  is_Some (mj_id m) /\ is_Some (mj_title m) /\
  fits (- 2 ^ 31) (2 ^ 31) (mj_order m) /\
  Forall lesson_accepted (mj_lessons m).

(** The caller is the teacher of the payload, or no user at all; the
    course is stored already, or the teacher has a profile. *)
Definition accepted (ctx : session) (c : course_json) (db : DB) : Prop :=
  (exists cid teacher,
     cj_id c = Some cid /\ cj_teacher_id c = Some teacher /\
     (auth_uid ctx = None \/ auth_uid ctx = Some teacher) /\
     (is_Some (courses db !! cid) \/ teacher ∈ profiles db)) /\
  is_Some (cj_title c) /\ is_Some (cj_description c) /\
  is_Some (cj_category c) /\ is_Some (cj_is_published c) /\
  Forall module_accepted (cj_modules c).

End Acceptance.

(** ** [save_course_with_children], the consolidated setup script
       ([SETUP_COMPLETO_NUEVO_PROYECTO.sql] 272-341)

    The body starts at the course upsert: there is no comparison with
    [auth.uid()] in it.  The function is [SECURITY DEFINER], so the
    row-level policies of the caller do not apply to its statements. *)
Module SetupCompleto.
Import Db.

(** Lines 288-304: as in migration 12, but [image_url] is taken as it is
    and the update sets [updated_at = now()]. *)
Definition upsert_course (ctx : session) (course_data : course_json) (db : DB)
    : result DB :=
  id ← not_null (cj_id course_data);
  teacher ← not_null (cj_teacher_id course_data);
  title ← not_null (cj_title course_data);
  description ← not_null (cj_description course_data);
  category ← not_null (cj_category course_data);
  is_published ← not_null (cj_is_published course_data);
  match courses db !! id with
  | Some old =>
      Ok (set_courses
            (<[id := {| c_teacher_id := c_teacher_id old;
                        c_title := title;
                        c_description := description;
                        c_category := category;
                        c_image_url := cj_image_url course_data;
                        c_is_published := is_published;
                        c_created_at := c_created_at old;
                        c_updated_at := now ctx |}]> (courses db)) db)
  | None =>
      if decide (teacher ∈ profiles db) then
        Ok (set_courses
              (<[id := {| c_teacher_id := teacher;
                          c_title := title;
                          c_description := description;
                          c_category := category;
                          c_image_url := cj_image_url course_data;
                          c_is_published := is_published;
                          c_created_at := now ctx;
                          c_updated_at := now ctx |}]> (courses db)) db)
      else Err foreign_key_violation
  end.

(** Line 307: [DELETE FROM public.modules WHERE course_id = v_course_id]. *)
Definition delete_modules_of (v_course_id : option N) (db : DB) : DB :=
  match v_course_id with
  | None => db
  | Some course_id => delete_modules (fun x => m_course_id x.2 = course_id) db
  end.

(** Lines 314-320: a plain [INSERT]. *)
Definition insert_module (ctx : session) (v_course_id : option N)
    (v_module : module_json) (db : DB) : result DB :=
  order ← cast_integer (mj_order v_module);
  id ← not_null (mj_id v_module);
  course_id ← not_null v_course_id;
  title ← not_null (mj_title v_module);
  order ← not_null order;
  match modules db !! id with
  | Some _ => Err unique_violation
  | None =>
      if decide (is_Some (courses db !! course_id)) then
        Ok (set_modules
              (<[id := {| m_course_id := course_id; m_title := title;
                          m_order := order; m_created_at := now ctx |}]>
                 (modules db)) db)
      else Err foreign_key_violation
  end.

(** [file_type text CHECK (file_type IN ('pdf', 'video'))] *)
Definition check_file_type (x : option string) : result (option file_type) :=
  match x with
  | None => Ok None
  | Some s => if String.eqb s "pdf" then Ok (Some pdf)
              else if String.eqb s "video" then Ok (Some video)
              else Err check_violation
  end.

(** Lines 324-337: a plain [INSERT]; the fields of a null or absent
    [content] read as NULL. *)
Definition insert_lesson (ctx : session) (v_module_id : option N)
    (v_lesson : lesson_json) (db : DB) : result DB :=
  let v_content := lj_content v_lesson in
  order ← cast_integer (lj_order v_lesson);
  size ← cast_bigint (v_content ≫= content_size);
  id ← not_null (lj_id v_lesson);
  module_id ← not_null v_module_id;
  title ← not_null (lj_title v_lesson);
  order ← not_null order;
  type ← check_file_type (v_content ≫= content_type);
  match lessons db !! id with
  | Some _ => Err unique_violation
  | None =>
      if decide (is_Some (modules db !! module_id)) then
        Ok (set_lessons
              (<[id := {| l_module_id := module_id; l_title := title;
                          l_order := order;
                          l_file_name := v_content ≫= content_name;
                          l_file_type := type;
                          l_file_url := v_content ≫= content_url;
                          l_file_size := size;
                          l_created_at := now ctx |}]> (lessons db)) db)
      else Err foreign_key_violation
  end.

(** The function body, lines 284-340. *)
Definition save_course_with_children (ctx : session) (course_data : course_json)
    (db : DB) : result DB :=
  let v_course_id := cj_id course_data in
  db ← upsert_course ctx course_data db;
  let db := delete_modules_of v_course_id db in
  for_each
    (fun v_module db =>
       let v_module_id := mj_id v_module in
       db ← insert_module ctx v_course_id v_module db;
       for_each (insert_lesson ctx v_module_id) (mj_lessons v_module) db)
    (cj_modules course_data) db.

Definition rpc (ctx : session) (course_data : course_json) (db : DB)
    : DB * option pg_error :=
  match save_course_with_children ctx course_data db with
  | Ok db' => (db', None)
  | Err e => (db, Some e)
  end.

End SetupCompleto.

(** ** Concrete states and payloads *)
Module Scenario.
Import Db.

(** Users: the teacher 1, another teacher 2, a student 3. *)
Definition as_user (u : N) : session := {| auth_uid := Some u; now := 1000 |}.
Definition anonymous : session := {| auth_uid := None; now := 1000 |}.

Definition stored_course (teacher : N) (title : string) : course_row :=
  {| c_teacher_id := teacher; c_title := title; c_description := "";
     c_category := ""; c_image_url := None; c_is_published := false;
     c_created_at := 0; c_updated_at := 0 |}.

Definition stored_module (course : N) (title : string) (order : Z) : module_row :=
  {| m_course_id := course; m_title := title; m_order := order;
     m_created_at := 0 |}.

Definition stored_lesson (module : N) (title : string) (order : Z)
    (type : option file_type) (created_at : Z) : lesson_row :=
  {| l_module_id := module; l_title := title; l_order := order;
     l_file_name := (fun _ => title) <$> type;
     l_file_type := type;
     l_file_url := (fun _ => "https://files/" +:+ title) <$> type;
     l_file_size := (fun _ => 2048%Z) <$> type;
     l_created_at := created_at |}.

Definition completed (id student lesson : N) : progress_row :=
  {| p_id := id; p_student_id := student; p_lesson_id := lesson;
     p_is_completed := true; p_updated_at := 500 |}.

(** Course 10 of teacher 1: module 20 with the lessons 31 (a video) and 32
    (no file), module 21 with the lesson 34 (a PDF); the student 3 has
    completed 31 and 34. *)
Definition scenario_db : DB :=
  {| profiles := {[ 1%N; 2%N; 3%N ]};
     courses := {[ 10%N := stored_course 1 "Course C" ]};
     modules := {[ 20%N := stored_module 10 "M1" 0;
                   21%N := stored_module 10 "M2" 1 ]};
     lessons := {[ 31%N := stored_lesson 20 "L1" 0 (Some video) 0;
                   32%N := stored_lesson 20 "L2" 1 None 0;
                   34%N := stored_lesson 21 "L4" 0 (Some pdf) 0 ]};
     progress := [ completed 90 3 31; completed 91 3 34 ] |}.

Definition content_entry (name type : string) : content_json :=
  {| content_name := Some name; content_type := Some type;
     content_url := Some ("https://files/" +:+ name);
     content_size := Some 2048%Z |}.

Definition lesson_entry (id : N) (title : string) (order : Z)
    (type : option string) : lesson_json :=
  {| lj_id := Some id; lj_title := Some title; lj_order := Some order;
     lj_content := content_entry title <$> type |}.

Definition module_entry (id : N) (title : string) (order : Z)
    (lessons : list lesson_json) : module_json :=
  {| mj_id := Some id; mj_title := Some title; mj_order := Some order;
     mj_lessons := lessons |}.

Definition course_entry (teacher : N) (title : string)
    (modules : list module_json) : course_json :=
  {| cj_id := Some 10%N; cj_teacher_id := Some teacher;
     cj_title := Some title; cj_description := Some "";
     cj_category := Some ""; cj_image_url := None;
     cj_is_published := Some false; cj_modules := modules |}.

(** The example of the specification: the client removes L2, adds L3 (a
    PDF) in front of L1, and here also drops the module 21. *)
Definition spec_example : course_json :=
  course_entry 1 "Course C"
    [ module_entry 20 "M1" 0
        [ lesson_entry 33 "L3" 0 (Some "pdf");
          lesson_entry 31 "L1" 1 (Some "video") ] ].

Definition spec_example_after : DB :=
  {| profiles := {[ 1%N; 2%N; 3%N ]};
     courses := {[ 10%N := stored_course 1 "Course C" ]};
     modules := {[ 20%N := stored_module 10 "M1" 0 ]};
     lessons := {[ 33%N := stored_lesson 20 "L3" 0 (Some pdf) 1000;
                   31%N := stored_lesson 20 "L1" 1 (Some video) 0 ]};
     progress := [ completed 90 3 31 ] |}.

(** The file of L1 is detached; everything else stays. *)
Definition file_detached : course_json :=
  course_entry 1 "Course C"
    [ module_entry 20 "M1" 0
        [ lesson_entry 31 "L1" 0 None; lesson_entry 32 "L2" 1 None ];
      module_entry 21 "M2" 1 [ lesson_entry 34 "L4" 0 (Some "pdf") ] ].

(** The lesson 34 is listed under module 20 instead of module 21. *)
Definition lesson_moved : course_json :=
  course_entry 1 "Course C"
    [ module_entry 20 "M1" 0
        [ lesson_entry 31 "L1" 0 (Some "video"); lesson_entry 32 "L2" 1 None;
          lesson_entry 34 "L4" 2 (Some "pdf") ];
      module_entry 21 "M2" 1 [] ].

(** A payload for course 10 that names its owner, teacher 1, as
    [teacher_id], and lists no module. *)
Definition emptied_course : course_json := course_entry 1 "Taken over" [].

(** A payload whose course fields are fine and whose one module has no
    title. *)
Definition untitled_module : course_json :=
  course_entry 1 "Renamed"
    [ {| mj_id := Some 20%N; mj_title := None; mj_order := Some 0%Z;
         mj_lessons := [] |} ].

(** [lesson_moved] saved once on [scenario_db], and saved twice. *)
Definition lesson_moved_once : DB :=
  {| profiles := {[ 1%N; 2%N; 3%N ]};
     courses := {[ 10%N := stored_course 1 "Course C" ]};
     modules := {[ 20%N := stored_module 10 "M1" 0;
                   21%N := stored_module 10 "M2" 1 ]};
     lessons := {[ 31%N := stored_lesson 20 "L1" 0 (Some video) 0;
                   32%N := stored_lesson 20 "L2" 1 None 0 ]};
     progress := [ completed 90 3 31 ] |}.

Definition lesson_moved_twice : DB :=
  {| profiles := {[ 1%N; 2%N; 3%N ]};
     courses := {[ 10%N := stored_course 1 "Course C" ]};
     modules := {[ 20%N := stored_module 10 "M1" 0;
                   21%N := stored_module 10 "M2" 1 ]};
     lessons := {[ 31%N := stored_lesson 20 "L1" 0 (Some video) 0;
                   32%N := stored_lesson 20 "L2" 1 None 0;
                   34%N := stored_lesson 20 "L4" 2 (Some pdf) 1000 ]};
     progress := [ completed 90 3 31 ] |}.

(** [file_detached] saved on [scenario_db]. *)
Definition file_detached_after : DB :=
  {| profiles := {[ 1%N; 2%N; 3%N ]};
     courses := {[ 10%N := stored_course 1 "Course C" ]};
     modules := {[ 20%N := stored_module 10 "M1" 0;
                   21%N := stored_module 10 "M2" 1 ]};
     lessons := {[ 31%N := stored_lesson 20 "L1" 0 None 0;
                   32%N := stored_lesson 20 "L2" 1 None 0;
                   34%N := stored_lesson 21 "L4" 0 (Some pdf) 0 ]};
     progress := [ completed 90 3 31; completed 91 3 34 ] |}.

(** [emptied_course] saved on [scenario_db] by the setup script's
    function: the title is overwritten and every module, lesson and
    progress row of the course is gone. *)
Definition taken_over : DB :=
  {| profiles := {[ 1%N; 2%N; 3%N ]};
     courses := {[ 10%N := {| c_teacher_id := 1; c_title := "Taken over";
                              c_description := ""; c_category := "";
                              c_image_url := None; c_is_published := false;
                              c_created_at := 0; c_updated_at := 1000 |} ]};
     modules := ∅;
     lessons := ∅;
     progress := [] |}.

(** The working state of the transaction when the upsert of the untitled
    module raises: the course is already renamed. *)
Definition renamed_uncommitted : DB :=
  {| profiles := {[ 1%N; 2%N; 3%N ]};
     courses := {[ 10%N := stored_course 1 "Renamed" ]};
     modules := modules scenario_db;
     lessons := lessons scenario_db;
     progress := progress scenario_db |}.

(** [scenario_db] after the student 3 has completed the lesson 32 at 1500
    (the new row got the id 92). *)
Definition lesson_32_completed : DB :=
  {| profiles := {[ 1%N; 2%N; 3%N ]};
     courses := {[ 10%N := stored_course 1 "Course C" ]};
     modules := {[ 20%N := stored_module 10 "M1" 0;
                   21%N := stored_module 10 "M2" 1 ]};
     lessons := {[ 31%N := stored_lesson 20 "L1" 0 (Some video) 0;
                   32%N := stored_lesson 20 "L2" 1 None 0;
                   34%N := stored_lesson 21 "L4" 0 (Some pdf) 0 ]};
     progress := [ completed 90 3 31; completed 91 3 34;
                   {| p_id := 92; p_student_id := 3; p_lesson_id := 32;
                      p_is_completed := true; p_updated_at := 1500 |} ] |}.

(** A second course, 11, of the teacher 2, beside the course 10. *)
Definition two_courses_db : DB :=
  {| profiles := {[ 1%N; 2%N; 3%N ]};
     courses := {[ 10%N := stored_course 1 "Course C";
                   11%N := stored_course 2 "Course D" ]};
     modules := {[ 20%N := stored_module 10 "M1" 0;
                   21%N := stored_module 10 "M2" 1 ]};
     lessons := {[ 31%N := stored_lesson 20 "L1" 0 (Some video) 0;
                   32%N := stored_lesson 20 "L2" 1 None 0;
                   34%N := stored_lesson 21 "L4" 0 (Some pdf) 0 ]};
     progress := [ completed 90 3 31; completed 91 3 34 ] |}.

(** The teacher 2 saves the course 11 with a module entry that carries
    the id of the module 20 of the course 10, and no lessons. *)
Definition reaching_payload : course_json :=
  {| cj_id := Some 11%N; cj_teacher_id := Some 2%N;
     cj_title := Some "Course D"; cj_description := Some "";
     cj_category := Some ""; cj_image_url := None;
     cj_is_published := Some false;
     cj_modules := [ module_entry 20 "Mine now" 0 [] ] |}.

(** A payload of the teacher 2 for the course 11 with rows of its own. *)
Definition own_payload : course_json :=
  {| cj_id := Some 11%N; cj_teacher_id := Some 2%N;
     cj_title := Some "Course D"; cj_description := Some "";
     cj_category := Some ""; cj_image_url := None;
     cj_is_published := Some true;
     cj_modules := [ module_entry 40 "D1" 0
                       [ lesson_entry 50 "D1.1" 0 (Some "pdf") ] ] |}.

(** [own_payload] saved on [two_courses_db] by the teacher 2. *)
Definition own_payload_after : DB :=
  {| profiles := {[ 1%N; 2%N; 3%N ]};
     courses := {[ 10%N := stored_course 1 "Course C";
                   11%N := {| c_teacher_id := 2; c_title := "Course D";
                              c_description := ""; c_category := "";
                              c_image_url := None; c_is_published := true;
                              c_created_at := 0; c_updated_at := 0 |} ]};
     modules := {[ 20%N := stored_module 10 "M1" 0;
                   21%N := stored_module 10 "M2" 1;
                   40%N := {| m_course_id := 11; m_title := "D1"; m_order := 0;
                              m_created_at := 1000 |} ]};
     lessons := {[ 31%N := stored_lesson 20 "L1" 0 (Some video) 0;
                   32%N := stored_lesson 20 "L2" 1 None 0;
                   34%N := stored_lesson 21 "L4" 0 (Some pdf) 0;
                   50%N := {| l_module_id := 40; l_title := "D1.1"; l_order := 0;
                              l_file_name := Some "D1.1";
                              l_file_type := Some pdf;
                              l_file_url := Some "https://files/D1.1";
                              l_file_size := Some 2048%Z;
                              l_created_at := 1000 |} ]};
     progress := [ completed 90 3 31; completed 91 3 34 ] |}.

(** [reaching_payload] saved on [two_courses_db] by the teacher 2: the
    module 20 of the course 10 has the title of the payload and no
    lessons. *)
Definition reaching_payload_after : DB :=
  {| profiles := {[ 1%N; 2%N; 3%N ]};
     courses := {[ 10%N := stored_course 1 "Course C";
                   11%N := stored_course 2 "Course D" ]};
     modules := {[ 20%N := stored_module 10 "Mine now" 0;
                   21%N := stored_module 10 "M2" 1 ]};
     lessons := {[ 34%N := stored_lesson 21 "L4" 0 (Some pdf) 0 ]};
     progress := [ completed 91 3 34 ] |}.

End Scenario.

(** ** Lesson completion ([CoursePlayer] 157-177, table [progress]) *)
Module Player.
Import Db.

Definition set_progress (ps : list progress_row) (db : DB) : DB :=
  {| profiles := profiles db; courses := courses db; modules := modules db;
     lessons := lessons db; progress := ps |}.

(** The columns of [UNIQUE(student_id, lesson_id)]. *)
Definition key (p : progress_row) : N * N := (p_student_id p, p_lesson_id p).

(** The table constraint, as a property of a state. *)
Definition progress_unique (db : DB) : Prop := NoDup (key <$> progress db).

(** The row [DO UPDATE SET] leaves in place of a conflicting row: every
    column of the payload is overwritten, [id] is kept. *)
Definition overwrite (student lesson : N) (is_completed : bool) (updated_at : Z)
    (p : progress_row) : progress_row :=
  if decide (key p = (student, lesson)) then
    {| p_id := p_id p; p_student_id := student; p_lesson_id := lesson;
       p_is_completed := is_completed; p_updated_at := updated_at |}
  else p.

(** [supabase.from('progress').upsert({student_id, lesson_id, is_completed,
    updated_at}, { onConflict: 'student_id, lesson_id' })], that is
    [INSERT ... ON CONFLICT (student_id, lesson_id) DO UPDATE SET ...].
    The statement runs as the caller, under the policy
    [FOR ALL TO authenticated USING (student_id = auth.uid())]; [fresh] is
    the value [gen_random_uuid()] draws for [id]. *)
Definition upsert_progress (ctx : session) (fresh : N) (student lesson : N)
    (is_completed : bool) (updated_at : Z) (db : DB) : result DB :=
  if decide (auth_uid ctx = Some student) then
    if decide (Exists (fun p => key p = (student, lesson)) (progress db)) then
      Ok (set_progress
            (overwrite student lesson is_completed updated_at <$> progress db) db)
    else if decide (Exists (fun p => p_id p = fresh) (progress db)) then
      Err unique_violation
    else if decide (student ∈ profiles db /\ is_Some (lessons db !! lesson)) then
      Ok (set_progress
            (progress db ++
               [ {| p_id := fresh; p_student_id := student;
                    p_lesson_id := lesson; p_is_completed := is_completed;
                    p_updated_at := updated_at |} ]) db)
    else Err foreign_key_violation
  else Err row_security_violation.

(** What a row says apart from its [updated_at]. *)
Definition timeless (p : progress_row) : N * N * N * bool :=
  (p_id p, p_student_id p, p_lesson_id p, p_is_completed p).

(** The row [p] with another [updated_at], and the rows [ps] with the
    [updated_at] of the row of (student, lesson) set to [t]. *)
Definition with_updated_at (t : Z) (p : progress_row) : progress_row :=
  {| p_id := p_id p; p_student_id := p_student_id p;
     p_lesson_id := p_lesson_id p; p_is_completed := p_is_completed p;
     p_updated_at := t |}.

Definition touch (student lesson : N) (t : Z) (ps : list progress_row)
    : list progress_row :=
  (fun p => if decide (key p = (student, lesson)) then with_updated_at t p
            else p) <$> ps.

(** *** The handler *)

Inductive effect :=
| toast_success (message : string)
| console_error (e : pg_error).

(** The component state the handler reads and writes. *)
Record player := {
  completedLessonIds : list N
}.

(** [handleLessonComplete].  [clock] is [new Date()]; an error of the
    upsert is caught and logged. *)
Definition handleLessonComplete (ctx : session) (fresh : N) (clock : Z)
    (studentId lessonId : N) (st : player) (db : DB)
    : player * DB * list effect :=
  if bool_decide (lessonId ∈ completedLessonIds st) then (st, db, [])
  else
    match upsert_progress ctx fresh studentId lessonId true clock db with
    | Ok db' =>
        ({| completedLessonIds := completedLessonIds st ++ [lessonId] |}, db',
         [toast_success "¡Lección completada!"])
    | Err e => (st, db, [console_error e])
    end.

End Player.

(** ** What a call of the save function can reach *)
Module Integrity.
Import Db Migration12.

(** [s] cannot delete a lesson [lid] that is stored under [mid]. *)
Definition spares_lesson (lid mid : N) (s : stmt) : Prop :=
  match s with
  | DeleteLessonsNotIn mo ids => mo <> Some mid \/ Some lid ∈ ids
  | DeleteModulesNotIn _ ids => Some mid ∈ ids
  | _ => True
  end.

(** [s] belongs to a call for the course [cid] that does not name the
    module [mid]: it can neither rewrite nor, when [mid] is a module of
    another course, delete it. *)
Definition passes_module (cid mid : N) (s : stmt) : Prop :=
  match s with
  | UpsertModule _ m => mj_id m <> Some mid
  | DeleteModulesNotIn co _ => co = Some cid
  | _ => True
  end.

(** [s] names neither the lesson [lid] nor the module [mid] it is under. *)
Definition passes_lesson (mid lid : N) (s : stmt) : Prop :=
  match s with
  | UpsertLesson _ l => lj_id l <> Some lid
  | DeleteLessonsNotIn mo _ => mo <> Some mid
  | _ => True
  end.

(** [s] cannot delete the module [mid] of the course [cid]. *)
Definition spares_module (cid mid : N) (s : stmt) : Prop :=
  match s with
  | DeleteModulesNotIn co ids => co <> Some cid \/ Some mid ∈ ids
  | _ => True
  end.

(** The payload [course_data] with [teacher] as its [teacher_id]. *)
Definition claimed_by (teacher : N) (course_data : course_json) : course_json :=
  {| cj_id := cj_id course_data; cj_teacher_id := Some teacher;
     cj_title := cj_title course_data;
     cj_description := cj_description course_data;
     cj_category := cj_category course_data;
     cj_image_url := cj_image_url course_data;
     cj_is_published := cj_is_published course_data;
     cj_modules := cj_modules course_data |}.

(** [s] leaves a lesson that is stored under [mid] stored under [mid],
    whatever else it writes to the row. *)
Definition leaves_under (mid : N) (s : stmt) : Prop :=
  match s with
  | DeleteLessonsNotIn mo _ => mo <> Some mid
  | DeleteModulesNotIn _ _ => False
  | _ => True
  end.

(** The lesson [lid] is stored under the module [mid]. *)
Definition stored_under (lid mid : N) (db : DB) : Prop :=
  exists row, lessons db !! lid = Some row /\ l_module_id row = mid.

End Integrity.

(** ** Moving through the lessons ([CoursePlayer] 125, 142-148, 188-196) *)
Module Navigation.
Import Types.

(** [course.modules.flatMap(m => m.lessons)] *)
Definition allLessons (course : Course) : list Lesson :=
  course_modules course ≫= module_lessons.

(** [Array.prototype.findIndex]: the first index whose element satisfies
    [p], and -1 when there is none. *)
Fixpoint first_index {A} (p : A -> bool) (l : list A) : option nat :=
  match l with
  | [] => None
  | x :: l => if p x then Some 0%nat else S <$> first_index p l
  end.

Definition findIndex {A} (p : A -> bool) (l : list A) : Z :=
  match first_index p l with
  | Some i => Z.of_nat i
  | None => (-1)%Z
  end.

(** [array[i]] for a number [i]; [None] is [undefined]. *)
Definition element {A} (l : list A) (i : Z) : option A :=
  if (i <? 0)%Z then None else l !! Z.to_nat i.

Inductive direction := next | prev.

(** The lesson shown first (lines 143-148): [allLessons[0]] when there is
    a lesson, and [null] as long as there is none. *)
Definition initialLesson (course : Course) : option Lesson :=
  if (0 <? Z.of_nat (length (allLessons course)))%Z
  then element (allLessons course) 0
  else None.

(** [navigateLesson]; the argument and the result are [currentLesson]
    before and after, [None] for [null]. *)
Definition navigateLesson (course : Course) (d : direction)
    (currentLesson : option Lesson) : option Lesson :=
  match currentLesson with
  | None => None
  | Some current =>
      let currentIndex :=
        findIndex (fun l => String.eqb (lesson_id l) (lesson_id current))
                  (allLessons course) in
      match d with
      | next =>
          if (currentIndex <? Z.of_nat (length (allLessons course)) - 1)%Z
          then element (allLessons course) (currentIndex + 1)
          else Some current
      | prev =>
          if (0 <? currentIndex)%Z
          then element (allLessons course) (currentIndex - 1)
          else Some current
      end
  end.

(** The two buttons (lines 303 and 310): [disabled] when the current
    lesson is the first, respectively the last one. *)
Definition prev_disabled (course : Course) (current : Lesson) : bool :=
  (findIndex (fun l => String.eqb (lesson_id l) (lesson_id current))
             (allLessons course) =? 0)%Z.

Definition next_disabled (course : Course) (current : Lesson) : bool :=
  (findIndex (fun l => String.eqb (lesson_id l) (lesson_id current))
             (allLessons course)
   =? Z.of_nat (length (allLessons course)) - 1)%Z.

End Navigation.

(** ** Profiles and the trigger on a new user
       ([SETUP_COMPLETO_NUEVO_PROYECTO.sql] 25-35 and 250-271,
        [src/unnamed/part_003]) *)
Module Profiles.
Import Db.

(** A row of [public.profiles], keyed by [id]. *)
Record profile_row := {
  pf_email : string;                  (* NOT NULL, UNIQUE *)
  pf_role : string;                   (* NOT NULL, CHECK (role IN (...)) *)
  pf_first_name : option string;
  pf_last_name : option string;
  pf_full_name : option string;
  pf_created_at : timestamp
}.

Abbreviation table := (gmap N profile_row) (only parsing).

(** [CHECK (role IN ('teacher', 'student', 'coordinator'))] *)
Definition roles : list string := ["teacher"; "student"; "coordinator"].

(** The row [NEW] of [auth.users] as the trigger reads it: [new.id],
    [new.email], and the four keys of [new.raw_user_meta_data] read with
    [->>]. *)
Record new_user := {
  nu_id : N;
  nu_email : option string;
  nu_role : option string;
  nu_first_name : option string;
  nu_last_name : option string;
  nu_full_name : option string
}.

(** [COALESCE(x, d)] *)
Definition coalesce {A} (x : option A) (d : A) : option A :=
  match x with Some a => Some a | None => Some d end.

(** Another row has the email. *)
Definition email_taken (id : N) (email : string) (t : table) : Prop :=
  map_Exists (fun other row => other <> id /\ pf_email row = email) t.

#[global] Instance email_taken_dec id email t : Decision (email_taken id email t).
Proof. unfold email_taken. apply _. Defined.

(** The checks on a proposed row: the two [NOT NULL] columns, then the
    [CHECK] on [role]. *)
Definition proposed (email role : option string) : result (string * string) :=
  email ← not_null email;
  role ← not_null role;
  if bool_decide (role ∈ roles) then Ok (email, role) else Err check_violation.

(** [INSERT INTO public.profiles (id, email, role, first_name, last_name,
    full_name) VALUES (...)]; [created_at] takes its default. *)
Definition insert_profile (now : timestamp) (id : N)
    (email role first_name last_name full_name : option string) (t : table)
    : result table :=
  '(email, role) ← proposed email role;
  match t !! id with
  | Some _ => Err unique_violation
  | None =>
      if decide (email_taken id email t) then Err unique_violation
      else Ok (<[id := {| pf_email := email; pf_role := role;
                          pf_first_name := first_name;
                          pf_last_name := last_name;
                          pf_full_name := full_name;
                          pf_created_at := now |}]> t)
  end.

(** The same with [ON CONFLICT (id) DO UPDATE SET email, role,
    first_name, last_name, full_name]: a row with the id is overwritten,
    its [created_at] apart. *)
Definition upsert_profile (now : timestamp) (id : N)
    (email role first_name last_name full_name : option string) (t : table)
    : result table :=
  '(email, role) ← proposed email role;
  if decide (email_taken id email t) then Err unique_violation
  else
    Ok (<[id := {| pf_email := email; pf_role := role;
                   pf_first_name := first_name;
                   pf_last_name := last_name;
                   pf_full_name := full_name;
                   pf_created_at :=
                     match t !! id with
                     | Some old => pf_created_at old
                     | None => now
                     end |}]> t).

(** [handle_new_user] of the setup script (lines 250-266).  An error of
    the insert is an error of the trigger, and with it of the insert into
    [auth.users]. *)
Definition handle_new_user (now : timestamp) (new : new_user) (t : table)
    : result table :=
  insert_profile now (nu_id new) (nu_email new)
    (coalesce (nu_role new) "student")
    (nu_first_name new) (nu_last_name new) (nu_full_name new) t.

(** [handle_new_user] of [part_003]: defaults for every column, an upsert,
    and [EXCEPTION WHEN OTHERS] around it, which turns an error into a
    warning and lets the trigger return [new].  The result is the table
    and the error that was swallowed, if any. *)
Definition handle_new_user_robust (now : timestamp) (new : new_user) (t : table)
    : table * option pg_error :=
  match upsert_profile now (nu_id new)
          (coalesce (nu_email new) "")
          (coalesce (nu_role new) "student")
          (coalesce (nu_first_name new) "")
          (coalesce (nu_last_name new) "")
          (coalesce (nu_full_name new) "") t with
  | Ok t' => (t', None)
  | Err e => (t, Some e)
  end.

(** The constraints of the table as a property of a state. *)
Definition well_formed (t : table) : Prop :=
  (forall id row, t !! id = Some row -> pf_role row ∈ roles) /\
  (forall id id' row row',
     t !! id = Some row -> t !! id' = Some row' ->
     pf_email row = pf_email row' -> id = id').

End Profiles.

(** ** The sign-up form ([components/Auth.tsx] 20-107)

    What the user types (names, email, password) is a JavaScript string:
    a sequence of UTF-16 code units, here numbers.  [length] counts the
    units and [trim] works on them, every white space and line terminator
    being one unit.  The literals of the program and the messages of the
    service are kept as texts. *)
Module Auth.

(** [UserRole] of [types.ts] with the values of the enum. *)
Inductive UserRole := STUDENT | TEACHER | COORDINATOR.

Definition role_value (r : UserRole) : string :=
  match r with
  | STUDENT => "student"
  | TEACHER => "teacher"
  | COORDINATOR => "coordinator"
  end.

Inductive AuthMode := login | register.

Definition units := list N.

(** The state of the component. *)
Record form := {
  mode : AuthMode;
  firstName : units;
  lastName : units;
  email : units;
  password : units;
  confirmPassword : units;
  role : UserRole;
  isLoading : bool
}.

(** The code units [String.prototype.trim] strips: the white space
    (TAB, VT, FF, SPACE, NO-BREAK SPACE, U+1680, U+2000 to U+200A, U+202F,
    U+205F, U+3000, U+FEFF) and the line terminators (LF, CR, U+2028,
    U+2029). *)
Definition is_space (u : N) : bool :=
  ((9 <=? u) && (u <=? 13) || (u =? 32) || (u =? 160) || (u =? 5760)
   || (8192 <=? u) && (u <=? 8202) || (u =? 8232) || (u =? 8233)
   || (u =? 8239) || (u =? 8287) || (u =? 12288) || (u =? 65279))%N.

Fixpoint trim_start (s : units) : units :=
  match s with
  | u :: rest => if is_space u then trim_start rest else s
  | [] => []
  end.

(** [trim_end s] drops the white space at the end: a unit stays when it
    is no white space or something stays after it. *)
Fixpoint trim_end (s : units) : units :=
  match s with
  | u :: rest =>
      match trim_end rest with
      | [] => if is_space u then [] else [u]
      | kept => u :: kept
      end
  | [] => []
  end.

Definition trim (s : units) : units := trim_end (trim_start s).

(** The units of a literal of ASCII characters. *)
Definition ascii_units (s : string) : units :=
  (fun c => N.of_nat (nat_of_ascii c)) <$> String.list_ascii_of_string s.

(** [options.data] of [signUp]. *)
Record metadata := {
  md_role : string;
  md_first_name : units;
  md_last_name : units;
  md_full_name : units
}.

Inductive effect :=
| toast_error (message : string)
| toast_success (message : string)
| console_error (message : string)
| auth_signUp (email password : units) (data : metadata)
| auth_signInWithPassword (email password : units).

(** What the two calls answer. *)
Inductive signUp_result :=
| signUp_error (message : string)
| signUp_known_email          (* a user with [identities.length === 0] *)
| signUp_done.

Inductive signIn_result :=
| signIn_error (message : string)
| signIn_done.

Record auth_env := {
  env_signUp : signUp_result;
  env_signIn : signIn_result
}.

Definition with_loading (f : form) (b : bool) : form :=
  {| mode := mode f; firstName := firstName f; lastName := lastName f;
     email := email f; password := password f;
     confirmPassword := confirmPassword f; role := role f; isLoading := b |}.

(** [setPassword(''); setConfirmPassword(''); setMode(m)] *)
Definition cleared (f : form) (m : AuthMode) : form :=
  {| mode := m; firstName := firstName f; lastName := lastName f;
     email := email f; password := []; confirmPassword := [];
     role := role f; isLoading := isLoading f |}.

(** [s.includes(sub)] *)
Fixpoint includes (sub s : string) : bool :=
  String.prefix sub s ||
  match s with
  | String _ rest => includes sub rest
  | EmptyString => false
  end.

(** The message the [catch] shows for an error of the sign-in. *)
Definition signIn_message (message : string) : string :=
  if includes "Invalid login credentials" message
  then "Correo o contraseña incorrectos"
  else if includes "Email not confirmed" message
  then "Debes verificar tu correo antes de iniciar sesión"
  else message.

(** [authError.message || 'Error de autenticación'] *)
Definition shown (message : string) : string :=
  if String.eqb message "" then "Error de autenticación" else message.

(** [handleSubmit]: the state after it has run, and what it did. *)
Definition handleSubmit (env : auth_env) (f : form) : form * list effect :=
  match mode f with
  | register =>
      if bool_decide (trim (firstName f) = [])
         || bool_decide (trim (lastName f) = [])
      then (with_loading f false,
            [toast_error "Por favor ingresa tu nombre y apellido."])
      else if (length (password f) <? 8)%nat
      then (with_loading f false,
            [toast_error "La contraseña debe tener al menos 8 caracteres."])
      else if negb (bool_decide (password f = confirmPassword f))
      then (with_loading f false,
            [toast_error "Las contraseñas no coinciden."])
      else
        let call :=
          auth_signUp (email f) (password f)
            {| md_role := role_value (role f);
               md_first_name := trim (firstName f);
               md_last_name := trim (lastName f);
               md_full_name :=
                 trim (firstName f) ++ 32%N :: trim (lastName f) |} in
        match env_signUp env with
        | signUp_error message =>
            (with_loading f false,
             [call; console_error message; toast_error (shown message)])
        | signUp_known_email =>
            (with_loading f false,
             [call;
              toast_error "Este correo ya está registrado. Intenta iniciar sesión."])
        | signUp_done =>
            (with_loading (cleared f login) false,
             [call; toast_success "¡Registro exitoso! Ya puedes iniciar sesión."])
        end
  | login =>
      let call := auth_signInWithPassword (trim (email f)) (password f) in
      match env_signIn env with
      | signIn_error message =>
          (with_loading f false,
           [call; console_error (signIn_message message);
            toast_error (shown (signIn_message message))])
      | signIn_done => (with_loading f false, [call; toast_success "¡Bienvenido!"])
      end
  end.

(** [toggleMode] *)
Definition toggleMode (f : form) : form :=
  cleared f (match mode f with login => register | register => login end).

(** A form that passes the three checks of the registration; the first
    name starts with an IDEOGRAPHIC SPACE (U+3000). *)
Definition sample_form : form :=
  {| mode := register; firstName := 12288%N :: ascii_units " Ada ";
     lastName := ascii_units "Lovelace";
     email := ascii_units "ada@example.org";
     password := ascii_units "analytical";
     confirmPassword := ascii_units "analytical";
     role := TEACHER; isLoading := false |}.

(** A form whose first name is white space outside Latin-1 only. *)
Definition blank_name_form : form :=
  {| mode := register; firstName := [12288%N; 8195%N; 65279%N];
     lastName := ascii_units "Lovelace";
     email := ascii_units "ada@example.org";
     password := ascii_units "analytical";
     confirmPassword := ascii_units "analytical";
     role := STUDENT; isLoading := false |}.

Definition sample_auth_env : auth_env :=
  {| env_signUp := signUp_done; env_signIn := signIn_done |}.

End Auth.

(** ** The course editor ([CourseEditor] in [CoursePreview.tsx]) *)
Module Editor.
Import Types.

(** *** Arrays of the editor state

    [{ ...x, order: index }] is an object with the one field [order] when
    [x] is [undefined].  A cell of an array of the editor state is
    therefore an object of its type or such an order-only object. *)
Inductive cell (A : Type) :=
| Obj (a : A)
| OrderOnly (order : Z).
Arguments Obj {A} a.
Arguments OrderOnly {A} order.

Record EModule := {
  emodule_id : string;
  emodule_title : string;
  emodule_lessons : list (cell Lesson);
  emodule_order : Z
}.

Record ECourse := {
  ecourse_id : string;
  ecourse_title : string;
  ecourse_description : string;
  ecourse_category : string;
  ecourse_imageUrl : option string;
  ecourse_modules : list (cell EModule);
  ecourse_isPublished : bool;
  ecourse_teacher_id : string
}.

(** A [Course] of [types.ts] as editor state. *)
Definition of_module (m : Module_) : EModule :=
  {| emodule_id := module_id m; emodule_title := module_title m;
     emodule_lessons := Obj <$> module_lessons m;
     emodule_order := module_order m |}.

Definition of_course (c : Course) : ECourse :=
  {| ecourse_id := course_id c; ecourse_title := course_title c;
     ecourse_description := course_description c;
     ecourse_category := course_category c;
     ecourse_imageUrl := course_imageUrl c;
     ecourse_modules := (Obj ∘ of_module) <$> course_modules c;
     ecourse_isPublished := course_isPublished c;
     ecourse_teacher_id := course_teacher_id c |}.

Definition lesson_with_order (l : Lesson) (order : Z) : Lesson :=
  {| lesson_id := lesson_id l; lesson_title := lesson_title l;
     lesson_content := lesson_content l; lesson_order := order |}.

Definition lesson_with_content (l : Lesson) (content : option LessonFile) : Lesson :=
  {| lesson_id := lesson_id l; lesson_title := lesson_title l;
     lesson_content := content; lesson_order := lesson_order l |}.

Definition module_with_order (m : EModule) (order : Z) : EModule :=
  {| emodule_id := emodule_id m; emodule_title := emodule_title m;
     emodule_lessons := emodule_lessons m; emodule_order := order |}.

Definition module_with_lessons (m : EModule) (lessons : list (cell Lesson))
    : EModule :=
  {| emodule_id := emodule_id m; emodule_title := emodule_title m;
     emodule_lessons := lessons; emodule_order := emodule_order m |}.

Definition course_with_modules (c : ECourse) (modules : list (cell EModule))
    : ECourse :=
  {| ecourse_id := ecourse_id c; ecourse_title := ecourse_title c;
     ecourse_description := ecourse_description c;
     ecourse_category := ecourse_category c;
     ecourse_imageUrl := ecourse_imageUrl c;
     ecourse_modules := modules;
     ecourse_isPublished := ecourse_isPublished c;
     ecourse_teacher_id := ecourse_teacher_id c |}.

(** Field reads on a cell; [None] is [undefined]. *)
Definition module_cell_id (c : cell EModule) : option string :=
  match c with Obj m => Some (emodule_id m) | OrderOnly _ => None end.

Definition lesson_cell_id (c : cell Lesson) : option string :=
  match c with Obj l => Some (lesson_id l) | OrderOnly _ => None end.

(** The [order] of a cell. *)
Definition cell_order {A} (order : A -> Z) (c : cell A) : Z :=
  match c with Obj a => order a | OrderOnly order => order end.

(** *** Strings *)

(** [s.split(sep)] for a separator of one character. *)
Fixpoint split_on (sep : ascii) (s : string) : list string :=
  match s with
  | EmptyString => [EmptyString]
  | String c rest =>
      if Ascii.eqb c sep then EmptyString :: split_on sep rest
      else match split_on sep rest with
           | piece :: pieces => String c piece :: pieces
           | [] => [String c EmptyString]
           end
  end.

(** The character [c] occurs in [s]. *)
Fixpoint occurs (c : ascii) (s : string) : bool :=
  match s with
  | EmptyString => false
  | String c' rest => Ascii.eqb c' c || occurs c rest
  end.

(** *** Drag and drop (lines 687-711) *)

Record DraggableLocation := {
  droppableId : string;
  index : nat       (* an index of the rendered list: never negative *)
}.

Record DropResult := {
  source : DraggableLocation;
  destination : option DraggableLocation;
  type : string
}.

(** [const [removed] = items.splice(start, 1)]: the element at [start], if
    there is one, and the array without it. *)
Definition splice_out {A} (start : nat) (items : list A) : option A * list A :=
  (items !! start, delete start items).

(** [items.splice(start, 0, item)]: [item] goes in at [start], at the end
    when [start] is beyond it. *)
Definition splice_in {A} (start : nat) (item : A) (items : list A) : list A :=
  take start items ++ item :: drop start items.

(** [{ ...x, order: index }] *)
Definition spread_order {A} (with_order : A -> Z -> A)
    (x : option (cell A)) (index : nat) : cell A :=
  match x with
  | Some (Obj a) => Obj (with_order a (Z.of_nat index))
  | Some (OrderOnly _) | None => OrderOnly (Z.of_nat index)
  end.

(** Lines 692-695 and 702-705: copy, take out, put in, renumber.  The
    element taken out is [undefined] when [source] is past the end. *)
Definition reorder {A} (with_order : A -> Z -> A) (source destination : nat)
    (array : list (cell A)) : list (cell A) :=
  let items := Some <$> array in
  let '(removed, items) := splice_out source items in
  let reorderedItem := mjoin removed in
  let items := splice_in destination reorderedItem items in
  imap (fun index x => spread_order with_order x index) items.

Definition onDragEnd (result : DropResult) (course : ECourse) : ECourse :=
  match destination result with
  | None => course
  | Some destination =>
      if String.eqb (type result) "MODULES" then
        let updatedModules :=
          reorder module_with_order (index (source result)) (index destination)
                  (ecourse_modules course) in
        course_with_modules course updatedModules
      else if String.prefix "LESSONS_" (type result) then
        let moduleId := split_on "_"%char (type result) !! 1%nat in
        match List.find (fun m => bool_decide (module_cell_id m = moduleId))
                        (ecourse_modules course) with
        | Some (Obj module) =>
            let updatedLessons :=
              reorder lesson_with_order (index (source result))
                      (index destination) (emodule_lessons module) in
            let updatedModules :=
              (fun m => match m with
                        | Obj m' =>
                            if bool_decide (Some (emodule_id m') = moduleId)
                            then Obj (module_with_lessons m' updatedLessons)
                            else m
                        | OrderOnly _ => m
                        end) <$> ecourse_modules course in
            course_with_modules course updatedModules
        | Some (OrderOnly _) => course
        | None => course
        end
      else course
  end.

(** The list with every [order] set to zero: what the list holds, the
    numbering apart. *)
Definition unnumbered {A} (with_order : A -> Z -> A) (array : list (cell A))
    : list (cell A) :=
  (fun x => match x with
            | Obj a => Obj (with_order a 0%Z)
            | OrderOnly _ => OrderOnly 0%Z
            end) <$> array.

(** The type of the droppable that holds the lessons of a module
    (line 805). *)
Definition lessons_type (moduleId : string) : string := "LESSONS_" +:+ moduleId.

(** What a drag from [source] to [destination] makes of the array [old]:
    every element of [new] has its index as [order]; and when [source] is
    the index of an element of [old], [new] has the length of [old] and
    holds, the numbering apart, the elements of [old] with that element
    moved to [destination]. *)
Definition renumbered {A} (with_order : A -> Z -> A) (order : A -> Z)
    (source destination : nat) (old new : list (cell A)) : Prop :=
  (forall i c, new !! i = Some c -> cell_order order c = Z.of_nat i) /\
  (forall moved, old !! source = Some moved ->
     length new = length old /\
     unnumbered with_order new
       = unnumbered with_order (splice_in destination moved (delete source old)) /\
     unnumbered with_order new ≡ₚ unnumbered with_order old).

(** The module at the index [k] of [modules] is [m], and no other module
    of the array has the id of [m]. *)
Definition the_module_at (modules : list (cell EModule)) (k : nat) (m : EModule)
    : Prop :=
  modules !! k = Some (Obj m) /\
  forall j m', modules !! j = Some (Obj m') -> emodule_id m' = emodule_id m -> j = k.

(** *** Lesson files (lines 560-635) *)

Inductive UploadStatus := idle | preparing | uploading | completed | error.

(** The component state the upload handler reads and writes. *)
Record editor := {
  course : ECourse;
  uploadProgress : gmap string Z;
  uploadStatus : gmap string UploadStatus
}.

(** A [File] of the browser. *)
Record File := {
  file_name : string;
  file_type : string;
  file_size : Z
}.

Inductive effect :=
| toast_error (message : string)
| storage_upload (bucket path : string) (file : File)
| storage_getPublicUrl (bucket path : string).

(** What the handler does not decide: the value of [uuidv4()], how many
    times the progress timer fires before the upload settles, the result
    of the upload (an error message or [data.path]) and the public URL of
    the stored object.  The handler is taken to run on its own: the
    interleaving with other handlers at its [await]s is not modelled. *)
Record upload_env := {
  env_uuid : string;
  env_ticks : nat;
  env_upload : string + string;
  env_publicUrl : string
}.

(** The callback of [setInterval] (lines 582-586). *)
Definition tick (lessonId : string) (prev : gmap string Z) : gmap string Z :=
  let current := default 0%Z (prev !! lessonId) in
  if bool_decide (90 <= current)%Z then prev
  else <[lessonId := (current + 10)%Z]> prev.

(** [file.name.split('.').pop()] *)
Definition extension (name : string) : string :=
  default "" (last (split_on "." name)).

(** Lines 619-622: the file becomes the content of the lesson. *)
Definition attach (moduleId lessonId : string) (newFile : LessonFile)
    (modules : list (cell EModule)) : list (cell EModule) :=
  (fun m => match m with
            | Obj m' =>
                if String.eqb (emodule_id m') moduleId then
                  Obj (module_with_lessons m'
                         ((fun l => match l with
                                    | Obj l' =>
                                        if String.eqb (lesson_id l') lessonId
                                        then Obj (lesson_with_content l' (Some newFile))
                                        else l
                                    | OrderOnly _ => l
                                    end) <$> emodule_lessons m'))
                else m
            | OrderOnly _ => m
            end) <$> modules.

(** [handleFileChange].  [files] is [e.target.files], [None] for null. *)
Definition handleFileChange (env : upload_env) (files : option (list File))
    (moduleId lessonId : string) (st : editor) : editor * list effect :=
  match files with
  | None | Some [] => (st, [])
  | Some (file :: _) =>
      if String.eqb (ecourse_teacher_id (course st)) "" then (st, [])
      else if negb (String.eqb (file_type file) "video/mp4")
              && negb (String.eqb (file_type file) "application/pdf") then
        (st, [toast_error
                "Tipo de archivo no soportado. Sube un video MP4 o un PDF."])
      else
        let fileExt := extension (file_name file) in
        let filePath :=
          ecourse_teacher_id (course st) +:+ "/" +:+ ecourse_id (course st)
          +:+ "/" +:+ moduleId +:+ "/" +:+ lessonId +:+ "/" +:+ env_uuid env
          +:+ "." +:+ fileExt in
        let status :=
          <[lessonId := uploading]>
            (<[lessonId := preparing]> (uploadStatus st)) in
        let progress :=
          Nat.iter (env_ticks env) (tick lessonId)
                   (<[lessonId := 0%Z]> (uploadProgress st)) in
        let upload := storage_upload "lesson-files" filePath file in
        match env_upload env with
        | inl message =>
            ({| course := course st;
                uploadProgress := delete lessonId progress;
                uploadStatus := <[lessonId := error]> status |},
             [upload; toast_error ("Error al subir el archivo: " +:+ message)])
        | inr path =>
            let newFile :=
              {| lf_name := file_name file; lf_type := file_type file;
                 lf_url := env_publicUrl env; lf_size := file_size file |} in
            ({| course :=
                  course_with_modules (course st)
                    (attach moduleId lessonId newFile
                            (ecourse_modules (course st)));
                uploadProgress :=
                  delete lessonId (<[lessonId := 100%Z]> progress);
                uploadStatus :=
                  delete lessonId (<[lessonId := completed]> status) |},
             [upload; storage_getPublicUrl "lesson-files" path])
        end
  end.

(** The handler asked for a transfer. *)
Definition uploads (fx : list effect) : Prop :=
  exists bucket path file, storage_upload bucket path file ∈ fx.

(** *** The other handlers of the editor (lines 517-558)

    Each of them maps or filters [course.modules] by [m.id]; on an
    order-only object [m.id] is [undefined] and equal to no id. *)

Definition module_with_title (m : EModule) (title : string) : EModule :=
  {| emodule_id := emodule_id m; emodule_title := title;
     emodule_lessons := emodule_lessons m; emodule_order := emodule_order m |}.

Definition lesson_with_title (l : Lesson) (title : string) : Lesson :=
  {| lesson_id := lesson_id l; lesson_title := title;
     lesson_content := lesson_content l; lesson_order := lesson_order l |}.

(** [modules.map(m => m.id === moduleId ? f(m) : m)] *)
Definition map_module (moduleId : string) (f : EModule -> EModule)
    (modules : list (cell EModule)) : list (cell EModule) :=
  (fun m => match m with
            | Obj m' => if String.eqb (emodule_id m') moduleId then Obj (f m')
                        else m
            | OrderOnly _ => m
            end) <$> modules.

(** [lessons.map(l => l.id === lessonId ? f(l) : l)] *)
Definition map_lesson (lessonId : string) (f : Lesson -> Lesson)
    (lessons : list (cell Lesson)) : list (cell Lesson) :=
  (fun l => match l with
            | Obj l' => if String.eqb (lesson_id l') lessonId then Obj (f l')
                        else l
            | OrderOnly _ => l
            end) <$> lessons.

(** [handleAddModule]; [fresh] is the value of [uuidv4()]. *)
Definition handleAddModule (fresh : string) (course : ECourse) : ECourse :=
  let newModule :=
    {| emodule_id := fresh;
       emodule_title :=
         "Nuevo Módulo " +:+ pretty (length (ecourse_modules course) + 1)%nat;
       emodule_lessons := [];
       emodule_order := Z.of_nat (length (ecourse_modules course)) |} in
  course_with_modules course (ecourse_modules course ++ [Obj newModule]).

(** [handleUpdateModuleTitle] *)
Definition handleUpdateModuleTitle (moduleId title : string) (course : ECourse)
    : ECourse :=
  course_with_modules course
    (map_module moduleId (fun m => module_with_title m title)
                (ecourse_modules course)).

(** [handleDeleteModule] *)
Definition handleDeleteModule (moduleId : string) (course : ECourse) : ECourse :=
  course_with_modules course
    (filter (fun m => module_cell_id m <> Some moduleId) (ecourse_modules course)).

(** [handleAddLesson]; [fresh] is the value of [uuidv4()]. *)
Definition handleAddLesson (fresh moduleId : string) (course : ECourse)
    : ECourse :=
  match List.find (fun m => bool_decide (module_cell_id m = Some moduleId))
                  (ecourse_modules course) with
  | Some (Obj module) =>
      let newLesson :=
        {| lesson_id := fresh; lesson_title := "Nueva Lección";
           lesson_content := None;
           lesson_order := Z.of_nat (length (emodule_lessons module)) |} in
      course_with_modules course
        (map_module moduleId
           (fun m => module_with_lessons m (emodule_lessons m ++ [Obj newLesson]))
           (ecourse_modules course))
  | Some (OrderOnly _) | None => course
  end.

(** [handleUpdateLessonTitle] *)
Definition handleUpdateLessonTitle (moduleId lessonId title : string)
    (course : ECourse) : ECourse :=
  course_with_modules course
    (map_module moduleId
       (fun m => module_with_lessons m
                   (map_lesson lessonId (fun l => lesson_with_title l title)
                               (emodule_lessons m)))
       (ecourse_modules course)).

(** [handleDeleteLesson] *)
Definition handleDeleteLesson (moduleId lessonId : string) (course : ECourse)
    : ECourse :=
  course_with_modules course
    (map_module moduleId
       (fun m => module_with_lessons m
                   (filter (fun l => lesson_cell_id l <> Some lessonId)
                           (emodule_lessons m)))
       (ecourse_modules course)).

(** *** Conditions on an editor state *)

(** Every element of the array has its index as [order]. *)
Definition numbered {A} (order : A -> Z) (array : list (cell A)) : Prop :=
  forall i c, array !! i = Some c -> cell_order order c = Z.of_nat i.

(** The ids of the modules of an array, and of the lessons of a module. *)
Definition module_cell_ids (modules : list (cell EModule)) : list (option string) :=
  module_cell_id <$> modules.

Definition lesson_cell_ids (lessons : list (cell Lesson)) : list (option string) :=
  lesson_cell_id <$> lessons.

(** The lesson at the index [j] of [lessons] is [l], and no other lesson
    of the array has the id of [l]. *)
Definition the_lesson_at (lessons : list (cell Lesson)) (j : nat) (l : Lesson)
    : Prop :=
  lessons !! j = Some (Obj l) /\
  forall i l', lessons !! i = Some (Obj l') -> lesson_id l' = lesson_id l -> i = j.

(** The same for any array of the editor state, with [id] the field read. *)
Definition cell_id {A} (id : A -> string) (c : cell A) : option string :=
  match c with Obj a => Some (id a) | OrderOnly _ => None end.

Definition the_one_at {A} (id : A -> string) (array : list (cell A)) (k : nat)
    (a : A) : Prop :=
  array !! k = Some (Obj a) /\
  forall j a', array !! j = Some (Obj a') -> id a' = id a -> j = k.

(** [s.split(sep).join(sep)] for a separator of one character. *)
Fixpoint join_with (sep : ascii) (pieces : list string) : string :=
  match pieces with
  | [] => ""
  | [piece] => piece
  | piece :: rest => piece +:+ String sep (join_with sep rest)
  end.

(** The [LessonFile] that line 617 builds for an uploaded file. *)
Definition new_file (env : upload_env) (file : File) : LessonFile :=
  {| lf_name := file_name file; lf_type := file_type file;
     lf_url := env_publicUrl env; lf_size := file_size file |}.

(** *** What a lesson shows under its title (lines 823-849)

    The file row when the lesson has a file; otherwise the progress panel
    when [uploadStatus] has an entry for the lesson (every status is a
    non-empty string); otherwise the file input with its button, the one
    place [handleFileChange] is called from. *)
Inductive lesson_panel :=
| FileRow (file : LessonFile)
| ProgressPanel (progress : Z) (status : UploadStatus)
| FileInput.

Definition lesson_panel_of (st : editor) (lesson : Lesson) : lesson_panel :=
  match lesson_content lesson with
  | Some file => FileRow file
  | None =>
      match uploadStatus st !! lesson_id lesson with
      | Some status =>
          ProgressPanel (default 0%Z (uploadProgress st !! lesson_id lesson))
                        status
      | None => FileInput
      end
  end.

(** *** Sample editor states *)

Definition sample_lesson (id title : string) (order : Z) : Lesson :=
  {| lesson_id := id; lesson_title := title; lesson_content := None;
     lesson_order := order |}.

Definition sample_module (id title : string) (order : Z)
    (lessons : list Lesson) : EModule :=
  {| emodule_id := id; emodule_title := title;
     emodule_lessons := Obj <$> lessons; emodule_order := order |}.

Definition first_module : EModule :=
  sample_module "6f1c2a7e-0001" "M1" 0
    [ sample_lesson "9b3d-01" "L1" 0; sample_lesson "9b3d-02" "L2" 1;
      sample_lesson "9b3d-03" "L3" 2 ].

Definition second_module : EModule :=
  sample_module "6f1c2a7e-0002" "M2" 1 [ sample_lesson "9b3d-04" "L4" 0 ].

Definition sample_course (teacher_id : string) : ECourse :=
  {| ecourse_id := "c0ffee00-0000"; ecourse_title := "Course C";
     ecourse_description := ""; ecourse_category := "";
     ecourse_imageUrl := None;
     ecourse_modules := [ Obj first_module; Obj second_module ];
     ecourse_isPublished := false; ecourse_teacher_id := teacher_id |}.

Definition sample_editor (teacher_id : string) : editor :=
  {| course := sample_course teacher_id; uploadProgress := ∅;
     uploadStatus := ∅ |}.

Definition at_index (i : nat) : DraggableLocation :=
  {| droppableId := ""; index := i |}.

(** The second module is dropped in front of the first. *)
Definition module_drag : DropResult :=
  {| source := at_index 1; destination := Some (at_index 0);
     type := "MODULES" |}.

(** The first lesson of the first module is dropped at the end. *)
Definition lesson_drag : DropResult :=
  {| source := at_index 0; destination := Some (at_index 2);
     type := lessons_type (emodule_id first_module) |}.

Definition png : File :=
  {| file_name := "cover.png"; file_type := "image/png"; file_size := 4096 |}.

Definition mp4 : File :=
  {| file_name := "intro.final.mp4"; file_type := "video/mp4";
     file_size := 1048576 |}.

Definition refusing_env : upload_env :=
  {| env_uuid := "0a0b0c0d"; env_ticks := 12;
     env_upload := inl "The resource already exists";
     env_publicUrl := "" |}.

Definition sample_env : upload_env :=
  {| env_uuid := "0a0b0c0d"; env_ticks := 3; env_upload := inr "stored/path";
     env_publicUrl := "https://files/stored/path" |}.

End Editor.

(** ** Removing the file of a lesson ([CoursePreview.tsx] 641-685) *)
Module Removal.
Import Types Editor.

(** [s.split(sep)] for a separator of one character or more, from left
    to right: [skip] counts the characters of a separator found that are
    still to pass over, [piece] is the piece read so far. *)
Fixpoint split_from (sep s : string) (skip : nat) (piece : string)
    : list string :=
  match s with
  | EmptyString => [piece]
  | String c rest =>
      match skip with
      | S skip' => split_from sep rest skip' piece
      | O =>
          if String.prefix sep s
          then piece :: split_from sep rest (String.length sep - 1) ""
          else split_from sep rest 0 (piece +:+ String c "")
      end
  end.

Definition split (sep s : string) : list string := split_from sep s 0 "".

(** [array.indexOf(x)], [None] for -1. *)
Fixpoint indexOf (x : string) (array : list string) : option nat :=
  match array with
  | [] => None
  | y :: rest => if String.eqb y x then Some 0%nat else S <$> indexOf x rest
  end.

(** Lines 646-666: the path of the stored object, read off the URL of the
    file.  [pathname] is [new URL(url).pathname], [None] when the
    constructor throws; the result [None] is [undefined]. *)
Definition filePath_of (pathname : string -> option string) (url : string)
    : option string :=
  if Auth.includes "/storage/v1/object/public/lesson-files/" url then
    split "/lesson-files/" url !! 1%nat
  else if Auth.includes "/lesson-files/" url then
    last (split "/lesson-files/" url)
  else
    match pathname url with
    | Some path =>
        let pathParts := split_on "/" path in
        match indexOf "lesson-files" pathParts with
        | Some lessonFilesIndex =>
            Some (join_with "/" (drop (S lessonFilesIndex) pathParts))
        | None => Some url
        end
    | None => Some url
    end.

Inductive effect :=
| storage_remove (bucket : string) (paths : list (option string))
| toast_error (message : string)
| toast_success (message : string)
| console_error.

(** What the storage answers: done, an error with its message, or an
    exception with its [message], [None] when it has none. *)
Inductive remove_result :=
| remove_done
| remove_error (message : string)
| remove_throws (message : option string).

Record remove_env := {
  env_pathname : string -> option string;
  env_remove : remove_result
}.

(** Line 642:
    [course.modules.find(m => m.id === moduleId)?.lessons.find(l => l.id === lessonId)] *)
Definition find_lesson (moduleId lessonId : string) (course : ECourse)
    : option Lesson :=
  match List.find (fun m => bool_decide (module_cell_id m = Some moduleId))
                  (ecourse_modules course) with
  | Some (Obj module) =>
      match List.find (fun l => bool_decide (lesson_cell_id l = Some lessonId))
                      (emodule_lessons module) with
      | Some (Obj lesson) => Some lesson
      | Some (OrderOnly _) | None => None
      end
  | Some (OrderOnly _) | None => None
  end.

(** [removeFile] *)
Definition removeFile (env : remove_env) (moduleId lessonId : string)
    (course : ECourse) : ECourse * list effect :=
  match find_lesson moduleId lessonId course with
  | None => (course, [])
  | Some lesson =>
      match lesson_content lesson with
      | None => (course, [])
      | Some content =>
          let filePath := filePath_of (env_pathname env) (lf_url content) in
          let remove := storage_remove "lesson-files" [filePath] in
          match env_remove env with
          | remove_error message =>
              (course,
               [remove;
                toast_error ("Error al eliminar el archivo: " +:+ message)])
          | remove_throws message =>
              (course,
               [remove; console_error;
                toast_error ("Error al eliminar el archivo: "
                             +:+ Media.or_else message "Error desconocido")])
          | remove_done =>
              (course_with_modules course
                 (map_module moduleId
                    (fun m => module_with_lessons m
                                (map_lesson lessonId
                                   (fun l => lesson_with_content l None)
                                   (emodule_lessons m)))
                    (ecourse_modules course)),
               [remove; toast_success "Archivo eliminado."])
          end
      end
  end.

(** *** Samples *)

(** A storage that takes the upload and serves the object under the
    public address of the bucket. *)
Definition serving_env : upload_env :=
  {| env_uuid := "0a0b0c0d"; env_ticks := 3;
     env_upload :=
       inr "t-01/c0ffee00-0000/6f1c2a7e-0001/9b3d-01/0a0b0c0d.mp4";
     env_publicUrl :=
       "https://abc.supabase.co/storage/v1/object/public/lesson-files/t-01/c0ffee00-0000/6f1c2a7e-0001/9b3d-01/0a0b0c0d.mp4" |}.

Definition removing_env : remove_env :=
  {| env_pathname := fun _ => None; env_remove := remove_done |}.

End Removal.
(* ===================================================================== *)
(** * Part II. Lemmas and theorems                                        *)
(* ===================================================================== *)

(** ** Media kinds *)

(** C8. The two helpers translate between the enum tokens and the MIME
    tokens without loss: [normalizeFileType (enumToMimeType e)] is [e] for
    both enum tokens, and [enumToMimeType] undoes [normalizeFileType] on
    both MIME tokens (where [normalizeFileType] never answers [null]). *)
Theorem media_translation_lossless :
  (forall e, e ∈ Media.enum_tokens ->
     Media.normalizeFileType (Media.enumToMimeType e) = Some e) /\
  (forall t, t ∈ Media.mime_tokens ->
     exists e, Media.normalizeFileType t = Some e /\
               e ∈ Media.enum_tokens /\
               Media.enumToMimeType e = t).
Proof.
  split.
  - intros e He. unfold Media.enum_tokens in He.
    repeat (apply elem_of_cons in He as [-> | He]; [reflexivity |]).
    by apply elem_of_nil in He.
  - intros t Ht. unfold Media.mime_tokens in Ht.
    apply elem_of_cons in Ht as [-> | Ht].
    { exists "video". unfold Media.enum_tokens.
      split; [reflexivity | split; [set_solver | reflexivity]]. }
    apply elem_of_cons in Ht as [-> | Ht].
    { exists "pdf". unfold Media.enum_tokens.
      split; [reflexivity | split; [set_solver | reflexivity]]. }
    by apply elem_of_nil in Ht.
Qed.

Lemma media_translation_lossless_witness :
  Media.normalizeFileType (Media.enumToMimeType "video") = Some "video" /\
  exists e, Media.normalizeFileType "video/mp4" = Some e /\
            e ∈ Media.enum_tokens /\ Media.enumToMimeType e = "video/mp4".
Proof.
  split.
  - apply (proj1 media_translation_lossless).
    unfold Media.enum_tokens. set_solver.
  - apply (proj2 media_translation_lossless).
    unfold Media.mime_tokens. set_solver.
Defined.

(** The payload of a save and the student's fetch compose to the identity
    on the MIME tokens. *)
Lemma student_fetch_roundtrip t :
  t ∈ Media.mime_tokens ->
  Media.student_fetch_type (Some (Media.payload_type t)) = t.
Proof.
  unfold Media.mime_tokens. intros Ht.
  repeat (apply elem_of_cons in Ht as [-> | Ht]; [reflexivity |]).
  by apply elem_of_nil in Ht.
Qed.

(** The teacher's fetch runs [normalizeFileType] on the stored enum value,
    which is not a MIME type: a stored ['video'] comes back as a PDF. *)
Lemma teacher_fetch_reads_video_as_pdf :
  Media.teacher_fetch_type (Some "video") = "application/pdf".
Proof. reflexivity. Qed.


(** ** The student dashboard *)

Section DashboardFacts.
Import Types Dashboard.

Lemma ratio_in_unit_interval (c t : nat) :
  (c <= t)%nat -> t <> 0%nat ->
  (0 <= inject_Z (Z.of_nat c) / inject_Z (Z.of_nat t) <= 1)%Q.
Proof.
  intros Hct Ht.
  assert (Hpos : (0 < inject_Z (Z.of_nat t))%Q).
  { change 0%Q with (inject_Z 0). rewrite <- Zlt_Qlt. lia. }
  split.
  - apply Qle_shift_div_l; [exact Hpos |].
    rewrite Qmult_0_l. change 0%Q with (inject_Z 0).
    rewrite <- Zle_Qle. lia.
  - apply Qle_shift_div_r; [exact Hpos |].
    rewrite Qmult_1_l. rewrite <- Zle_Qle. lia.
Qed.

Lemma Math_round_between (x : Q) :
  (0 <= x <= inject_Z 100)%Q -> (0 <= Math_round x <= 100)%Z.
Proof.
  intros [Hlo Hhi]. unfold Math_round. split.
  - change 0%Z with (Qfloor (0 + (1 # 2))).
    apply Qfloor_resp_le. by apply Qplus_le_l.
  - change 100%Z with (Qfloor (inject_Z 100 + (1 # 2))).
    apply Qfloor_resp_le. by apply Qplus_le_l.
Qed.

(** C10. [getCourseProgress] answers 0 for a course without lessons,
    without dividing, and an integer between 0 and 100 whenever the
    number of completed lessons does not exceed the number of lessons.
    The rounding of binary64 arithmetic enters through [rnd], of which
    only monotonicity and the exactness of 0, 1 and 100 are used. *)
Theorem getCourseProgress_total_and_bounded
    (rnd : Q -> Q)
    (rnd_mono : forall x y, (x <= y)%Q -> (rnd x <= rnd y)%Q)
    (rnd_0 : (rnd 0 == 0)%Q)
    (rnd_1 : (rnd 1 == 1)%Q)
    (rnd_100 : (rnd (inject_Z 100) == inject_Z 100)%Q)
    (progress : list Progress) (course : Course) :
  (totalLessons course = 0%nat ->
     getCourseProgress rnd progress course = 0%Z) /\
  ((completedLessons progress course <= totalLessons course)%nat ->
     (0 <= getCourseProgress rnd progress course <= 100)%Z).
Proof.
  split.
  - intros H0. unfold getCourseProgress. by rewrite H0.
  - intros Hle. unfold getCourseProgress.
    destruct (Nat.eqb (totalLessons course) 0) eqn:Ht; [lia |].
    apply Nat.eqb_neq in Ht.
    apply Math_round_between. unfold fmul, fdiv.
    destruct (ratio_in_unit_interval _ _ Hle Ht) as [Hq0 Hq1].
    set (q := (inject_Z (Z.of_nat (completedLessons progress course)) /
               inject_Z (Z.of_nat (totalLessons course)))%Q) in *.
    assert (Hr0 : (0 <= rnd q)%Q).
    { apply Qle_trans with (rnd 0%Q); [| by apply rnd_mono].
      rewrite rnd_0. apply Qle_refl. }
    assert (Hr1 : (rnd q <= 1)%Q).
    { apply Qle_trans with (rnd 1%Q); [by apply rnd_mono |].
      rewrite rnd_1. apply Qle_refl. }
    split.
    + apply Qle_trans with (rnd 0%Q); [rewrite rnd_0; apply Qle_refl |].
      apply rnd_mono. apply Qmult_le_0_compat; [exact Hr0 | done].
    + apply Qle_trans with (rnd (inject_Z 100));
        [| rewrite rnd_100; apply Qle_refl].
      apply rnd_mono.
      apply Qle_trans with (1 * inject_Z 100)%Q;
        [| rewrite Qmult_1_l; apply Qle_refl].
      apply Qmult_le_compat_r; [exact Hr1 | done].
Qed.

Lemma getCourseProgress_total_and_bounded_witness :
  (0 <= getCourseProgress (fun x => x) half_done_progress half_done_course
     <= 100)%Z.
Proof.
  apply (getCourseProgress_total_and_bounded (fun x => x)).
  - intros x y H. exact H.
  - reflexivity.
  - reflexivity.
  - reflexivity.
  - vm_compute. lia.
Defined.

(** One lesson of two completed, under exact arithmetic: 50 percent. *)
Example getCourseProgress_half :
  getCourseProgress (fun x => x) half_done_progress half_done_course = 50%Z.
Proof. reflexivity. Qed.

End DashboardFacts.

(** ** [save_course_with_children], migration 12 *)

Section SaveStatements.
Import Db Migration12.
Context (ctx : session).

Lemma bind_Ok {A B} (r : result A) (f : A -> result B) (b : B) :
  r ≫= f = Ok b <-> exists a, r = Ok a /\ f a = Ok b.
Proof.
  destruct r as [a | e]; simpl.
  - split; [eauto | by intros (? & [= ->] & ?)].
  - split; [done | by intros (? & ? & ?)].
Qed.

Lemma for_each_app {A} (body : A -> DB -> result DB) xs ys db :
  for_each body (xs ++ ys) db = for_each body xs db ≫= for_each body ys.
Proof.
  revert db. induction xs as [| x xs IH]; intros db; simpl; [done |].
  destruct (body x db) as [db' | e]; simpl; [apply IH | done].
Qed.

Lemma run_app ss1 ss2 db :
  run ctx (ss1 ++ ss2) db = run ctx ss1 db ≫= run ctx ss2.
Proof. apply for_each_app. Qed.

Lemma run_cons s ss db :
  run ctx (s :: ss) db = exec ctx s db ≫= run ctx ss.
Proof. done. Qed.

Lemma run_app_Ok ss1 ss2 db db' :
  run ctx (ss1 ++ ss2) db = Ok db' <->
  exists mid, run ctx ss1 db = Ok mid /\ run ctx ss2 mid = Ok db'.
Proof. rewrite run_app. apply bind_Ok. Qed.

Lemma run_cons_Ok s ss db db' :
  run ctx (s :: ss) db = Ok db' <->
  exists mid, exec ctx s db = Ok mid /\ run ctx ss mid = Ok db'.
Proof. rewrite run_cons. apply bind_Ok. Qed.

Lemma run_upsert_lessons module_id_val ls db :
  run ctx (UpsertLesson module_id_val <$> ls) db
  = for_each (upsert_lesson ctx module_id_val) ls db.
Proof.
  revert db. induction ls as [| l ls IH]; intros db; simpl; [done |].
  unfold run in *. simpl.
  destruct (upsert_lesson ctx module_id_val l db); simpl; [apply IH | done].
Qed.

Lemma run_module_stmts course_id_val m db :
  run ctx (module_stmts course_id_val m) db
  = (db ← upsert_module ctx course_id_val m db;
     db ← for_each (upsert_lesson ctx (mj_id m)) (mj_lessons m) db;
     Ok (delete_lessons_not_in (mj_id m) (lj_id <$> mj_lessons m) db)).
Proof.
  unfold module_stmts. rewrite run_cons. cbn [exec].
  destruct (upsert_module ctx course_id_val m db) as [db1 | e]; [simpl | done].
  rewrite run_app, run_upsert_lessons.
  by destruct (for_each _ (mj_lessons m) db1).
Qed.

Lemma run_bind_modules course_id_val ms db :
  run ctx (ms ≫= module_stmts course_id_val) db
  = for_each
      (fun m db =>
         db ← upsert_module ctx course_id_val m db;
         db ← for_each (upsert_lesson ctx (mj_id m)) (mj_lessons m) db;
         Ok (delete_lessons_not_in (mj_id m) (lj_id <$> mj_lessons m) db))
      ms db.
Proof.
  revert db. induction ms as [| m ms IH]; intros db; [done |].
  rewrite bind_cons. cbn [for_each]. rewrite run_app, run_module_stmts.
  match goal with |- ?r ≫= _ = _ => destruct r as [db1 | e] end;
    simpl; [apply IH | done].
Qed.

(** The body of the function and the run of its statements agree. *)
Lemma save_as_statements course_data db :
  save_course_with_children ctx course_data db
  = run ctx (save_stmts course_data) db.
Proof.
  unfold save_course_with_children, save_stmts.
  rewrite run_cons. cbn [exec].
  destruct (check_owner ctx _ db) as [db1 | e]; [simpl | done].
  rewrite run_cons. cbn [exec].
  destruct (upsert_course ctx course_data db1) as [db2 | e]; [simpl | done].
  rewrite run_app, run_bind_modules.
  match goal with |- ?r ≫= _ = _ => destruct r as [db3 | e] end;
    simpl; done.
Qed.

End SaveStatements.

(** ** The call as a transaction *)

Section Transaction.
Import Db Migration12.
Context (ctx : session).

Lemma txn_committed_stuck db t : rtc (txn_step ctx) (Committed db) t -> t = Committed db.
Proof. inversion 1 as [| ? ? ? Hstep]; [done | inversion Hstep]. Qed.

Lemma txn_aborted_stuck db e t : rtc (txn_step ctx) (Aborted db e) t -> t = Aborted db e.
Proof. inversion 1 as [| ? ? ? Hstep]; [done | inversion Hstep]. Qed.

(** Running the statements one by one ends where [run] says. *)
Lemma txn_runs committed todo working :
  rtc (txn_step ctx) (Running committed working todo)
      (match run ctx todo working with
       | Ok db' => Committed db'
       | Err e => Aborted committed e
       end).
Proof.
  revert working. induction todo as [| s todo IH]; intros working.
  - apply rtc_once. constructor.
  - rewrite run_cons. destruct (exec ctx s working) as [working' | e] eqn:Hs.
    + eapply rtc_l; [by apply step_stmt | apply IH].
    + apply rtc_once. by apply step_abort.
Qed.

(** While the statements run, and after an abort, the committed state is
    the one the call found. *)
Lemma txn_reachable committed working todo t :
  rtc (txn_step ctx) (Running committed working todo) t ->
  txn_visible t = committed \/
  exists db', t = Committed db' /\ run ctx todo working = Ok db'.
Proof.
  revert working. induction todo as [| s todo IH]; intros working Hrtc.
  - inversion Hrtc as [| ? ? ? Hstep Hrest]; subst; [by left |].
    inversion Hstep; subst.
    apply txn_committed_stuck in Hrest as ->. right. eauto.
  - inversion Hrtc as [| ? ? ? Hstep Hrest]; subst; [by left |].
    inversion Hstep as [? ? working' ? ? Hs | ? ? ? ? e Hs |]; subst.
    + destruct (IH _ Hrest) as [Hv | (db' & -> & Hrun)]; [by left |].
      right. exists db'. split; [done |]. rewrite run_cons, Hs. exact Hrun.
    + apply txn_aborted_stuck in Hrest as ->. by left.
Qed.

(** The ownership check is the first statement of the body: it precedes
    every write. *)
Lemma check_owner_comes_first course_data :
  exists rest, save_stmts course_data = CheckOwner (cj_teacher_id course_data) :: rest.
Proof. unfold save_stmts. eauto. Qed.

(** Migration 12 turns away a signed-in caller who is not the
    [teacher_id] of the payload, and a payload without [teacher_id],
    before it writes anything. *)
Lemma migration12_rejects_other_user course_data db u :
  auth_uid ctx = Some u ->
  cj_teacher_id course_data <> Some u ->
  save_course_with_children ctx course_data db = Err insufficient_privilege /\
  rpc ctx course_data db = (db, Some insufficient_privilege).
Proof.
  intros Hu Hne.
  assert (Hsave : save_course_with_children ctx course_data db
                  = Err insufficient_privilege).
  { unfold save_course_with_children, check_owner. rewrite Hu.
    destruct (cj_teacher_id course_data) as [t |]; [| done].
    destruct (decide (t = u)) as [-> | ?]; [done | done]. }
  split; [exact Hsave |]. unfold rpc. by rewrite Hsave.
Qed.

(** Without a signed-in user [auth.uid()] is NULL, the comparison is NULL,
    and the check lets the call through. *)
Lemma migration12_check_passes_without_user t db :
  auth_uid ctx = None -> check_owner ctx (Some t) db = Ok db.
Proof. intros Hu. unfold check_owner. by rewrite Hu. Qed.

End Transaction.

(** ** What each statement does to the tables *)

Section StatementFacts.
Import Db Migration12.
Context (ctx : session).

Lemma not_null_Ok {A} (x : option A) a : not_null x = Ok a <-> x = Some a.
Proof. destruct x; simpl; split; congruence. Qed.

(** *** The two deletes *)

Lemma lookup_lessons_delete_lessons P `{!forall x, Decision (P x)} db i row :
  lessons (delete_lessons P db) !! i = Some row <->
  lessons db !! i = Some row /\ ~ P (i, row).
Proof. unfold delete_lessons. simpl. by rewrite map_lookup_filter_Some. Qed.

Lemma lookup_delete_lessons_not_in mo ids db i row :
  lessons (delete_lessons_not_in mo ids db) !! i = Some row <->
  lessons db !! i = Some row /\
  ~ (mo = Some (l_module_id row) /\ sql_not_in i ids).
Proof.
  unfold delete_lessons_not_in. destruct mo as [mid |].
  - rewrite lookup_lessons_delete_lessons. simpl. naive_solver.
  - naive_solver.
Qed.

Lemma modules_delete_lessons_not_in mo ids db :
  modules (delete_lessons_not_in mo ids db) = modules db.
Proof. by destruct mo. Qed.

Lemma courses_delete_lessons_not_in mo ids db :
  courses (delete_lessons_not_in mo ids db) = courses db.
Proof. by destruct mo. Qed.

Lemma lookup_modules_delete_modules_not_in co ids db i row :
  modules (delete_modules_not_in co ids db) !! i = Some row <->
  modules db !! i = Some row /\
  ~ (co = Some (m_course_id row) /\ sql_not_in i ids).
Proof.
  unfold delete_modules_not_in. destruct co as [cid |].
  - unfold delete_modules, delete_lessons, set_modules. simpl.
    rewrite map_lookup_filter_Some. simpl. naive_solver.
  - naive_solver.
Qed.

Lemma lookup_lessons_delete_modules_not_in co ids db i row :
  lessons (delete_modules_not_in co ids db) !! i = Some row <->
  lessons db !! i = Some row /\
  ~ (exists mrow, modules db !! l_module_id row = Some mrow /\
                  co = Some (m_course_id mrow) /\
                  sql_not_in (l_module_id row) ids).
Proof.
  unfold delete_modules_not_in. destruct co as [cid |].
  - unfold delete_modules. rewrite lookup_lessons_delete_lessons. simpl.
    unfold is_Some. setoid_rewrite map_lookup_filter_Some. simpl.
    naive_solver.
  - naive_solver.
Qed.

Lemma courses_delete_modules_not_in co ids db :
  courses (delete_modules_not_in co ids db) = courses db.
Proof. by destruct co. Qed.

(** *** The three upserts, inverted *)

Lemma upsert_course_Ok c db db' :
  upsert_course ctx c db = Ok db' ->
  exists id teacher title description category is_published,
    cj_id c = Some id /\ cj_teacher_id c = Some teacher /\
    cj_title c = Some title /\ cj_description c = Some description /\
    cj_category c = Some category /\ cj_is_published c = Some is_published /\
    ((exists old, courses db !! id = Some old /\
        db' = set_courses
                (<[id := course_row_of (c_teacher_id old) (c_created_at old)
                           (c_updated_at old) title description category
                           (nullif (cj_image_url c) "null") is_published]>
                   (courses db)) db) \/
     (courses db !! id = None /\ teacher ∈ profiles db /\
        db' = set_courses
                (<[id := course_row_of teacher (now ctx) (now ctx)
                           title description category
                           (nullif (cj_image_url c) "null") is_published]>
                   (courses db)) db)).
Proof.
  unfold upsert_course. intros H.
  destruct (cj_id c) as [id |]; [| done].
  destruct (cj_teacher_id c) as [teacher |]; [| done].
  destruct (cj_title c) as [title |]; [| done].
  destruct (cj_description c) as [description |]; [| done].
  destruct (cj_category c) as [category |]; [| done].
  destruct (cj_is_published c) as [is_published |]; [| done].
  simpl in H. exists id, teacher, title, description, category, is_published.
  repeat (split; [done |]).
  destruct (courses db !! id) as [old |] eqn:Hold.
  - left. exists old. split; [done |]. congruence.
  - right. case_decide; [| done]. repeat split; [done |]. congruence.
Qed.

Lemma upsert_module_Ok co m db db' :
  upsert_module ctx co m db = Ok db' ->
  exists id cid title order,
    mj_id m = Some id /\ co = Some cid /\ mj_title m = Some title /\
    cast_integer (mj_order m) = Ok (Some order) /\
    ((exists old, modules db !! id = Some old /\
        db' = set_modules
                (<[id := module_row_of (m_course_id old) (m_created_at old)
                           title order]> (modules db)) db) \/
     (modules db !! id = None /\ is_Some (courses db !! cid) /\
        db' = set_modules
                (<[id := module_row_of cid (now ctx) title order]>
                   (modules db)) db)).
Proof.
  unfold upsert_module. intros H.
  destruct (cast_integer (mj_order m)) as [[order |] | e]; simpl in H;
    destruct (mj_id m) as [id |]; try done;
    destruct co as [cid |]; try done;
    destruct (mj_title m) as [title |]; try done.
  simpl in H. exists id, cid, title, order. repeat (split; [done |]).
  destruct (modules db !! id) as [old |] eqn:Hold.
  - left. exists old. split; [done |]. congruence.
  - right. case_decide; [| done]. repeat split; [done |]. congruence.
Qed.

Lemma upsert_lesson_Ok mo l db db' :
  upsert_lesson ctx mo l db = Ok db' ->
  exists id mid title order files,
    lj_id l = Some id /\ mo = Some mid /\ lj_title l = Some title /\
    cast_integer (lj_order l) = Ok (Some order) /\
    lesson_files l = Ok files /\
    ((exists old, lessons db !! id = Some old /\
        db' = set_lessons
                (<[id := lesson_row_of (l_module_id old) (l_created_at old)
                           title order files]> (lessons db)) db) \/
     (lessons db !! id = None /\ is_Some (modules db !! mid) /\
        db' = set_lessons
                (<[id := lesson_row_of mid (now ctx) title order files]>
                   (lessons db)) db)).
Proof.
  unfold upsert_lesson. intros H.
  destruct (cast_integer (lj_order l)) as [[order |] | e]; simpl in H;
    destruct (lesson_files l) as [files | e']; simpl in H; try done;
    destruct (lj_id l) as [id |]; try done;
    destruct mo as [mid |]; try done;
    destruct (lj_title l) as [title |]; try done.
  simpl in H. exists id, mid, title, order, files. repeat (split; [done |]).
  destruct (lessons db !! id) as [old |] eqn:Hold.
  - left. exists old. split; [done |]. congruence.
  - right. case_decide; [| done]. repeat split; [done |]. congruence.
Qed.

Lemma check_owner_Ok t db db' : check_owner ctx t db = Ok db' -> db' = db.
Proof.
  unfold check_owner. destruct t; [| done].
  destruct (auth_uid ctx); [case_decide |]; congruence.
Qed.

End StatementFacts.

(** ** Which statements can change which rows *)

Section Frames.
Import Db Migration12.
Context (ctx : session).

(** A property that every statement of a list carries forward is carried
    forward by the run of the list; likewise backward. *)
Lemma run_preserves (P : DB -> Prop) (ok : stmt -> Prop) :
  (forall s db db', ok s -> exec ctx s db = Ok db' -> P db -> P db') ->
  forall ss db db', Forall ok ss -> run ctx ss db = Ok db' -> P db -> P db'.
Proof.
  intros Hstep ss. induction ss as [| s ss IH]; intros db db' Hok Hrun HP.
  - by injection Hrun as <-.
  - apply Forall_cons in Hok as [Hs Hss].
    apply run_cons_Ok in Hrun as (mid & Hexec & Hrun). eauto.
Qed.

Lemma run_reflects (Q : DB -> Prop) (ok : stmt -> Prop) :
  (forall s db db', ok s -> exec ctx s db = Ok db' -> Q db' -> Q db) ->
  forall ss db db', Forall ok ss -> run ctx ss db = Ok db' -> Q db' -> Q db.
Proof.
  intros Hstep ss. induction ss as [| s ss IH]; intros db db' Hok Hrun HQ.
  - by injection Hrun as <-.
  - apply Forall_cons in Hok as [Hs Hss].
    apply run_cons_Ok in Hrun as (mid & Hexec & Hrun). eauto.
Qed.

(** *** Lessons *)

(** A lesson row found after a statement that does not upsert it was
    there, unchanged, before. *)
Lemma exec_lesson_frame s db db' lid row :
  ~ upserts_lesson lid s -> exec ctx s db = Ok db' ->
  lessons db' !! lid = Some row -> lessons db !! lid = Some row.
Proof.
  intros Hno Hexec Hrow. destruct s as [t | c | co m | mo l | mo ids | co ids];
    simpl in Hexec, Hno.
  - by apply check_owner_Ok in Hexec as ->.
  - apply upsert_course_Ok in Hexec
      as (? & ? & ? & ? & ? & ? & _ & _ & _ & _ & _ & _ &
          [(? & _ & ->) | (_ & _ & ->)]); done.
  - apply upsert_module_Ok in Hexec
      as (? & ? & ? & ? & _ & _ & _ & _ & [(? & _ & ->) | (_ & _ & ->)]); done.
  - apply upsert_lesson_Ok in Hexec
      as (id & ? & ? & ? & ? & Hid & _ & _ & _ & _ &
          [(? & _ & ->) | (_ & _ & ->)]);
      simpl in Hrow; rewrite lookup_insert_ne in Hrow; congruence.
  - injection Hexec as <-.
    by apply lookup_delete_lessons_not_in in Hrow as [? _].
  - injection Hexec as <-.
    by apply lookup_lessons_delete_modules_not_in in Hrow as [? _].
Qed.

(** A lesson row stored under [mid] survives a statement that keeps it. *)
Lemma exec_keeps_lesson s db db' lid mid row :
  keeps_lesson lid mid s -> exec ctx s db = Ok db' ->
  lessons db !! lid = Some row /\ l_module_id row = mid ->
  lessons db' !! lid = Some row /\ l_module_id row = mid.
Proof.
  intros Hk Hexec [Hrow Hmid]. split; [| done].
  destruct s as [t | c | co m | mo l | mo ids | co ids]; simpl in Hexec, Hk.
  - by apply check_owner_Ok in Hexec as ->.
  - apply upsert_course_Ok in Hexec
      as (? & ? & ? & ? & ? & ? & _ & _ & _ & _ & _ & _ &
          [(? & _ & ->) | (_ & _ & ->)]); done.
  - apply upsert_module_Ok in Hexec
      as (? & ? & ? & ? & _ & _ & _ & _ & [(? & _ & ->) | (_ & _ & ->)]); done.
  - apply upsert_lesson_Ok in Hexec
      as (id & ? & ? & ? & ? & Hid & _ & _ & _ & _ &
          [(? & _ & ->) | (_ & _ & ->)]);
      simpl; rewrite lookup_insert_ne; congruence.
  - injection Hexec as <-. apply lookup_delete_lessons_not_in.
    split; [done |]. intros [Hmo [_ Hnotin]]. destruct Hk as [Hk | Hk]; congruence.
  - injection Hexec as <-. apply lookup_lessons_delete_modules_not_in.
    split; [done |]. intros (mrow & _ & _ & [_ Hnotin]). congruence.
Qed.

(** A lesson found under [mid] after a statement that cannot insert under
    [mid] was under [mid] before. *)
Lemma exec_no_new_lesson_under s db db' mid lid row :
  ~ adds_under mid s -> exec ctx s db = Ok db' ->
  lessons db' !! lid = Some row -> l_module_id row = mid ->
  exists row0, lessons db !! lid = Some row0 /\ l_module_id row0 = mid.
Proof.
  intros Hno Hexec Hrow Hmid.
  assert (Hframe : ~ upserts_lesson lid s ->
            exists row0, lessons db !! lid = Some row0 /\ l_module_id row0 = mid).
  { intros Hup. exists row. split; [| done]. by eapply exec_lesson_frame. }
  destruct s as [| | | mo l | |]; try (apply Hframe; simpl; tauto).
  destruct (decide (lj_id l = Some lid)) as [Hup | Hup]; [| by apply Hframe].
  simpl in Hno, Hexec.
  apply upsert_lesson_Ok in Hexec
    as (id & m' & ? & ? & ? & Hid & -> & _ & _ & _ &
        [(old & Hold & ->) | (_ & _ & ->)]);
    assert (id = lid) as -> by congruence;
    simpl in Hrow; rewrite lookup_insert_eq in Hrow;
    injection Hrow as <-; simpl in Hmid.
  - eauto.
  - congruence.
Qed.

Lemma exec_lessons_within s db db' mid ids :
  ~ adds_under mid s -> exec ctx s db = Ok db' ->
  lessons_within mid ids db -> lessons_within mid ids db'.
Proof.
  intros Hno Hexec Hin lid row Hrow Hmid.
  destruct (exec_no_new_lesson_under _ _ _ _ _ _ Hno Hexec Hrow Hmid)
    as (row0 & Hrow0 & Hmid0).
  by eapply Hin.
Qed.

(** After [DELETE FROM lessons WHERE module_id = mid AND id NOT IN ids],
    with no NULL among [ids], the lessons of [mid] are within [ids]. *)
Lemma delete_lessons_not_in_within mid ids db :
  Forall is_Some ids ->
  lessons_within mid ids (delete_lessons_not_in (Some mid) ids db).
Proof.
  intros Hids lid row Hrow Hmid.
  apply lookup_delete_lessons_not_in in Hrow as [_ Hnot].
  destruct (decide (Some lid ∈ ids)) as [| Hout]; [done |].
  destruct Hnot. split; [by rewrite Hmid | by split].
Qed.

(** *** Modules and courses *)

Lemma exec_keeps_module s db db' mid row :
  keeps_module mid s -> exec ctx s db = Ok db' ->
  modules db !! mid = Some row -> modules db' !! mid = Some row.
Proof.
  intros Hk Hexec Hrow.
  destruct s as [t | c | co m | mo l | mo ids | co ids]; simpl in Hexec, Hk.
  - by apply check_owner_Ok in Hexec as ->.
  - apply upsert_course_Ok in Hexec
      as (? & ? & ? & ? & ? & ? & _ & _ & _ & _ & _ & _ &
          [(? & _ & ->) | (_ & _ & ->)]); done.
  - apply upsert_module_Ok in Hexec
      as (id & ? & ? & ? & Hid & _ & _ & _ & [(? & _ & ->) | (_ & _ & ->)]);
      simpl; rewrite lookup_insert_ne; congruence.
  - apply upsert_lesson_Ok in Hexec
      as (? & ? & ? & ? & ? & _ & _ & _ & _ & _ &
          [(? & _ & ->) | (_ & _ & ->)]); done.
  - injection Hexec as <-. by rewrite modules_delete_lessons_not_in.
  - injection Hexec as <-. apply lookup_modules_delete_modules_not_in.
    split; [done |]. intros [_ [_ Hnotin]]. congruence.
Qed.

Lemma exec_keeps_courses s db db' :
  keeps_courses s -> exec ctx s db = Ok db' -> courses db' = courses db.
Proof.
  intros Hk Hexec.
  destruct s as [t | c | co m | mo l | mo ids | co ids]; simpl in Hexec, Hk.
  - by apply check_owner_Ok in Hexec as ->.
  - done.
  - apply upsert_module_Ok in Hexec
      as (? & ? & ? & ? & _ & _ & _ & _ & [(? & _ & ->) | (_ & _ & ->)]); done.
  - apply upsert_lesson_Ok in Hexec
      as (? & ? & ? & ? & ? & _ & _ & _ & _ & _ &
          [(? & _ & ->) | (_ & _ & ->)]); done.
  - injection Hexec as <-. apply courses_delete_lessons_not_in.
  - injection Hexec as <-. apply courses_delete_modules_not_in.
Qed.

(** After the last statement, with no NULL among [ids], the modules of
    the course are within [ids]. *)
Lemma delete_modules_not_in_within cid ids db :
  Forall is_Some ids ->
  modules_within cid ids (delete_modules_not_in (Some cid) ids db).
Proof.
  intros Hids mid row Hrow Hcid.
  apply lookup_modules_delete_modules_not_in in Hrow as [_ Hnot].
  destruct (decide (Some mid ∈ ids)) as [| Hout]; [done |].
  destruct Hnot. split; [by rewrite Hcid | by split].
Qed.

End Frames.

(** ** The statements of a payload, by the ids it carries *)

Section StatementLists.
Import Db Migration12.
Context (ctx : session).

Lemma Forall_module_stmts (P : stmt -> Prop) cid m :
  Forall P (module_stmts cid m) <->
  P (UpsertModule cid m) /\
  Forall (fun l => P (UpsertLesson (mj_id m) l)) (mj_lessons m) /\
  P (DeleteLessonsNotIn (mj_id m) (lesson_ids m)).
Proof.
  unfold module_stmts, lesson_ids.
  rewrite Forall_cons, Forall_app, Forall_singleton, Forall_fmap. done.
Qed.

Lemma Forall_bind_module_stmts (P : stmt -> Prop) cid ms :
  Forall P (ms ≫= module_stmts cid) <->
  forall m, m ∈ ms -> Forall P (module_stmts cid m).
Proof. rewrite Forall_bind, Forall_forall. done. Qed.

Lemma modules_never_upsert_lesson lid cid ms :
  Some lid ∉ ms ≫= lesson_ids ->
  Forall (fun s => ~ upserts_lesson lid s) (ms ≫= module_stmts cid).
Proof.
  intros Hout. apply Forall_bind_module_stmts. intros m Hm.
  apply Forall_module_stmts. simpl. split_and!; [tauto | | tauto].
  apply Forall_forall. intros l Hl Hid. apply Hout.
  apply list_elem_of_bind. exists m. split; [| done].
  unfold lesson_ids. rewrite <- Hid. by apply list_elem_of_fmap_2.
Qed.

Lemma lessons_never_upsert_lesson lid mo ls :
  Some lid ∉ lj_id <$> ls ->
  Forall (fun s => ~ upserts_lesson lid s) (UpsertLesson mo <$> ls).
Proof.
  intros Hout. apply Forall_fmap, Forall_forall. intros l Hl Hid. simpl in Hid.
  apply Hout. rewrite <- Hid. by apply list_elem_of_fmap_2.
Qed.

Lemma lessons_keep_lesson lid mid mo ls :
  Some lid ∉ lj_id <$> ls ->
  Forall (keeps_lesson lid mid) (UpsertLesson mo <$> ls).
Proof.
  intros Hout. apply Forall_fmap, Forall_forall. intros l Hl Hid. simpl in Hid.
  apply Hout. rewrite <- Hid. by apply list_elem_of_fmap_2.
Qed.

Lemma modules_keep_lesson lid mid cid ms :
  Some lid ∉ ms ≫= lesson_ids ->
  Some mid ∉ mj_id <$> ms ->
  Forall (keeps_lesson lid mid) (ms ≫= module_stmts cid).
Proof.
  intros Hlid Hmid. apply Forall_bind_module_stmts. intros m Hm.
  apply Forall_module_stmts. simpl. split_and!; [done | |].
  - apply Forall_forall. intros l Hl Hid. apply Hlid.
    apply list_elem_of_bind. exists m. split; [| done].
    unfold lesson_ids. rewrite <- Hid. by apply list_elem_of_fmap_2.
  - left. intros Heq. apply Hmid. rewrite <- Heq. by apply list_elem_of_fmap_2.
Qed.

Lemma modules_never_add_under mid cid ms :
  Some mid ∉ mj_id <$> ms ->
  Forall (fun s => ~ adds_under mid s) (ms ≫= module_stmts cid).
Proof.
  intros Hmid. apply Forall_bind_module_stmts. intros m Hm.
  apply Forall_module_stmts. simpl. split_and!; [tauto | | tauto].
  apply Forall_forall. intros l Hl Heq.
  apply Hmid. rewrite <- Heq. by apply list_elem_of_fmap_2.
Qed.

Lemma modules_keep_module mid cid ms :
  Some mid ∉ mj_id <$> ms ->
  Forall (keeps_module mid) (ms ≫= module_stmts cid).
Proof.
  intros Hmid. apply Forall_bind_module_stmts. intros m Hm.
  apply Forall_module_stmts. simpl. split_and!; [| | done].
  - intros Heq. apply Hmid. rewrite <- Heq. by apply list_elem_of_fmap_2.
  - by apply Forall_forall.
Qed.

Lemma lessons_keep_module mid mo ls :
  Forall (keeps_module mid) (UpsertLesson mo <$> ls).
Proof. by apply Forall_fmap, Forall_forall. Qed.

Lemma modules_keep_courses cid ms :
  Forall keeps_courses (ms ≫= module_stmts cid).
Proof.
  apply Forall_bind_module_stmts. intros m Hm.
  apply Forall_module_stmts. simpl. split_and!; [done | | done].
  by apply Forall_forall.
Qed.

(** A run that succeeds met no NULL id. *)
Lemma run_lessons_ids mo ls db db' :
  run ctx (UpsertLesson mo <$> ls) db = Ok db' -> Forall is_Some (lj_id <$> ls).
Proof.
  revert db. induction ls as [| l ls IH]; intros db Hrun; [constructor |].
  rewrite fmap_cons in Hrun. apply run_cons_Ok in Hrun as (mid & Hexec & Hrun).
  rewrite fmap_cons. constructor; [| by eapply IH].
  simpl in Hexec. apply upsert_lesson_Ok in Hexec as (id & ? & ? & ? & ? & -> & _).
  eauto.
Qed.

Lemma run_module_stmts_Ok cid m db db' :
  run ctx (module_stmts cid m) db = Ok db' ->
  exists db1 db2,
    upsert_module ctx cid m db = Ok db1 /\
    run ctx (UpsertLesson (mj_id m) <$> mj_lessons m) db1 = Ok db2 /\
    db' = delete_lessons_not_in (mj_id m) (lesson_ids m) db2.
Proof.
  unfold module_stmts. intros Hrun.
  apply run_cons_Ok in Hrun as (db1 & Hm & Hrun).
  apply run_app_Ok in Hrun as (db2 & Hls & Hdel).
  exists db1, db2. split_and!; [done | done |].
  unfold run in Hdel. simpl in Hdel. by injection Hdel as <-.
Qed.

Lemma run_modules_ids cid ms db db' :
  run ctx (ms ≫= module_stmts cid) db = Ok db' -> Forall is_Some (mj_id <$> ms).
Proof.
  revert db. induction ms as [| m ms IH]; intros db Hrun; [constructor |].
  rewrite bind_cons in Hrun. apply run_app_Ok in Hrun as (mid & Hm & Hrun).
  rewrite fmap_cons. constructor; [| by eapply IH].
  apply run_module_stmts_Ok in Hm as (db1 & _ & Hup & _).
  apply upsert_module_Ok in Hup as (id & ? & ? & ? & -> & _). eauto.
Qed.

(** The statements of a payload around one of its modules. *)
Lemma save_stmts_at_module c ms1 m ms2 :
  cj_modules c = (ms1 ++ m :: ms2)%list ->
  save_stmts c =
    ((CheckOwner (cj_teacher_id c) :: UpsertCourse c ::
       (ms1 ≫= module_stmts (cj_id c))) ++
    module_stmts (cj_id c) m ++
    ((ms2 ≫= module_stmts (cj_id c)) ++
     [DeleteModulesNotIn (cj_id c) (module_ids c)]))%list.
Proof.
  intros Hsplit. unfold save_stmts, module_ids. rewrite Hsplit.
  rewrite bind_app, bind_cons. rewrite <- !app_comm_cons, <- !app_assoc. done.
Qed.

End StatementLists.

(** ** Deletion completeness *)

Section Deletion.
Import Db Migration12.
Context (ctx : session).

Lemma distinct_module_is_last c m :
  NoDup (module_ids c) -> m ∈ cj_modules c -> last_of_its_id c m.
Proof.
  intros Hnd Hm. apply list_elem_of_split in Hm as (ms1 & ms2 & Hsplit).
  exists ms1, ms2. split; [done |].
  unfold module_ids in Hnd. rewrite Hsplit, fmap_app, fmap_cons in Hnd.
  apply NoDup_app in Hnd as (_ & _ & Hnd). by apply NoDup_cons in Hnd as [? _].
Qed.

(** A successful call, taken apart at its last statement. *)
Lemma save_Ok_last c db db' :
  save_course_with_children ctx c db = Ok db' ->
  exists cid before_last,
    cj_id c = Some cid /\
    Forall is_Some (module_ids c) /\
    run ctx (CheckOwner (cj_teacher_id c) :: UpsertCourse c ::
               (cj_modules c ≫= module_stmts (cj_id c))) db = Ok before_last /\
    db' = delete_modules_not_in (Some cid) (module_ids c) before_last.
Proof.
  rewrite save_as_statements. unfold save_stmts. intros Hrun.
  rewrite !app_comm_cons in Hrun.
  apply run_app_Ok in Hrun as (before_last & Hbefore & Hlast).
  pose proof Hbefore as Hrun.
  apply run_cons_Ok in Hrun as (db1 & _ & Hrun).
  apply run_cons_Ok in Hrun as (db2 & Hcourse & Hrun).
  simpl in Hcourse. apply upsert_course_Ok in Hcourse as (cid & ? & ? & ? & ? & ? & Hcid & _).
  exists cid, before_last. split_and!; [done | by eapply run_modules_ids | done |].
  unfold run in Hlast. simpl in Hlast. rewrite Hcid in Hlast. by injection Hlast as <-.
Qed.

(** The lessons of a module that is the last of its id are, after the
    call, within the list the payload gives for it. *)
Lemma save_lessons_within c db db' m mid :
  save_course_with_children ctx c db = Ok db' ->
  last_of_its_id c m -> mj_id m = Some mid ->
  lessons_within mid (lesson_ids m) db'.
Proof.
  rewrite save_as_statements. intros Hrun (ms1 & ms2 & Hsplit & Hlast) Hmid.
  rewrite (save_stmts_at_module _ _ _ _ Hsplit) in Hrun.
  apply run_app_Ok in Hrun as (db1 & _ & Hrun).
  apply run_app_Ok in Hrun as (db2 & Hm & Hrest).
  apply run_module_stmts_Ok in Hm as (db3 & db4 & _ & Hls & ->).
  rewrite Hmid in *.
  eapply (run_preserves ctx (lessons_within mid (lesson_ids m))
            (fun s => ~ adds_under mid s)); [| | exact Hrest |].
  - intros s d d' Hs Hexec. by eapply exec_lessons_within.
  - apply Forall_app. split; [by apply modules_never_add_under |].
    apply Forall_singleton. simpl. tauto.
  - apply delete_lessons_not_in_within. by eapply run_lessons_ids.
Qed.

(** C3. After a successful [save_course_with_children]:
    - a module row of the course whose id is not among the module ids of
      the payload is gone, and no lesson row is left under it;
    - every module row left under the course has its id in the payload;
    - for a module of the payload (the last with its id; any module, when
      the module ids are distinct) every lesson row left under it has its
      id in the lesson list the payload gives for that module;
    - in particular an empty module list leaves no module under the
      course, and an empty lesson list leaves no lesson under the module. *)
Theorem deletion_completeness course_data db db' :
  save_course_with_children ctx course_data db = Ok db' ->
  (forall cid mid row,
     cj_id course_data = Some cid ->
     modules db !! mid = Some row -> m_course_id row = cid ->
     Some mid ∉ module_ids course_data ->
     modules db' !! mid = None /\
     forall lid lrow, lessons db' !! lid = Some lrow -> l_module_id lrow <> mid) /\
  (forall cid, cj_id course_data = Some cid ->
     modules_within cid (module_ids course_data) db') /\
  (forall m mid,
     last_of_its_id course_data m -> mj_id m = Some mid ->
     lessons_within mid (lesson_ids m) db') /\
  (forall m mid,
     NoDup (module_ids course_data) -> m ∈ cj_modules course_data ->
     mj_id m = Some mid ->
     lessons_within mid (lesson_ids m) db') /\
  (cj_modules course_data = [] ->
     forall cid mid row,
       cj_id course_data = Some cid ->
       modules db' !! mid = Some row -> m_course_id row <> cid) /\
  (forall m mid,
     last_of_its_id course_data m -> mj_id m = Some mid -> mj_lessons m = [] ->
     forall lid row, lessons db' !! lid = Some row -> l_module_id row <> mid).
Proof.
  intros Hsave.
  destruct (save_Ok_last _ _ _ Hsave) as (cid0 & dbF & Hcid0 & Hids & HrunF & Hdb').
  split_and!.
  - intros cid mid row Hcid Hrow Hcourse Hout.
    assert (cid = cid0) as -> by congruence.
    assert (HrowF : modules dbF !! mid = Some row).
    { eapply (run_preserves ctx (fun d => modules d !! mid = Some row)
                (keeps_module mid)); [| | exact HrunF | exact Hrow].
      - intros s d d' Hs Hexec. by eapply exec_keeps_module.
      - repeat (apply Forall_cons; split; [done |]).
        by apply modules_keep_module. }
    split.
    + destruct (modules db' !! mid) as [row' |] eqn:Hrow'; [| done].
      rewrite Hdb' in Hrow'. apply lookup_modules_delete_modules_not_in in Hrow' as [Hrow' Hnot].
      destruct Hnot. assert (row' = row) as -> by congruence.
      split; [by rewrite Hcourse | by split].
    + intros lid lrow Hl Hm. rewrite Hdb' in Hl.
      apply lookup_lessons_delete_modules_not_in in Hl as [_ Hnot].
      apply Hnot. exists row. rewrite Hm. split_and!; [done | by rewrite Hcourse |].
      by split.
  - intros cid Hcid. assert (cid = cid0) as -> by congruence.
    rewrite Hdb'. by apply delete_modules_not_in_within.
  - intros m mid Hlast Hmid. by eapply save_lessons_within.
  - intros m mid Hnd Hm Hmid.
    eapply save_lessons_within; [done | by apply distinct_module_is_last | done].
  - intros Hnil cid mid row Hcid Hrow Hcourse.
    assert (cid = cid0) as -> by congruence. rewrite Hdb' in Hrow.
    pose proof (delete_modules_not_in_within cid0 _ dbF Hids mid row Hrow Hcourse)
      as Hin.
    unfold module_ids in Hin. rewrite Hnil in Hin. by apply elem_of_nil in Hin.
  - intros m mid Hlast Hmid Hnil lid row Hrow Hm.
    pose proof (save_lessons_within _ _ _ _ _ Hsave Hlast Hmid lid row Hrow Hm)
      as Hin.
    unfold lesson_ids in Hin. rewrite Hnil in Hin. by apply elem_of_nil in Hin.
Qed.

End Deletion.

(** ** What a successful call leaves for the rows it names *)

Section Settled.
Import Db Migration12.
Context (ctx : session).

Lemma run_lesson_frame ss db db' lid row :
  Forall (fun s => ~ upserts_lesson lid s) ss -> run ctx ss db = Ok db' ->
  lessons db' !! lid = Some row -> lessons db !! lid = Some row.
Proof.
  apply (run_reflects ctx (fun d => lessons d !! lid = Some row)).
  intros s d d' Hs Hexec. by eapply exec_lesson_frame.
Qed.

Lemma run_keeps_lesson ss db db' lid mid row :
  Forall (keeps_lesson lid mid) ss -> run ctx ss db = Ok db' ->
  lessons db !! lid = Some row /\ l_module_id row = mid ->
  lessons db' !! lid = Some row /\ l_module_id row = mid.
Proof.
  apply (run_preserves ctx
           (fun d => lessons d !! lid = Some row /\ l_module_id row = mid)).
  intros s d d' Hs Hexec. by eapply exec_keeps_lesson.
Qed.

Lemma run_keeps_module ss db db' mid row :
  Forall (keeps_module mid) ss -> run ctx ss db = Ok db' ->
  modules db !! mid = Some row -> modules db' !! mid = Some row.
Proof.
  apply (run_preserves ctx (fun d => modules d !! mid = Some row)).
  intros s d d' Hs Hexec. by eapply exec_keeps_module.
Qed.

Lemma run_keeps_courses ss db db' :
  Forall keeps_courses ss -> run ctx ss db = Ok db' -> courses db' = courses db.
Proof.
  intros Hok Hrun.
  apply (run_preserves ctx (fun d => courses d = courses db) keeps_courses)
    with (ss := ss) (db := db); [| done | done | done].
  intros s d d' Hs Hexec <-. by eapply exec_keeps_courses.
Qed.

(** The ids around a lesson of a tree with distinct lesson ids. *)
Lemma distinct_lesson_split c ms1 m ms2 ls1 l ls2 :
  NoDup (tree_lesson_ids c) ->
  cj_modules c = (ms1 ++ m :: ms2)%list ->
  mj_lessons m = (ls1 ++ l :: ls2)%list ->
  lj_id l ∉ ms1 ≫= lesson_ids /\ lj_id l ∉ lj_id <$> ls1 /\
  lj_id l ∉ lj_id <$> ls2 /\ lj_id l ∉ ms2 ≫= lesson_ids.
Proof.
  unfold tree_lesson_ids. intros Hnd Hms Hls.
  rewrite Hms, bind_app, bind_cons in Hnd. unfold lesson_ids at 2 in Hnd.
  rewrite Hls, fmap_app, fmap_cons in Hnd.
  apply NoDup_app in Hnd as (_ & Hms1 & Hnd).
  apply NoDup_app in Hnd as (Hnd & Hms2 & _).
  apply NoDup_app in Hnd as (_ & Hls1 & Hnd).
  apply NoDup_cons in Hnd as [Hls2 _].
  split_and!.
  - intros Hin. apply (Hms1 _ Hin). set_solver.
  - intros Hin. apply (Hls1 _ Hin). set_solver.
  - done.
  - apply Hms2. set_solver.
Qed.

Lemma distinct_module_split c ms1 m ms2 :
  NoDup (module_ids c) -> cj_modules c = (ms1 ++ m :: ms2)%list ->
  mj_id m ∉ mj_id <$> ms1 /\ mj_id m ∉ mj_id <$> ms2.
Proof.
  unfold module_ids. intros Hnd Hms. rewrite Hms, fmap_app, fmap_cons in Hnd.
  apply NoDup_app in Hnd as (_ & Hms1 & Hnd).
  apply NoDup_cons in Hnd as [Hms2 _].
  split; [| done]. intros Hin. apply (Hms1 _ Hin). set_solver.
Qed.

(** The lessons the payload names are there afterwards, under the module
    that lists them, with the columns the payload gives. *)
Lemma save_lesson_settled c db db' m l mid lid :
  save_course_with_children ctx c db = Ok db' ->
  distinct_ids c -> lessons_stay_put c db ->
  m ∈ cj_modules c -> l ∈ mj_lessons m ->
  mj_id m = Some mid -> lj_id l = Some lid ->
  exists row,
    lessons db' !! lid = Some row /\ l_module_id row = mid /\
    lesson_row_matches l row.
Proof.
  rewrite save_as_statements. intros Hrun [Hmods Hless] Hput Hm Hl Hmid Hlid.
  pose proof Hm as Hm'. pose proof Hl as Hl'.
  apply list_elem_of_split in Hm' as (ms1 & ms2 & Hms).
  apply list_elem_of_split in Hl' as (ls1 & ls2 & Hls).
  destruct (distinct_lesson_split _ _ _ _ _ _ _ Hless Hms Hls)
    as (Hl_ms1 & Hl_ls1 & Hl_ls2 & Hl_ms2).
  destruct (distinct_module_split _ _ _ _ Hmods Hms) as (_ & Hm_ms2).
  rewrite Hlid in *. rewrite Hmid in *.
  rewrite (save_stmts_at_module _ _ _ _ Hms) in Hrun.
  apply run_app_Ok in Hrun as (d1 & Hpre & Hrun).
  apply run_app_Ok in Hrun as (d2 & Hmod & Hpost).
  unfold module_stmts in Hmod. rewrite Hls, fmap_app, fmap_cons in Hmod.
  apply run_cons_Ok in Hmod as (d3 & Hupm & Hmod).
  rewrite <- app_assoc in Hmod.
  apply run_app_Ok in Hmod as (d4 & Hls1 & Hmod).
  rewrite <- app_comm_cons in Hmod.
  apply run_cons_Ok in Hmod as (d5 & Hupl & Hmod).
  apply run_app_Ok in Hmod as (d6 & Hls2 & Hdel).
  (* before the upsert the row, if any, is under [mid] *)
  assert (Hbefore : forall row, lessons d4 !! lid = Some row -> l_module_id row = mid).
  { intros row Hrow. eapply (Hput m l mid lid row); try done.
    eapply run_lesson_frame; [| exact Hpre |].
    { repeat (apply Forall_cons; split; [simpl; tauto |]).
      by apply modules_never_upsert_lesson. }
    eapply exec_lesson_frame; [| exact Hupm |]; [simpl; tauto |].
    eapply run_lesson_frame; [| exact Hls1 | exact Hrow].
    by apply lessons_never_upsert_lesson. }
  (* the upsert writes the row *)
  simpl in Hupl. rewrite Hmid in Hupl.
  apply upsert_lesson_Ok in Hupl
    as (id & mid' & title & order & files & Hid & Hmid' & Htitle & Horder &
        Hfiles & Hcase).
  assert (id = lid) as -> by congruence.
  assert (mid' = mid) as -> by congruence.
  assert (Hafter : exists row, lessons d5 !! lid = Some row /\
                     l_module_id row = mid /\ lesson_row_matches l row).
  { destruct Hcase as [(old & Hold & ->) | (_ & _ & ->)]; simpl;
      rewrite lookup_insert_eq; eexists; (split; [done |]); simpl.
    - split; [by apply Hbefore |]. by split_and!; simpl; destruct files.
    - split; [done |]. by split_and!; simpl; destruct files. }
  destruct Hafter as (row & Hrow & Hunder & Hmatch).
  exists row. split_and!; [| done | done].
  (* nothing after it removes or rewrites the row *)
  eapply proj1, run_keeps_lesson; [| exact Hpost |].
  { apply Forall_app. split; [by apply modules_keep_lesson |].
    apply Forall_singleton. simpl. unfold module_ids.
    rewrite <- Hmid. by apply list_elem_of_fmap_2. }
  eapply run_keeps_lesson; [| exact Hdel |].
  { apply Forall_singleton. simpl. right.
    rewrite <- Hlid. apply list_elem_of_fmap_2. set_solver. }
  eapply run_keeps_lesson; [| exact Hls2 |]; [| done].
  by apply lessons_keep_lesson.
Qed.

End Settled.

Section SettledModules.
Import Db Migration12.
Context (ctx : session).

Lemma save_module_settled c db db' m mid :
  save_course_with_children ctx c db = Ok db' ->
  NoDup (module_ids c) -> m ∈ cj_modules c -> mj_id m = Some mid ->
  exists row, modules db' !! mid = Some row /\ module_row_matches m row.
Proof.
  rewrite save_as_statements. intros Hrun Hmods Hm Hmid.
  pose proof Hm as Hm'.
  apply list_elem_of_split in Hm' as (ms1 & ms2 & Hms).
  destruct (distinct_module_split _ _ _ _ Hmods Hms) as (_ & Hm_ms2).
  rewrite Hmid in Hm_ms2.
  rewrite (save_stmts_at_module _ _ _ _ Hms) in Hrun.
  apply run_app_Ok in Hrun as (d1 & _ & Hrun).
  apply run_app_Ok in Hrun as (d2 & Hmod & Hpost).
  unfold module_stmts in Hmod.
  apply run_cons_Ok in Hmod as (d3 & Hupm & Hmod).
  simpl in Hupm.
  apply upsert_module_Ok in Hupm
    as (id & cid & title & order & Hid & _ & Htitle & Horder & Hcase).
  assert (id = mid) as -> by congruence.
  assert (Hafter : exists row, modules d3 !! mid = Some row /\
                     module_row_matches m row).
  { destruct Hcase as [(old & Hold & ->) | (_ & _ & ->)]; simpl;
      rewrite lookup_insert_eq; eexists; (split; [done |]); by split. }
  destruct Hafter as (row & Hrow & Hmatch).
  exists row. split; [| done].
  eapply (run_keeps_module ctx); [| exact Hpost |].
  { apply Forall_app. split; [by apply modules_keep_module |].
    apply Forall_singleton. simpl. unfold module_ids.
    rewrite <- Hmid. by apply list_elem_of_fmap_2. }
  eapply (run_keeps_module ctx); [| exact Hmod | exact Hrow].
  apply Forall_app. split; [apply lessons_keep_module |].
  by apply Forall_singleton.
Qed.

Lemma save_course_settled c db db' :
  save_course_with_children ctx c db = Ok db' ->
  exists cid teacher row,
    cj_id c = Some cid /\ cj_teacher_id c = Some teacher /\
    check_owner ctx (Some teacher) db = Ok db /\
    courses db' !! cid = Some row /\ course_row_matches c row.
Proof.
  rewrite save_as_statements. unfold save_stmts. intros Hrun.
  apply run_cons_Ok in Hrun as (d1 & Hcheck & Hrun).
  apply run_cons_Ok in Hrun as (d2 & Hupc & Hrun).
  simpl in Hcheck, Hupc.
  pose proof (check_owner_Ok _ _ _ _ Hcheck) as ->.
  apply upsert_course_Ok in Hupc
    as (cid & teacher & title & description & category & is_published &
        Hcid & Hteacher & Htitle & Hdescription & Hcategory & Hpublished & Hcase).
  rewrite Hteacher in Hcheck.
  assert (Hafter : exists row, courses d2 !! cid = Some row /\
                     course_row_matches c row).
  { destruct Hcase as [(old & Hold & ->) | (_ & _ & ->)]; simpl;
      rewrite lookup_insert_eq; eexists; (split; [done |]); by split_and!. }
  destruct Hafter as (row & Hrow & Hmatch).
  exists cid, teacher, row. split_and!; try done.
  erewrite (run_keeps_courses ctx); [exact Hrow | | exact Hrun].
  apply Forall_app. split; [apply modules_keep_courses |].
  by apply Forall_singleton.
Qed.

End SettledModules.

(** ** Statements that find their work done *)

Section Noop.
Import Db Migration12.
Context (ctx : session).

Lemma filter_all {A} (P : A -> Prop) `{!forall x, Decision (P x)} (l : list A) :
  (forall x, x ∈ l -> P x) -> filter P l = l.
Proof.
  induction l as [| x l IH]; intros HP; [done |].
  rewrite filter_cons_True by (apply HP; set_solver).
  f_equal. apply IH. intros y Hy. apply HP. set_solver.
Qed.

Lemma delete_lessons_none P `{!forall x, Decision (P x)} db :
  (forall i row, lessons db !! i = Some row -> ~ P (i, row)) ->
  delete_lessons P db = db.
Proof.
  intros Hnone. unfold delete_lessons.
  rewrite (map_filter_id (fun x => ~ P x))
    by (intros i row Hrow; by apply Hnone).
  rewrite filter_all; [by destruct db |].
  intros p _. apply map_lookup_filter_None. right. intros row Hrow.
  by apply Hnone.
Qed.

Lemma delete_modules_none P `{!forall x, Decision (P x)} db :
  (forall i row, modules db !! i = Some row -> ~ P (i, row)) ->
  delete_modules P db = db.
Proof.
  intros Hnone. unfold delete_modules.
  rewrite (map_filter_id (fun x => ~ P x))
    by (intros i row Hrow; by apply Hnone).
  assert (set_modules (modules db) db = db) as -> by (by destruct db).
  apply delete_lessons_none. intros i row _ [mrow Hgone]. simpl in Hgone.
  apply map_lookup_filter_Some in Hgone as [Hrow HP]. by eapply Hnone.
Qed.

Lemma delete_lessons_not_in_noop mid ids db :
  lessons_within mid ids db -> delete_lessons_not_in (Some mid) ids db = db.
Proof.
  intros Hin. unfold delete_lessons_not_in. apply delete_lessons_none.
  intros i row Hrow [Hmid [_ Hout]]. simpl in *. by eapply Hout, Hin.
Qed.

Lemma delete_modules_not_in_noop cid ids db :
  modules_within cid ids db -> delete_modules_not_in (Some cid) ids db = db.
Proof.
  intros Hin. unfold delete_modules_not_in. apply delete_modules_none.
  intros i row Hrow [Hcid [_ Hout]]. simpl in *. by eapply Hout, Hin.
Qed.

Lemma upsert_lesson_noop mo l db lid row :
  lj_id l = Some lid -> is_Some mo ->
  lessons db !! lid = Some row -> lesson_row_matches l row ->
  upsert_lesson ctx mo l db = Ok db.
Proof.
  intros Hid [mid ->] Hrow (Htitle & Horder & Hfiles).
  unfold upsert_lesson. rewrite Horder, Hfiles, Hid, Htitle. simpl.
  rewrite Hrow. f_equal.
  assert (lesson_row_of (l_module_id row) (l_created_at row) (l_title row)
            (l_order row) (file_columns_of row) = row) as -> by (by destruct row).
  rewrite insert_id by done. by destruct db.
Qed.

Lemma upsert_module_noop co m db mid row :
  mj_id m = Some mid -> is_Some co ->
  modules db !! mid = Some row -> module_row_matches m row ->
  upsert_module ctx co m db = Ok db.
Proof.
  intros Hid [cid ->] Hrow (Htitle & Horder).
  unfold upsert_module. rewrite Horder, Hid, Htitle. simpl.
  rewrite Hrow. f_equal.
  assert (module_row_of (m_course_id row) (m_created_at row) (m_title row)
            (m_order row) = row) as -> by (by destruct row).
  rewrite insert_id by done. by destruct db.
Qed.

Lemma upsert_course_noop c db cid row :
  cj_id c = Some cid -> is_Some (cj_teacher_id c) ->
  courses db !! cid = Some row -> course_row_matches c row ->
  upsert_course ctx c db = Ok db.
Proof.
  intros Hid [teacher Hteacher] Hrow
    (Htitle & Hdescription & Hcategory & Himage & Hpublished).
  unfold upsert_course.
  rewrite Hid, Hteacher, Htitle, Hdescription, Hcategory, Hpublished. simpl.
  rewrite Hrow, Himage. f_equal.
  assert (course_row_of (c_teacher_id row) (c_created_at row)
            (c_updated_at row) (c_title row) (c_description row)
            (c_category row) (c_image_url row) (c_is_published row) = row)
    as -> by (by destruct row).
  rewrite insert_id by done. by destruct db.
Qed.

Lemma run_noops ss db :
  Forall (fun s => exec ctx s db = Ok db) ss -> run ctx ss db = Ok db.
Proof.
  induction 1 as [| s ss Hs _ IH]; [done |]. by rewrite run_cons, Hs.
Qed.

End Noop.

(** ** When a call goes through *)

Section Accepted.
Import Db Migration12 Acceptance.
Context (ctx : session).

Lemma cast_range_fits lo hi x :
  fits lo hi x <-> exists z, cast_range lo hi x = Ok (Some z).
Proof.
  unfold fits, cast_range. split.
  - intros (z & -> & Hz). exists z. by rewrite bool_decide_eq_true_2.
  - intros (z & Hz). destruct x as [y |]; [| done].
    case_bool_decide; [| done]. exists y. split; [done | done].
Qed.

Lemma cast_file_type_Ok x :
  (exists t, cast_file_type x = Ok t) <->
  x = None \/ x = Some "pdf" \/ x = Some "video".
Proof.
  unfold cast_file_type. split.
  - intros [t Ht]. destruct x as [s |]; [| by left].
    destruct (String.eqb s "pdf") eqn:Hpdf;
      [apply String.eqb_eq in Hpdf as ->; eauto |].
    destruct (String.eqb s "video") eqn:Hvideo;
      [apply String.eqb_eq in Hvideo as ->; eauto | done].
  - intros [-> | [-> | ->]]; simpl; eauto.
Qed.

Lemma cast_bigint_Ok x :
  (exists z, cast_bigint x = Ok z) <->
  forall z, x = Some z -> (- 2 ^ 63 <= z < 2 ^ 63)%Z.
Proof.
  unfold cast_bigint, cast_range. split.
  - intros [r Hr] z ->. by case_bool_decide.
  - intros Hfit. destruct x as [z |]; [| eauto].
    rewrite bool_decide_eq_true_2 by (by apply Hfit). eauto.
Qed.

Lemma lesson_files_Ok l :
  (exists files, lesson_files l = Ok files) <->
  forall content, lj_content l = Some content -> content_accepted content.
Proof.
  unfold lesson_files, content_accepted. split.
  - intros [files Hfiles] content Hcontent. rewrite Hcontent in Hfiles.
    destruct (cast_file_type (content_type content)) as [t |] eqn:Ht; [| done].
    destruct (cast_bigint (content_size content)) as [z |] eqn:Hz; [| done].
    split; [apply cast_file_type_Ok | apply cast_bigint_Ok]; eauto.
  - intros Hok. destruct (lj_content l) as [content |]; [| eauto].
    destruct (Hok content eq_refl) as [Ht Hz].
    apply cast_file_type_Ok in Ht as [t ->].
    apply cast_bigint_Ok in Hz as [z ->]. simpl. eauto.
Qed.

(** *** From the conditions to the result *)

Lemma upsert_lesson_accepts mid l db :
  lesson_accepted l ->
  (forall lid, lj_id l = Some lid ->
     is_Some (lessons db !! lid) \/ is_Some (modules db !! mid)) ->
  exists db', upsert_lesson ctx (Some mid) l db = Ok db' /\
              modules db' = modules db /\ courses db' = courses db.
Proof.
  intros ([lid Hlid] & [title Htitle] & Horder & Hcontent) Hparent.
  apply cast_range_fits in Horder as [order Horder].
  apply lesson_files_Ok in Hcontent as [files Hfiles].
  unfold upsert_lesson, cast_integer.
  rewrite Horder, Hfiles, Hlid, Htitle. simpl.
  destruct (lessons db !! lid) as [old |] eqn:Hold; [eauto |].
  destruct (Hparent lid Hlid) as [Hl | Hm]; [by rewrite Hold in Hl; destruct Hl |].
  rewrite decide_True by done. eauto.
Qed.

Lemma upsert_lessons_accept mid ls db :
  Forall lesson_accepted ls -> is_Some (modules db !! mid) ->
  exists db', for_each (upsert_lesson ctx (Some mid)) ls db = Ok db' /\
              modules db' = modules db /\ courses db' = courses db.
Proof.
  intros Hls. revert db. induction Hls as [| l ls Hl _ IH]; intros db Hmid.
  - simpl. eauto.
  - destruct (upsert_lesson_accepts mid l db Hl) as (db1 & H1 & Hm1 & Hc1);
      [eauto |].
    destruct (IH db1) as (db2 & H2 & Hm2 & Hc2); [by rewrite Hm1 |].
    exists db2. simpl. rewrite H1. simpl.
    split; [done |]. split; congruence.
Qed.

Lemma upsert_module_accepts cid m db :
  is_Some (mj_id m) -> is_Some (mj_title m) ->
  fits (- 2 ^ 31) (2 ^ 31) (mj_order m) ->
  is_Some (courses db !! cid) ->
  exists db' mid,
    mj_id m = Some mid /\ upsert_module ctx (Some cid) m db = Ok db' /\
    is_Some (modules db' !! mid) /\ courses db' = courses db.
Proof.
  intros [mid Hmid] [title Htitle] Horder Hcourse.
  apply cast_range_fits in Horder as [order Horder].
  unfold upsert_module, cast_integer. rewrite Horder, Hmid, Htitle. simpl.
  destruct (modules db !! mid) as [old |] eqn:Hold.
  - eexists _, mid. split_and!; [done | done | | done].
    simpl. by rewrite lookup_insert_eq.
  - rewrite decide_True by done. eexists _, mid.
    split_and!; [done | done | | done]. simpl. by rewrite lookup_insert_eq.
Qed.

Lemma modules_accept cid ms db :
  Forall module_accepted ms -> is_Some (courses db !! cid) ->
  exists db',
    for_each
      (fun m db =>
         db ← upsert_module ctx (Some cid) m db;
         db ← for_each (upsert_lesson ctx (mj_id m)) (mj_lessons m) db;
         Ok (delete_lessons_not_in (mj_id m) (lj_id <$> mj_lessons m) db))
      ms db = Ok db'.
Proof.
  intros Hms. revert db. induction Hms as [| m ms Hm _ IH]; intros db Hcourse.
  - simpl. eauto.
  - destruct Hm as (Hid & Htitle & Horder & Hls).
    destruct (upsert_module_accepts cid m db Hid Htitle Horder Hcourse)
      as (db1 & mid & Hmid & H1 & Hrow & Hc1).
    destruct (upsert_lessons_accept mid (mj_lessons m) db1 Hls Hrow)
      as (db2 & H2 & _ & Hc2).
    destruct (IH (delete_lessons_not_in (Some mid) (lj_id <$> mj_lessons m) db2))
      as (db3 & H3).
    { rewrite courses_delete_lessons_not_in. congruence. }
    exists db3. cbn [for_each]. rewrite H1. simpl. rewrite Hmid, H2. simpl.
    exact H3.
Qed.

Lemma save_accepts c db :
  accepted ctx c db -> exists db', save_course_with_children ctx c db = Ok db'.
Proof.
  intros ((cid & teacher & Hcid & Hteacher & Hcaller & Hparent)
          & [title Htitle] & [description Hdescription]
          & [category Hcategory] & [is_published Hpublished] & Hms).
  unfold save_course_with_children.
  assert (Hcheck : check_owner ctx (cj_teacher_id c) db = Ok db).
  { unfold check_owner. rewrite Hteacher.
    destruct Hcaller as [-> | ->]; [done |]. by rewrite decide_True. }
  rewrite Hcheck. simpl.
  assert (exists db1, upsert_course ctx c db = Ok db1 /\
                      is_Some (courses db1 !! cid)) as (db1 & H1 & Hrow).
  { unfold upsert_course.
    rewrite Hcid, Hteacher, Htitle, Hdescription, Hcategory, Hpublished. simpl.
    destruct (courses db !! cid) as [old |] eqn:Hold.
    - eexists. split; [done |]. simpl. by rewrite lookup_insert_eq.
    - destruct Hparent as [Hc | Hp]; [by destruct Hc |].
      rewrite decide_True by done.
      eexists. split; [done |]. simpl. by rewrite lookup_insert_eq. }
  rewrite H1. simpl. rewrite Hcid.
  destruct (modules_accept cid (cj_modules c) db1 Hms Hrow) as (db2 & H2).
  rewrite H2. simpl. eauto.
Qed.

(** *** From the result to the conditions *)

Lemma for_each_Ok_Forall {A} (body : A -> DB -> result DB) xs db db' :
  for_each body xs db = Ok db' ->
  Forall (fun x => exists d d', body x d = Ok d') xs.
Proof.
  revert db. induction xs as [| x xs IH]; intros db H; [constructor |].
  simpl in H. apply bind_Ok in H as (d & Hx & Hxs).
  constructor; [eauto | by eapply IH].
Qed.

Lemma upsert_lesson_Ok_accepted mo l db db' :
  upsert_lesson ctx mo l db = Ok db' -> lesson_accepted l.
Proof.
  intros H. apply upsert_lesson_Ok in H
    as (id & mid & title & order & files & Hid & _ & Htitle & Horder & Hfiles & _).
  split_and!; [eauto | eauto | | ].
  - apply cast_range_fits. eauto.
  - apply lesson_files_Ok. eauto.
Qed.

Lemma save_Ok_accepted c db db' :
  save_course_with_children ctx c db = Ok db' -> accepted ctx c db.
Proof.
  unfold save_course_with_children. intros H.
  apply bind_Ok in H as (db0 & Hcheck & H).
  apply bind_Ok in H as (db1 & Hcourse & H).
  apply bind_Ok in H as (db2 & Hms & _).
  pose proof (check_owner_Ok _ _ _ _ Hcheck) as ->.
  apply upsert_course_Ok in Hcourse
    as (cid & teacher & title & description & category & is_published
        & Hcid & Hteacher & Htitle & Hdescription & Hcategory & Hpublished
        & Hcase).
  split_and!; try (by eauto).
  - exists cid, teacher. split_and!; [done | done | |].
    + unfold check_owner in Hcheck. rewrite Hteacher in Hcheck.
      destruct (auth_uid ctx) as [u |]; [| by left].
      case_decide; [right; congruence | done].
    + destruct Hcase as [(old & Hold & _) | (_ & Hp & _)]; [left | right]; eauto.
  - apply for_each_Ok_Forall in Hms.
    eapply Forall_impl; [exact Hms |]. intros m (d & d' & Hm). simpl in Hm.
    apply bind_Ok in Hm as (d1 & Hmod & Hm).
    apply bind_Ok in Hm as (d2 & Hls & _).
    apply upsert_module_Ok in Hmod
      as (id & cid' & mtitle & order & Hid & _ & Hmtitle & Horder & _).
    split_and!; [eauto | eauto | apply cast_range_fits; eauto |].
    apply for_each_Ok_Forall in Hls.
    eapply Forall_impl; [exact Hls |]. intros l (e & e' & Hl).
    by eapply upsert_lesson_Ok_accepted.
Qed.

(** A call goes through exactly on the payloads described. *)
Lemma save_goes_through_iff c db :
  (exists db', save_course_with_children ctx c db = Ok db') <->
  accepted ctx c db.
Proof.
  split; [intros [db' H]; by eapply save_Ok_accepted | apply save_accepts].
Qed.

End Accepted.

(** ** Null content, and calling twice *)

Section ContentAndIdempotence.
Import Db Migration12 Acceptance.

Lemma lesson_files_as_given l row :
  lesson_files l = Ok (file_columns_of row) -> files_as_given l row.
Proof.
  unfold lesson_files, files_as_given.
  destruct (lj_content l) as [content |].
  - destruct (cast_file_type (content_type content)) as [type | e]; [| done].
    destruct (cast_bigint (content_size content)) as [size | e]; [| done].
    simpl. intros [= -> -> -> ->]. done.
  - intros [= <- <- <- <-]. done.
Qed.

Lemma upsert_lesson_writes_files ctx mo l db db' lid :
  upsert_lesson ctx mo l db = Ok db' -> lj_id l = Some lid ->
  exists row, lessons db' !! lid = Some row /\
              lesson_files l = Ok (file_columns_of row).
Proof.
  intros Hup Hlid.
  apply upsert_lesson_Ok in Hup
    as (id & mid & title & order & files & Hid & _ & _ & _ & Hfiles & Hcase).
  assert (id = lid) as -> by congruence.
  destruct Hcase as [(old & _ & ->) | (_ & _ & ->)]; simpl;
    rewrite lookup_insert_eq; eexists; (split; [done |]);
    by destruct files.
Qed.

Lemma save_lesson_ids ctx c db db' m :
  save_course_with_children ctx c db = Ok db' ->
  m ∈ cj_modules c -> Forall is_Some (lesson_ids m).
Proof.
  rewrite save_as_statements. intros Hrun Hm.
  apply list_elem_of_split in Hm as (ms1 & ms2 & Hms).
  rewrite (save_stmts_at_module _ _ _ _ Hms) in Hrun.
  apply run_app_Ok in Hrun as (d1 & _ & Hrun).
  apply run_app_Ok in Hrun as (d2 & Hmod & _).
  apply run_module_stmts_Ok in Hmod as (d3 & d4 & _ & Hls & _).
  by eapply run_lessons_ids.
Qed.

(** After the call, a row that a payload entry names, and that no other
    entry names, carries the file columns of that entry. *)
Lemma save_lesson_files ctx c db db' m l lid row :
  save_course_with_children ctx c db = Ok db' ->
  NoDup (tree_lesson_ids c) ->
  m ∈ cj_modules c -> l ∈ mj_lessons m -> lj_id l = Some lid ->
  lessons db' !! lid = Some row ->
  lesson_files l = Ok (file_columns_of row).
Proof.
  rewrite save_as_statements. intros Hrun Hless Hm Hl Hlid Hrow.
  apply list_elem_of_split in Hm as (ms1 & ms2 & Hms).
  apply list_elem_of_split in Hl as (ls1 & ls2 & Hls).
  destruct (distinct_lesson_split _ _ _ _ _ _ _ Hless Hms Hls)
    as (_ & _ & Hl_ls2 & Hl_ms2).
  rewrite Hlid in *.
  rewrite (save_stmts_at_module _ _ _ _ Hms) in Hrun.
  apply run_app_Ok in Hrun as (d1 & _ & Hrun).
  apply run_app_Ok in Hrun as (d2 & Hmod & Hpost).
  unfold module_stmts in Hmod. rewrite Hls, fmap_app, fmap_cons in Hmod.
  apply run_cons_Ok in Hmod as (d3 & _ & Hmod).
  rewrite <- app_assoc in Hmod.
  apply run_app_Ok in Hmod as (d4 & _ & Hmod).
  rewrite <- app_comm_cons in Hmod.
  apply run_cons_Ok in Hmod as (d5 & Hupl & Hrest).
  simpl in Hupl.
  destruct (upsert_lesson_writes_files _ _ _ _ _ _ Hupl Hlid)
    as (row5 & Hrow5 & Hfiles).
  assert (lessons d5 !! lid = Some row) as Hsame; [| congruence].
  eapply run_lesson_frame; [| exact Hrest |].
  { apply Forall_app. split; [by apply lessons_never_upsert_lesson |].
    apply Forall_singleton. simpl. tauto. }
  eapply run_lesson_frame; [| exact Hpost | exact Hrow].
  apply Forall_app. split; [by apply modules_never_upsert_lesson |].
  apply Forall_singleton. simpl. tauto.
Qed.

(** C4. The upsert of a lesson goes through and writes the four file
    columns from the payload whatever the row held before: four NULLs
    when [content] is null or absent, the four fields of [content] when it
    is there.  After the whole call a row named by one entry of the
    payload carries the columns of that entry; and for a payload the call
    goes through on, with distinct ids and no lesson that changes its
    module, the call returns and every lesson of the payload is stored
    with the columns of its entry. *)
Theorem null_content_is_written ctx course_data :
  (forall mid l lid db,
     lesson_accepted l -> lj_id l = Some lid ->
     is_Some (lessons db !! lid) \/ is_Some (modules db !! mid) ->
     exists db' row,
       upsert_lesson ctx (Some mid) l db = Ok db' /\
       lessons db' !! lid = Some row /\ files_as_given l row) /\
  (forall mo l lid db db',
     upsert_lesson ctx mo l db = Ok db' -> lj_id l = Some lid ->
     exists row, lessons db' !! lid = Some row /\ files_as_given l row) /\
  (forall db db' m l lid row,
     save_course_with_children ctx course_data db = Ok db' ->
     NoDup (tree_lesson_ids course_data) ->
     m ∈ cj_modules course_data -> l ∈ mj_lessons m -> lj_id l = Some lid ->
     lessons db' !! lid = Some row ->
     files_as_given l row) /\
  (forall db db' m l lid,
     save_course_with_children ctx course_data db = Ok db' ->
     distinct_ids course_data -> lessons_stay_put course_data db ->
     m ∈ cj_modules course_data -> l ∈ mj_lessons m -> lj_id l = Some lid ->
     exists row, lessons db' !! lid = Some row /\ files_as_given l row) /\
  (forall db,
     accepted ctx course_data db ->
     distinct_ids course_data -> lessons_stay_put course_data db ->
     exists db',
       save_course_with_children ctx course_data db = Ok db' /\
       forall m l lid,
         m ∈ cj_modules course_data -> l ∈ mj_lessons m -> lj_id l = Some lid ->
         exists row, lessons db' !! lid = Some row /\ files_as_given l row).
Proof.
  assert (Hsettled : forall db db' m l lid,
     save_course_with_children ctx course_data db = Ok db' ->
     distinct_ids course_data -> lessons_stay_put course_data db ->
     m ∈ cj_modules course_data -> l ∈ mj_lessons m -> lj_id l = Some lid ->
     exists row, lessons db' !! lid = Some row /\ files_as_given l row).
  { intros db db' m l lid Hsave Hd Hput Hm Hl Hlid.
    assert (exists mid, mj_id m = Some mid) as [mid Hmid].
    { destruct (save_Ok_last _ _ _ _ Hsave) as (_ & _ & _ & Hids & _).
      rewrite Forall_forall in Hids. apply Hids.
      unfold module_ids. by apply list_elem_of_fmap_2. }
    destruct (save_lesson_settled _ _ _ _ _ _ _ _ Hsave Hd Hput Hm Hl Hmid Hlid)
      as (row & Hrow & _ & _ & _ & Hfiles).
    exists row. split; [done |]. by apply lesson_files_as_given. }
  split_and!.
  - intros mid l lid db Hl Hlid Hparent.
    destruct (upsert_lesson_accepts ctx mid l db Hl) as (db' & Hup & _).
    { intros lid' Hlid'. by simplify_eq. }
    destruct (upsert_lesson_writes_files _ _ _ _ _ _ Hup Hlid) as (row & ? & ?).
    exists db', row. split_and!; [done | done |]. by apply lesson_files_as_given.
  - intros mo l lid db db' Hup Hlid.
    destruct (upsert_lesson_writes_files _ _ _ _ _ _ Hup Hlid) as (row & ? & ?).
    exists row. split; [done |]. by apply lesson_files_as_given.
  - intros db db' m l lid row Hsave Hnd Hm Hl Hlid Hrow.
    apply lesson_files_as_given. by eapply save_lesson_files.
  - exact Hsettled.
  - intros db Hacc Hd Hput.
    destruct (save_accepts ctx course_data db Hacc) as [db' Hsave].
    exists db'. split; [done |]. intros m l lid. by eapply Hsettled.
Qed.

Lemma check_owner_same_user ctx ctx' t db db' :
  auth_uid ctx' = auth_uid ctx ->
  check_owner ctx t db = Ok db -> check_owner ctx' t db' = Ok db'.
Proof.
  unfold check_owner. intros ->. destruct t; [| done].
  destruct (auth_uid ctx); [case_decide |]; done.
Qed.

(** After a call that went through, for a payload whose module ids and
    lesson ids are pairwise distinct, on a state in which every lesson of
    the payload that is already stored is stored under the module that
    lists it, a second call by the same user changes nothing. *)
Lemma second_save_is_a_noop ctx ctx' course_data db db1 :
  distinct_ids course_data ->
  lessons_stay_put course_data db ->
  auth_uid ctx' = auth_uid ctx ->
  save_course_with_children ctx course_data db = Ok db1 ->
  save_course_with_children ctx' course_data db1 = Ok db1.
Proof.
  intros Hd Hput Huser Hsave. pose proof Hd as [Hmods Hless].
  rewrite save_as_statements. apply run_noops.
  destruct (save_course_settled _ _ _ _ Hsave)
    as (cid & teacher & crow & Hcid & Hteacher & Hcheck & Hcrow & Hcmatch).
  destruct (save_Ok_last _ _ _ _ Hsave) as (cid' & dbF & Hcid' & Hids & _ & Hdb1).
  assert (cid' = cid) as -> by congruence.
  unfold save_stmts.
  apply Forall_cons. split.
  { simpl. rewrite Hteacher. by eapply check_owner_same_user. }
  apply Forall_cons. split.
  { simpl. eapply upsert_course_noop; [done | by rewrite Hteacher | done | done]. }
  apply Forall_app. split.
  - apply Forall_bind_module_stmts. intros m Hm.
    assert (exists mid, mj_id m = Some mid) as [mid Hmid].
    { rewrite Forall_forall in Hids. apply Hids.
      unfold module_ids. by apply list_elem_of_fmap_2. }
    apply Forall_module_stmts. split_and!.
    + simpl.
      destruct (save_module_settled _ _ _ _ _ _ Hsave Hmods Hm Hmid)
        as (row & Hrow & Hmatch).
      eapply upsert_module_noop; [done | by rewrite Hcid | done | done].
    + apply Forall_forall. intros l Hl. simpl.
      assert (exists lid, lj_id l = Some lid) as [lid Hlid].
      { pose proof (save_lesson_ids _ _ _ _ _ Hsave Hm) as Hlids.
        rewrite Forall_forall in Hlids. apply Hlids.
        unfold lesson_ids. by apply list_elem_of_fmap_2. }
      destruct (save_lesson_settled _ _ _ _ _ _ _ _ Hsave Hd Hput Hm Hl Hmid Hlid)
        as (row & Hrow & _ & Hmatch).
      eapply upsert_lesson_noop; [done | by rewrite Hmid | done | done].
    + simpl. f_equal. rewrite Hmid. apply delete_lessons_not_in_noop.
      eapply save_lessons_within; [done | by apply distinct_module_is_last | done].
  - apply Forall_singleton. simpl. f_equal. rewrite Hcid.
    apply delete_modules_not_in_noop. rewrite Hdb1.
    by apply delete_modules_not_in_within.
Qed.

(** Saving twice is saving once, when no lesson changes its module.  For
    a payload the call goes through on, whose module ids and lesson ids
    are pairwise distinct, on a state in which every lesson of the payload
    that is already stored is stored under the module that lists it: the
    call returns, and a second call by the same user returns as well and
    leaves the state the first call left.  (A lesson listed under another
    module than the one it is stored in is what this leaves out: there the
    first call deletes the lesson.) *)
Theorem save_twice_is_save_once ctx ctx' course_data db :
  accepted ctx course_data db ->
  distinct_ids course_data ->
  lessons_stay_put course_data db ->
  auth_uid ctx' = auth_uid ctx ->
  exists db1,
    save_course_with_children ctx course_data db = Ok db1 /\
    save_course_with_children ctx' course_data db1 = Ok db1.
Proof.
  intros Hacc Hd Hput Huser.
  destruct (save_accepts ctx course_data db Hacc) as [db1 Hsave].
  exists db1. split; [done |]. by eapply second_save_is_a_noop.
Qed.

End ContentAndIdempotence.

(** ** All or nothing *)

Section AllOrNothing.
Import Db Migration12 Acceptance.
Context (ctx : session).

(** C2. A call of [save_course_with_children] is all or nothing.

    Which of the two it is, is decided by the payload and the state the
    call finds: the call goes through exactly when the caller passes the
    ownership check, the course fields are given, the course is stored or
    its teacher has a profile, and every module and lesson entry has its
    id, title, an order that fits [integer] and, if it has a file, a file
    type of the enum and a size that fits [bigint].

    All: when it goes through, the call commits what the whole body
    produces.  The course row carries the payload; no module of the course
    is left that the payload does not list; with distinct module ids
    every module entry has its row, which carries the entry, and no
    lesson is left under it that the entry does not list; with distinct
    ids and no lesson that changes its module every lesson entry has its
    row under its module, and the row carries the entry.

    Nothing: otherwise the first statement that raises aborts the call,
    whatever the statements before it have written to the working state,
    and the persisted state is the one the call found.  The body has no
    handler that could catch the error and return normally.  In every state the transaction passes through, what
    is persisted is the state before the call or the state after the
    whole body. *)
Theorem save_all_or_nothing course_data db :
  rtc (txn_step ctx) (txn_begin course_data db)
      (match save_course_with_children ctx course_data db with
       | Ok db' => Committed db'
       | Err e => Aborted db e
       end) /\
  (forall t, rtc (txn_step ctx) (txn_begin course_data db) t ->
     txn_visible t = db \/
     exists db', save_course_with_children ctx course_data db = Ok db' /\
                 t = Committed db') /\
  (forall e, save_course_with_children ctx course_data db = Err e ->
     rpc ctx course_data db = (db, Some e)) /\
  (forall db', save_course_with_children ctx course_data db = Ok db' ->
     rpc ctx course_data db = (db', None)) /\
  ((exists db', save_course_with_children ctx course_data db = Ok db') <->
   accepted ctx course_data db) /\
  (~ accepted ctx course_data db ->
   exists e, rpc ctx course_data db = (db, Some e)) /\
  (forall before s after working e,
     save_stmts course_data = (before ++ s :: after)%list ->
     run ctx before db = Ok working -> exec ctx s working = Err e ->
     save_course_with_children ctx course_data db = Err e /\
     rpc ctx course_data db = (db, Some e)) /\
  (forall db',
     save_course_with_children ctx course_data db = Ok db' ->
     (exists cid row,
        cj_id course_data = Some cid /\
        courses db' !! cid = Some row /\ course_row_matches course_data row /\
        modules_within cid (module_ids course_data) db') /\
     (NoDup (module_ids course_data) ->
      forall m mid,
        m ∈ cj_modules course_data -> mj_id m = Some mid ->
        (exists row, modules db' !! mid = Some row /\ module_row_matches m row) /\
        lessons_within mid (lesson_ids m) db') /\
     (distinct_ids course_data -> lessons_stay_put course_data db ->
      forall m l mid lid,
        m ∈ cj_modules course_data -> l ∈ mj_lessons m ->
        mj_id m = Some mid -> lj_id l = Some lid ->
        exists row,
          lessons db' !! lid = Some row /\ l_module_id row = mid /\
          lesson_row_matches l row)).
Proof.
  split_and!.
  - rewrite save_as_statements. apply txn_runs.
  - intros t Hrtc. apply txn_reachable in Hrtc as [Hv | (db' & -> & Hrun)];
      [by left |].
    right. exists db'. by rewrite save_as_statements.
  - intros e He. unfold rpc. by rewrite He.
  - intros db' Hok. unfold rpc. by rewrite Hok.
  - apply save_goes_through_iff.
  - intros Hno. unfold rpc.
    destruct (save_course_with_children ctx course_data db) as [db' | e] eqn:Hsave;
      [| eauto].
    destruct Hno. by eapply save_Ok_accepted.
  - intros before s after working e Hbody Hbefore Hs.
    assert (Hsave : save_course_with_children ctx course_data db = Err e).
    { rewrite save_as_statements, Hbody, run_app, Hbefore. simpl.
      by rewrite run_cons, Hs. }
    split; [exact Hsave |]. unfold rpc. by rewrite Hsave.
  - intros db' Hsave. split_and!.
    + destruct (save_course_settled _ _ _ _ Hsave)
        as (cid & teacher & row & Hcid & _ & _ & Hrow & Hmatch).
      destruct (save_Ok_last _ _ _ _ Hsave)
        as (cid' & before_last & Hcid' & Hids & _ & ->).
      assert (cid' = cid) as -> by congruence.
      exists cid, row. split_and!; [done | done | done |].
      by apply delete_modules_not_in_within.
    + intros Hnd m mid Hm Hmid. split.
      * by eapply save_module_settled.
      * eapply save_lessons_within; [done | by apply distinct_module_is_last | done].
    + intros Hd Hput m l mid lid Hm Hl Hmid Hlid.
      by eapply save_lesson_settled.
Qed.

End AllOrNothing.

(** ** The concrete scenarios *)

Section Scenarios.
Import Db Scenario.

Ltac accepted_by_cases :=
  unfold Acceptance.accepted, Acceptance.module_accepted,
    Acceptance.lesson_accepted, Acceptance.content_accepted, Acceptance.fits;
  simpl;
  repeat first
    [ progress (split_and?)
    | apply Forall_cons; split
    | apply Forall_nil
    | by eauto
    | by (eexists; split; [reflexivity | lia])
    | by (eexists _, _; split_and!;
            [reflexivity | reflexivity | by right | left; vm_compute; eauto])
    | by (intros ? [= <-]; simpl; split; [eauto | intros ? [= <-]; lia])
    | by intros ? [=] ].

Ltac by_computation := vm_compute; reflexivity.

Ltac split_members :=
  repeat match goal with
         | H : _ ∈ _ :: _ |- _ => apply elem_of_cons in H as [-> | H]
         | H : _ ∈ [] |- _ => by apply elem_of_nil in H
         end.

(** The example of the specification, run on the model. *)
Example spec_example_runs :
  Migration12.save_course_with_children (as_user 1) spec_example scenario_db
  = Ok spec_example_after.
Proof. by_computation. Qed.

Lemma spec_example_distinct : Migration12.distinct_ids spec_example.
Proof. split; apply (bool_decide_unpack _); by_computation. Qed.

Lemma file_detached_distinct : Migration12.distinct_ids file_detached.
Proof. split; apply (bool_decide_unpack _); by_computation. Qed.

Lemma spec_example_stays_put : Migration12.lessons_stay_put spec_example scenario_db.
Proof.
  intros m l mid lid row Hm Hl Hmid Hlid Hrow. simpl in Hm.
  split_members; simpl in Hl; split_members;
    simpl in Hmid, Hlid; simplify_eq; vm_compute in Hrow; by simplify_eq.
Qed.

Lemma file_detached_stays_put : Migration12.lessons_stay_put file_detached scenario_db.
Proof.
  intros m l mid lid row Hm Hl Hmid Hlid Hrow. simpl in Hm.
  split_members; simpl in Hl; split_members;
    simpl in Hmid, Hlid; simplify_eq; vm_compute in Hrow; by simplify_eq.
Qed.

(** C3, on the example: the module 21 and the lesson 32 are not in the
    payload, and are gone. *)
Lemma deletion_completeness_witness :
  modules spec_example_after !! 21%N = None /\
  Migration12.lessons_within 20
    (Migration12.lesson_ids
       (module_entry 20 "M1" 0
          [ lesson_entry 33 "L3" 0 (Some "pdf");
            lesson_entry 31 "L1" 1 (Some "video") ]))
    spec_example_after.
Proof.
  destruct (deletion_completeness (as_user 1) spec_example scenario_db
              spec_example_after ltac:(by_computation))
    as (Hgone & _ & _ & Hwithin & _).
  split.
  - apply (Hgone 10%N 21%N (stored_module 10 "M2" 1));
      [reflexivity | by_computation | reflexivity |].
    unfold Migration12.module_ids. simpl. set_solver.
  - apply Hwithin; [apply spec_example_distinct | | reflexivity].
    simpl. set_solver.
Defined.

(** C4, on [file_detached]: L1 had a video, the payload gives it no
    content, and its four file columns are NULL afterwards. *)
Example file_detached_runs :
  Migration12.save_course_with_children (as_user 1) file_detached scenario_db
  = Ok file_detached_after.
Proof. by_computation. Qed.

Lemma file_detached_accepted :
  Acceptance.accepted (as_user 1) file_detached scenario_db.
Proof. accepted_by_cases. Qed.

Lemma null_content_is_written_witness :
  exists db',
    Migration12.save_course_with_children (as_user 1) file_detached scenario_db
      = Ok db' /\
    exists row,
      lessons db' !! 31%N = Some row /\
      Migration12.files_as_given (lesson_entry 31 "L1" 0 None) row.
Proof.
  destruct (proj2 (proj2 (proj2 (proj2
              (null_content_is_written (as_user 1) file_detached))))
              scenario_db file_detached_accepted file_detached_distinct
              file_detached_stays_put) as (db' & Hsave & Hrows).
  exists db'. split; [exact Hsave |].
  apply (Hrows (module_entry 20 "M1" 0
                  [ lesson_entry 31 "L1" 0 None; lesson_entry 32 "L2" 1 None ])
               (lesson_entry 31 "L1" 0 None) 31%N).
  - simpl. set_solver.
  - simpl. set_solver.
  - reflexivity.
Defined.

Example file_detached_columns :
  Migration12.file_columns_of (stored_lesson 20 "L1" 0 (Some video) 0)
    <> Migration12.no_file /\
  Migration12.file_columns_of <$> lessons file_detached_after !! 31%N
    = Some Migration12.no_file.
Proof. split; [discriminate | by_computation]. Qed.

Lemma spec_example_accepted :
  Acceptance.accepted (as_user 1) spec_example scenario_db.
Proof. accepted_by_cases. Qed.

(** Saving the example of the specification twice. *)
Lemma save_twice_is_save_once_witness :
  exists db1,
    Migration12.save_course_with_children (as_user 1) spec_example scenario_db
      = Ok db1 /\
    Migration12.save_course_with_children (as_user 1) spec_example db1 = Ok db1.
Proof.
  apply (save_twice_is_save_once (as_user 1) (as_user 1) spec_example
           scenario_db).
  - apply spec_example_accepted.
  - apply spec_example_distinct.
  - apply spec_example_stays_put.
  - reflexivity.
Defined.

Lemma lesson_moved_accepted :
  Acceptance.accepted (as_user 1) lesson_moved scenario_db.
Proof. accepted_by_cases. Qed.

(** C5, at the failing input.  The payload lists the stored lesson 34
    under module 20; it is stored under module 21, which the payload
    lists without lessons.  The payload is one the call goes through on,
    with distinct ids.  The first call overwrites the columns of lesson
    34 where it is, under module 21 ([ON CONFLICT (id) DO UPDATE] does not
    set [module_id]), and then deletes it, with the progress row on it,
    among the lessons of 21 that the payload does not list there: a
    lesson that the payload lists is gone.  The second call no longer
    finds it and inserts it under module 20, so the state after two calls
    is not the state after one.  The function of the setup script, at the
    same input, stores the lesson under module 20 in one call. *)
Theorem save_deletes_a_lesson_it_lists :
  Some 34%N ∈ Migration12.tree_lesson_ids lesson_moved /\
  Migration12.distinct_ids lesson_moved /\
  Acceptance.accepted (as_user 1) lesson_moved scenario_db /\
  l_module_id <$> lessons scenario_db !! 34%N = Some 21%N /\
  completed 91 3 34 ∈ progress scenario_db /\
  Migration12.save_course_with_children (as_user 1) lesson_moved scenario_db
    = Ok lesson_moved_once /\
  lessons lesson_moved_once !! 34%N = None /\
  completed 91 3 34 ∉ progress lesson_moved_once /\
  Migration12.save_course_with_children (as_user 1) lesson_moved
    lesson_moved_once = Ok lesson_moved_twice /\
  lessons lesson_moved_twice !! 34%N
    = Some (stored_lesson 20 "L4" 2 (Some pdf) 1000) /\
  lesson_moved_twice <> lesson_moved_once /\
  exists db',
    SetupCompleto.save_course_with_children (as_user 1) lesson_moved scenario_db
      = Ok db' /\
    l_module_id <$> lessons db' !! 34%N = Some 20%N.
Proof.
  split_and!.
  - unfold Migration12.tree_lesson_ids. simpl. set_solver.
  - split; apply (bool_decide_unpack _); by_computation.
  - apply lesson_moved_accepted.
  - by_computation.
  - simpl. set_solver.
  - by_computation.
  - by_computation.
  - simpl. intros Hin. apply list_elem_of_singleton in Hin. discriminate.
  - by_computation.
  - by_computation.
  - intros Heq. apply (f_equal (fun d => lessons d !! 34%N)) in Heq.
    vm_compute in Heq. discriminate.
  - eexists. split; by_computation.
Qed.

(** The payload of the failing input has distinct ids; what it lacks is
    [lessons_stay_put]. *)
Lemma lesson_moved_distinct : Migration12.distinct_ids lesson_moved.
Proof. split; apply (bool_decide_unpack _); by_computation. Qed.

Lemma lesson_moved_does_not_stay_put :
  ~ Migration12.lessons_stay_put lesson_moved scenario_db.
Proof.
  intros Hput.
  specialize (Hput (module_entry 20 "M1" 0
                      [ lesson_entry 31 "L1" 0 (Some "video");
                        lesson_entry 32 "L2" 1 None;
                        lesson_entry 34 "L4" 2 (Some "pdf") ])
                   (lesson_entry 34 "L4" 2 (Some "pdf")) 20%N 34%N
                   (stored_lesson 21 "L4" 0 (Some pdf) 0)).
  simpl in Hput.
  assert (21%N = 20%N) as Habs; [| discriminate].
  apply Hput; [set_solver | set_solver | reflexivity | reflexivity | by_computation].
Qed.

(** C2, on [untitled_module]: the course upsert has renamed the course in
    the working state when the module upsert raises; the call fails with
    that error and the persisted state is the one before the call, not
    the renamed one. *)
Lemma save_all_or_nothing_witness :
  rtc (Migration12.txn_step (as_user 1))
      (Migration12.txn_begin untitled_module scenario_db)
      (Migration12.Aborted scenario_db not_null_violation) /\
  Migration12.run (as_user 1)
    [ Migration12.CheckOwner (Some 1%N); Migration12.UpsertCourse untitled_module ]
    scenario_db = Ok renamed_uncommitted /\
  Migration12.rpc (as_user 1) untitled_module scenario_db
    = (scenario_db, Some not_null_violation).
Proof.
  destruct (save_all_or_nothing (as_user 1) untitled_module scenario_db)
    as (Hends & _ & _ & _ & _ & _ & Hraise & _).
  split_and!.
  - replace (Migration12.Aborted scenario_db not_null_violation)
      with (match Migration12.save_course_with_children (as_user 1)
                    untitled_module scenario_db with
            | Ok db' => Migration12.Committed db'
            | Err e => Migration12.Aborted scenario_db e
            end) by by_computation.
    exact Hends.
  - by_computation.
  - apply (Hraise
             [ Migration12.CheckOwner (Some 1%N);
               Migration12.UpsertCourse untitled_module ]
             (Migration12.UpsertModule (Some 10%N)
                {| mj_id := Some 20%N; mj_title := None; mj_order := Some 0%Z;
                   mj_lessons := [] |})
             [ Migration12.DeleteLessonsNotIn (Some 20%N) [];
               Migration12.DeleteModulesNotIn (Some 10%N) [Some 20%N] ]
             renamed_uncommitted not_null_violation).
    + reflexivity.
    + by_computation.
    + by_computation.
Defined.

Example untitled_module_working_state :
  exists todo,
    rtc (Migration12.txn_step (as_user 1))
        (Migration12.txn_begin untitled_module scenario_db)
        (Migration12.Running scenario_db renamed_uncommitted todo) /\
    renamed_uncommitted <> scenario_db.
Proof.
  eexists. split.
  - unfold Migration12.txn_begin, Migration12.save_stmts.
    eapply rtc_l; [apply Migration12.step_stmt; by_computation |].
    eapply rtc_l; [apply Migration12.step_stmt; by_computation |].
    apply rtc_refl.
  - intros Heq. apply (f_equal (fun d => c_title <$> courses d !! 10%N)) in Heq.
    vm_compute in Heq. discriminate.
Qed.

End Scenarios.

(** ** The setup script's [save_course_with_children] *)

Section SetupScript.
Import Db Scenario.

Lemma for_each_ext {A} (f g : A -> DB -> result DB) xs db :
  (forall x d, f x d = g x d) -> for_each f xs db = for_each g xs db.
Proof.
  intros Hfg. revert db. induction xs as [| x xs IH]; intros db; [done |].
  simpl. rewrite Hfg. destruct (g x db); simpl; [apply IH | done].
Qed.

(** The outcome of the setup script's function does not depend on who
    calls it: [auth.uid()] is not read. *)
Lemma setup_save_ignores_caller ctx ctx' course_data db :
  now ctx' = now ctx ->
  SetupCompleto.save_course_with_children ctx' course_data db
  = SetupCompleto.save_course_with_children ctx course_data db.
Proof.
  intros Hnow. unfold SetupCompleto.save_course_with_children.
  assert (Hc : SetupCompleto.upsert_course ctx' course_data db
               = SetupCompleto.upsert_course ctx course_data db).
  { unfold SetupCompleto.upsert_course. by rewrite Hnow. }
  rewrite Hc. destruct (SetupCompleto.upsert_course ctx course_data db); [| done].
  simpl. apply for_each_ext. intros m d.
  assert (Hm : SetupCompleto.insert_module ctx' (cj_id course_data) m d
               = SetupCompleto.insert_module ctx (cj_id course_data) m d).
  { unfold SetupCompleto.insert_module. by rewrite Hnow. }
  rewrite Hm. destruct (SetupCompleto.insert_module ctx _ m d); [| done].
  simpl. apply for_each_ext. intros l d'.
  unfold SetupCompleto.insert_lesson. by rewrite Hnow.
Qed.

(** C1, at the failing input.  Teacher 2 calls with a payload for course
    10 of teacher 1.  The function of the setup script commits: the title
    of the course is overwritten and its modules, lessons and progress
    rows are deleted.  The function of migration 12, at the same input,
    raises and leaves the state as it was. *)
Theorem setup_script_save_checks_no_owner :
  auth_uid (as_user 2) <> cj_teacher_id emptied_course /\
  SetupCompleto.rpc (as_user 2) emptied_course scenario_db = (taken_over, None) /\
  taken_over <> scenario_db /\
  Migration12.rpc (as_user 2) emptied_course scenario_db
    = (scenario_db, Some insufficient_privilege).
Proof.
  split_and!.
  - discriminate.
  - vm_compute. reflexivity.
  - intros Heq. apply (f_equal (fun d => c_title <$> courses d !! 10%N)) in Heq.
    vm_compute in Heq. discriminate.
  - vm_compute. reflexivity.
Qed.

(** Migration 12 itself lets a call without a signed-in user through:
    the comparison with a NULL [auth.uid()] is NULL, not true. *)
Example migration12_anonymous_call :
  Migration12.rpc anonymous emptied_course scenario_db
  <> (scenario_db, Some insufficient_privilege).
Proof. vm_compute. discriminate. Qed.

End SetupScript.

(** ** Lesson completion *)

Section Completion.
Import Db Player.

Lemma key_overwrite student lesson c t p :
  key (overwrite student lesson c t p) = key p.
Proof. unfold overwrite. case_decide as Hk; [by rewrite Hk | done]. Qed.

Lemma keys_overwrite student lesson c t (ps : list progress_row) :
  key <$> (overwrite student lesson c t <$> ps) = key <$> ps.
Proof.
  rewrite <- list_fmap_compose. apply list_fmap_ext.
  intros i p _. apply key_overwrite.
Qed.

Lemma overwrite_other student lesson c t (ps : list progress_row) :
  ~ Exists (fun p => key p = (student, lesson)) ps ->
  overwrite student lesson c t <$> ps = ps.
Proof.
  intros Hno. rewrite <- (list_fmap_id ps) at 2. apply list_fmap_ext.
  intros i p Hp. unfold overwrite. case_decide as Hk; [| done].
  destruct Hno. apply Exists_exists. exists p. split; [| done].
  by eapply list_elem_of_lookup_2.
Qed.

Lemma overwrite_twice student lesson c t t' p :
  overwrite student lesson c t' (overwrite student lesson c t p)
  = overwrite student lesson c t' p.
Proof. unfold overwrite. repeat case_decide; simpl in *; done. Qed.

Lemma timeless_overwrite_twice student lesson c t t' p :
  timeless (overwrite student lesson c t' (overwrite student lesson c t p))
  = timeless (overwrite student lesson c t p).
Proof. unfold overwrite, timeless. repeat case_decide; simpl in *; done. Qed.

Lemma filter_none {A} (P : A -> Prop) `{!forall x, Decision (P x)} (l : list A) :
  (forall x, x ∈ l -> ~ P x) -> filter P l = [].
Proof.
  induction l as [| x l IH]; intros HP; [done |].
  rewrite filter_cons_False by (apply HP; set_solver).
  apply IH. intros y Hy. apply HP. set_solver.
Qed.

(** Under the constraint a key has one row. *)
Lemma unique_key_filter (ps : list progress_row) k p :
  NoDup (key <$> ps) -> p ∈ ps -> key p = k ->
  filter (fun q => key q = k) ps = [p].
Proof.
  induction ps as [| q ps IH]; intros Hnd Hp Hk; [by apply elem_of_nil in Hp |].
  rewrite fmap_cons in Hnd. apply NoDup_cons in Hnd as [Hq Hnd].
  apply elem_of_cons in Hp as [-> | Hp].
  - rewrite filter_cons_True by done. f_equal.
    apply filter_none. intros r Hr Hkr.
    apply Hq. rewrite Hk, <- Hkr. by apply list_elem_of_fmap_2.
  - rewrite filter_cons_False; [by apply IH |].
    intros Hkq. apply Hq. rewrite Hkq, <- Hk. by apply list_elem_of_fmap_2.
Qed.

Lemma set_progress_same db : set_progress (progress db) db = db.
Proof. by destruct db. Qed.

Lemma upsert_progress_Ok ctx fresh student lesson c t db db' :
  upsert_progress ctx fresh student lesson c t db = Ok db' ->
  auth_uid ctx = Some student /\
  ((Exists (fun p => key p = (student, lesson)) (progress db) /\
    db' = set_progress (overwrite student lesson c t <$> progress db) db) \/
   (~ Exists (fun p => key p = (student, lesson)) (progress db) /\
    db' = set_progress
            (progress db ++
               [ {| p_id := fresh; p_student_id := student;
                    p_lesson_id := lesson; p_is_completed := c;
                    p_updated_at := t |} ]) db)).
Proof.
  unfold upsert_progress. intros H.
  case_decide as Hauth; [| done]. split; [done |].
  case_decide as Hex; [left; split; [done | congruence] |].
  case_decide; [done |]. case_decide; [| done].
  right. split; [done | congruence].
Qed.

Lemma upsert_progress_conflict ctx fresh student lesson c t db :
  auth_uid ctx = Some student ->
  Exists (fun p => key p = (student, lesson)) (progress db) ->
  upsert_progress ctx fresh student lesson c t db
  = Ok (set_progress (overwrite student lesson c t <$> progress db) db).
Proof.
  intros Hauth Hex. unfold upsert_progress.
  by rewrite decide_True, decide_True.
Qed.

(** After a successful upsert the key has a row, and the rows of the key
    carry the payload. *)
Lemma upsert_progress_settled ctx fresh student lesson c t db db' :
  upsert_progress ctx fresh student lesson c t db = Ok db' ->
  Exists (fun p => key p = (student, lesson)) (progress db') /\
  overwrite student lesson c t <$> progress db' = progress db'.
Proof.
  intros H. apply upsert_progress_Ok in H as [_ [[Hex ->] | [Hno ->]]]; simpl.
  - split.
    + apply Exists_exists in Hex as (p & Hp & Hk). apply Exists_exists.
      exists (overwrite student lesson c t p).
      split; [by apply list_elem_of_fmap_2 | by rewrite key_overwrite].
    + rewrite <- list_fmap_compose. apply list_fmap_ext.
      intros i p _. apply overwrite_twice.
  - split.
    + apply Exists_app. right. by apply Exists_cons_hd.
    + rewrite fmap_app, overwrite_other by done. f_equal. simpl.
      unfold overwrite, key. simpl. by rewrite decide_True.
Qed.

Lemma upsert_progress_unique ctx fresh student lesson c t db db' :
  progress_unique db ->
  upsert_progress ctx fresh student lesson c t db = Ok db' ->
  progress_unique db'.
Proof.
  unfold progress_unique. intros Hnd H.
  apply upsert_progress_Ok in H as [_ [[Hex ->] | [Hno ->]]]; simpl.
  - by rewrite keys_overwrite.
  - rewrite fmap_app. apply NoDup_app. split_and!; [done | | apply NoDup_singleton].
    intros k Hk Hin. apply list_elem_of_singleton in Hin as ->.
    apply Hno. apply list_elem_of_fmap in Hk as (p & Hkp & Hp).
    apply Exists_exists. exists p. split; [done | by rewrite <- Hkp].
Qed.

(** The first completion goes through for a signed-in student with a
    profile and a stored lesson, when the id drawn for a new row is not
    taken. *)
Lemma upsert_progress_goes_through ctx fresh student lesson c t db :
  auth_uid ctx = Some student ->
  student ∈ profiles db -> is_Some (lessons db !! lesson) ->
  (forall p, p ∈ progress db -> p_id p <> fresh) ->
  exists db', upsert_progress ctx fresh student lesson c t db = Ok db'.
Proof.
  intros Hauth Hstudent Hlesson Hfresh. unfold upsert_progress.
  rewrite decide_True by done.
  case_decide as Hex; [eauto |].
  rewrite decide_False.
  2:{ intros Hid. apply Exists_exists in Hid as (p & Hp & Hid).
      by apply (Hfresh p). }
  rewrite decide_True by done. eauto.
Qed.

Lemma fmap_fixed {A} (f : A -> A) (l : list A) x :
  f <$> l = l -> x ∈ l -> f x = x.
Proof.
  intros Hfix Hx. apply list_elem_of_lookup_1 in Hx as [i Hi].
  apply (f_equal (fun l' => l' !! i)) in Hfix.
  rewrite list_lookup_fmap, Hi in Hfix. simpl in Hfix. congruence.
Qed.

(** C9, as amended.  For a signed-in student with a profile and a stored
    lesson, on a state that satisfies [UNIQUE(student_id, lesson_id)],
    the completion goes through, and goes through a second time.  After
    the first there is exactly one row of the key, with
    [is_completed = true]; after the second there is exactly one row of
    the key, the same row with the [updated_at] of the second
    completion, and every other row and table is as the first completion
    left it.  The two states are equal when both completions carry the
    same time. *)
Theorem completion_upsert_is_idempotent
    ctx fresh1 fresh2 t1 t2 student lesson db :
  progress_unique db ->
  auth_uid ctx = Some student ->
  student ∈ profiles db -> is_Some (lessons db !! lesson) ->
  (forall p, p ∈ progress db -> p_id p <> fresh1) ->
  exists db1 db2 row1,
    upsert_progress ctx fresh1 student lesson true t1 db = Ok db1 /\
    upsert_progress ctx fresh2 student lesson true t2 db1 = Ok db2 /\
    progress_unique db1 /\ progress_unique db2 /\
    filter (fun p => key p = (student, lesson)) (progress db1) = [row1] /\
    p_is_completed row1 = true /\ p_updated_at row1 = t1 /\
    filter (fun p => key p = (student, lesson)) (progress db2)
      = [with_updated_at t2 row1] /\
    progress db2 = touch student lesson t2 (progress db1) /\
    (profiles db2, courses db2, modules db2, lessons db2)
      = (profiles db1, courses db1, modules db1, lessons db1) /\
    (t2 = t1 -> db2 = db1).
Proof.
  intros Hnd Hauth Hstudent Hlesson Hfresh.
  destruct (upsert_progress_goes_through ctx fresh1 student lesson true t1 db
              Hauth Hstudent Hlesson Hfresh) as [db1 H1].
  pose proof (upsert_progress_unique _ _ _ _ _ _ _ _ Hnd H1) as Hnd1.
  destruct (upsert_progress_settled _ _ _ _ _ _ _ _ H1) as [Hex1 Hfix1].
  pose proof (upsert_progress_conflict ctx fresh2 student lesson true t2 db1
                Hauth Hex1) as H2.
  set (db2 := set_progress
                (overwrite student lesson true t2 <$> progress db1) db1) in *.
  pose proof (upsert_progress_unique _ _ _ _ _ _ _ _ Hnd1 H2) as Hnd2.
  apply Exists_exists in Hex1 as (p & Hp & Hk).
  assert (Hp1 : p = overwrite student lesson true t1 p).
  { symmetry. by apply (fmap_fixed _ (progress db1)). }
  assert (Htouch : forall q, q ∈ progress db1 ->
            overwrite student lesson true t2 q
            = (if decide (key q = (student, lesson)) then with_updated_at t2 q
               else q)).
  { intros q Hq.
    pose proof (fmap_fixed _ (progress db1) q Hfix1 Hq) as Hq1.
    unfold overwrite in *. case_decide as Hkq; [| done].
    rewrite <- Hq1. unfold with_updated_at. simpl.
    injection Hkq as <- <-. done. }
  exists db1, db2, p.
  split_and!; try done.
  - by apply unique_key_filter.
  - rewrite Hp1. unfold overwrite. by rewrite decide_True.
  - rewrite Hp1. unfold overwrite. by rewrite decide_True.
  - apply unique_key_filter; [exact Hnd2 | |].
    + simpl. rewrite <- (decide_True (with_updated_at t2 p) p Hk).
      rewrite <- (Htouch p Hp). by apply list_elem_of_fmap_2.
    + unfold key, with_updated_at. simpl. exact Hk.
  - simpl. unfold touch. apply list_fmap_ext. intros i q Hq. apply Htouch.
    by eapply list_elem_of_lookup_2.
  - intros ->. unfold db2. rewrite Hfix1. apply set_progress_same.
Qed.

(** Through the handler the second completion does not reach the
    database at all: the lesson is already in [completedLessonIds]. *)
Lemma handleLessonComplete_twice ctx fresh1 fresh2 c1 c2 student lesson st db
    st1 db1 fx1 :
  handleLessonComplete ctx fresh1 c1 student lesson st db = (st1, db1, fx1) ->
  lesson ∈ completedLessonIds st1 ->
  handleLessonComplete ctx fresh2 c2 student lesson st1 db1 = (st1, db1, []).
Proof.
  intros _ Hin. unfold handleLessonComplete. by rewrite bool_decide_eq_true_2.
Qed.

Lemma handleLessonComplete_records ctx fresh c student lesson st db db' :
  lesson ∉ completedLessonIds st ->
  upsert_progress ctx fresh student lesson true c db = Ok db' ->
  exists st', handleLessonComplete ctx fresh c student lesson st db
              = (st', db', [toast_success "¡Lección completada!"]) /\
              lesson ∈ completedLessonIds st'.
Proof.
  intros Hout Hup. unfold handleLessonComplete.
  rewrite bool_decide_eq_false_2 by done. rewrite Hup.
  eexists. split; [done |]. simpl. set_solver.
Qed.

(** C9, on the example: the student 3 completes the lesson 32 at 1500 and
    again at 2000. *)
Lemma completion_upsert_is_idempotent_witness :
  exists db1 db2 row1,
    upsert_progress (Scenario.as_user 3) 92 3 32 true 1500 Scenario.scenario_db
      = Ok db1 /\
    upsert_progress (Scenario.as_user 3) 93 3 32 true 2000 db1 = Ok db2 /\
    filter (fun p => key p = (3%N, 32%N)) (progress db2)
      = [with_updated_at 2000 row1] /\
    p_is_completed row1 = true /\
    progress db2 = touch 3 32 2000 (progress db1).
Proof.
  destruct (completion_upsert_is_idempotent (Scenario.as_user 3) 92 93
              1500 2000 3 32 Scenario.scenario_db)
    as (db1 & db2 & row1 & H1 & H2 & _ & _ & _ & Hdone & _ & Hrow & Hrows & _).
  - apply (bool_decide_unpack _). vm_compute. reflexivity.
  - reflexivity.
  - apply (bool_decide_unpack _). vm_compute. reflexivity.
  - vm_compute. eauto.
  - intros p Hp. vm_compute in Hp.
    repeat (apply elem_of_cons in Hp as [-> | Hp]; [discriminate |]).
    by apply elem_of_nil in Hp.
  - exists db1, db2, row1. by split_and!.
Defined.

(** C9 as stated fails in one column: the second completion carries its
    own [new Date()], so the state after it is not the state after the
    first. *)
Lemma second_completion_moves_updated_at :
  upsert_progress (Scenario.as_user 3) 92 3 32 true 1500 Scenario.scenario_db
    = Ok Scenario.lesson_32_completed /\
  exists db2,
    upsert_progress (Scenario.as_user 3) 93 3 32 true 2000
      Scenario.lesson_32_completed = Ok db2 /\
    db2 <> Scenario.lesson_32_completed /\
    p_updated_at <$> progress db2 !! 2%nat = Some 2000%Z /\
    p_updated_at <$> progress Scenario.lesson_32_completed !! 2%nat
      = Some 1500%Z.
Proof.
  split; [vm_compute; reflexivity |].
  eexists. split; [vm_compute; reflexivity |].
  split_and!; [| vm_compute; reflexivity | vm_compute; reflexivity].
  intros Heq.
  apply (f_equal (fun d => p_updated_at <$> progress d !! 2%nat)) in Heq.
  vm_compute in Heq. discriminate.
Qed.

Example second_completion :
  upsert_progress (Scenario.as_user 3) 93 3 32 true 2000
    Scenario.lesson_32_completed
  = Ok (set_progress
          [ Scenario.completed 90 3 31; Scenario.completed 91 3 34;
            {| p_id := 92; p_student_id := 3; p_lesson_id := 32;
               p_is_completed := true; p_updated_at := 2000 |} ]
          Scenario.lesson_32_completed).
Proof. vm_compute. reflexivity. Qed.

End Completion.

(** ** Drag and drop *)

Section DragAndDrop.
Import Types Editor.

Lemma splice_in_Permutation {A} (start : nat) (item : A) (items : list A) :
  splice_in start item items ≡ₚ item :: items.
Proof.
  unfold splice_in. rewrite <- Permutation_middle.
  by rewrite take_drop.
Qed.

Lemma length_splice_in {A} (start : nat) (item : A) (items : list A) :
  length (splice_in start item items) = S (length items).
Proof.
  unfold splice_in. rewrite length_app. simpl.
  rewrite length_take, length_drop. lia.
Qed.

Lemma delete_past_the_end {A} (i : nat) (l : list A) :
  l !! i = None -> delete i l = l.
Proof.
  revert i. induction l as [| x l IH]; intros [| i] Hnone; simpl in *;
    [done | done | done |].
  f_equal. by apply IH.
Qed.

Lemma fmap_splice_in {A B} (f : A -> B) start item items :
  f <$> splice_in start item items = splice_in start (f item) (f <$> items).
Proof.
  unfold splice_in. by rewrite fmap_app, fmap_cons, fmap_take, fmap_drop.
Qed.

Section Reorder.
Context {A : Type} (with_order : A -> Z -> A) (order : A -> Z).
Hypothesis order_with_order : forall a z, order (with_order a z) = z.
Hypothesis with_order_twice :
  forall a z z', with_order (with_order a z) z' = with_order a z'.

Lemma reorder_lookup source destination (array : list (cell A)) i c :
  reorder with_order source destination array !! i = Some c ->
  cell_order order c = Z.of_nat i.
Proof.
  unfold reorder, splice_out. rewrite list_lookup_imap.
  destruct (splice_in _ _ _ !! i) as [x |]; [| done].
  simpl. intros [= <-]. destruct x as [[a | o] |]; simpl; [| done | done].
  apply order_with_order.
Qed.

Lemma reorder_in_range source destination (array : list (cell A)) moved :
  array !! source = Some moved ->
  reorder with_order source destination array
  = imap (fun index x => spread_order with_order (Some x) index)
         (splice_in destination moved (delete source array)).
Proof.
  intros Hmoved. unfold reorder, splice_out.
  rewrite list_lookup_fmap, Hmoved. simpl.
  rewrite <- list_fmap_delete, <- (fmap_splice_in Some), imap_fmap. done.
Qed.

Lemma unnumbered_imap (items : list (cell A)) :
  unnumbered with_order
    (imap (fun index x => spread_order with_order (Some x) index) items)
  = unnumbered with_order items.
Proof.
  unfold unnumbered. rewrite fmap_imap. apply list_eq. intros i.
  rewrite list_lookup_imap, list_lookup_fmap.
  destruct (items !! i) as [[a | o] |]; simpl; [| done | done].
  by rewrite with_order_twice.
Qed.

Lemma reorder_renumbered source destination (array : list (cell A)) :
  renumbered with_order order source destination array
    (reorder with_order source destination array).
Proof.
  split.
  - intros i c. apply reorder_lookup.
  - intros moved Hmoved. rewrite (reorder_in_range _ _ _ _ Hmoved).
    split_and!.
    + rewrite length_imap, length_splice_in, length_delete by eauto.
      apply lookup_lt_Some in Hmoved. lia.
    + apply unnumbered_imap.
    + rewrite unnumbered_imap. unfold unnumbered. apply fmap_Permutation.
      rewrite splice_in_Permutation. symmetry. by apply delete_Permutation.
Qed.

Lemma elem_of_splice_in {B} (x item : B) start (items : list B) :
  x ∈ splice_in start item items -> x = item \/ x ∈ items.
Proof.
  unfold splice_in. rewrite elem_of_app, elem_of_cons.
  intros [Hx | [-> | Hx]]; [right | by left | right].
  - by eapply subseteq_take.
  - by eapply subseteq_drop.
Qed.

(** An element of the new array is an element of the old one with a new
    [order]: nothing else of it changes. *)
Lemma reorder_elements source destination (array : list (cell A)) i a' :
  reorder with_order source destination array !! i = Some (Obj a') ->
  exists a, Obj a ∈ array /\ a' = with_order a (Z.of_nat i).
Proof.
  unfold reorder, splice_out. rewrite list_lookup_imap.
  destruct (splice_in _ _ _ !! i) as [x |] eqn:Hx; [| done].
  simpl. intros [= Hspread].
  destruct x as [[a | o] |]; simpl in Hspread; [| done | done].
  injection Hspread as <-. exists a. split; [| done].
  apply list_elem_of_lookup_2, elem_of_splice_in in Hx as [Hx | Hx].
  - destruct ((Some <$> array) !! source) as [y |] eqn:Hy; [| done].
    simpl in Hx. subst y. rewrite list_lookup_fmap in Hy.
    destruct (array !! source) as [c |] eqn:Hc; [| done].
    injection Hy as ->. by eapply list_elem_of_lookup_2.
  - apply list_elem_of_delete_inv, list_elem_of_fmap in Hx as (c & [= ->] & Hc).
    done.
Qed.

(** Past the end nothing is taken out, and an order-only object goes in. *)
Lemma reorder_out_of_range source destination (array : list (cell A)) :
  array !! source = None ->
  length (reorder with_order source destination array) = S (length array).
Proof.
  intros Hnone. unfold reorder, splice_out.
  rewrite list_lookup_fmap, Hnone. simpl.
  rewrite length_imap, length_splice_in, delete_past_the_end, length_fmap;
    [done |].
  by rewrite list_lookup_fmap, Hnone.
Qed.

End Reorder.

(** *** The type of a lessons droppable *)

Lemma split_on_without sep s : occurs sep s = false -> split_on sep s = [s].
Proof.
  induction s as [| c s IH]; [done |]. simpl. intros Hocc.
  apply orb_false_iff in Hocc as [Hc Hs]. rewrite Hc, (IH Hs). done.
Qed.

Lemma lessons_type_names_module moduleId :
  occurs "_" moduleId = false ->
  String.eqb (lessons_type moduleId) "MODULES" = false /\
  String.prefix "LESSONS_" (lessons_type moduleId) = true /\
  split_on "_" (lessons_type moduleId) !! 1%nat = Some moduleId.
Proof.
  intros Hocc. unfold lessons_type. split_and!; [done | | ].
  - simpl. by destruct moduleId.
  - simpl. change (String.append "" moduleId) with moduleId.
    by rewrite (split_on_without _ _ Hocc).
Qed.

Lemma lesson_order_laws :
  (forall l z, lesson_order (lesson_with_order l z) = z) /\
  (forall l z z', lesson_with_order (lesson_with_order l z) z'
                  = lesson_with_order l z').
Proof. done. Qed.

Lemma module_order_laws :
  (forall m z, emodule_order (module_with_order m z) = z) /\
  (forall m z z', module_with_order (module_with_order m z) z'
                  = module_with_order m z').
Proof. done. Qed.

(** The module that [find] meets first is the only one with its id. *)
Lemma find_the_module modules k m :
  the_module_at modules k m ->
  List.find (fun c => bool_decide (module_cell_id c = Some (emodule_id m))) modules
  = Some (Obj m).
Proof.
  intros [Hk Honly].
  destruct (List.find _ modules) as [c |] eqn:Hfind.
  - apply find_some in Hfind as [Hin Hid].
    apply bool_decide_eq_true in Hid.
    destruct c as [m' | o]; [| done]. simpl in Hid.
    apply list_elem_of_In, list_elem_of_lookup_1 in Hin as [j Hj].
    assert (j = k) as -> by (eapply Honly; [done | congruence]).
    congruence.
  - apply list_elem_of_lookup_2, list_elem_of_In in Hk.
    eapply find_none in Hfind; [| exact Hk].
    simpl in Hfind. by rewrite bool_decide_eq_true_2 in Hfind.
Qed.

(** C6.  With a destination, [onDragEnd] renumbers the list the drag is
    in.  When a module is dragged (type [MODULES]) every module gets its
    index as [order], the array holds the modules it held with the dragged
    one moved, and each module is as it was, its [order] apart: no lesson
    list changes.  When a lesson of the module [m] is dragged (the type of
    the droppable of [m]; ids are UUIDs, without an underscore, and [m] is
    the one module with its id) the lessons of [m] are renumbered in the
    same way; the array of modules differs at the place of [m] only, and
    there in the lessons only.  The other fields of the course stay. *)
Theorem onDragEnd_renumbers_siblings result course dst :
  destination result = Some dst ->
  (type result = "MODULES" ->
     renumbered module_with_order emodule_order
       (index (source result)) (index dst)
       (ecourse_modules course) (ecourse_modules (onDragEnd result course)) /\
     (forall i m', ecourse_modules (onDragEnd result course) !! i = Some (Obj m') ->
        exists m, Obj m ∈ ecourse_modules course /\
                  m' = module_with_order m (Z.of_nat i)) /\
     course_with_modules (onDragEnd result course) []
       = course_with_modules course []) /\
  (forall k m,
     the_module_at (ecourse_modules course) k m ->
     occurs "_" (emodule_id m) = false ->
     type result = lessons_type (emodule_id m) ->
     exists lessons',
       renumbered lesson_with_order lesson_order
         (index (source result)) (index dst) (emodule_lessons m) lessons' /\
       (forall i l', lessons' !! i = Some (Obj l') ->
          exists l, Obj l ∈ emodule_lessons m /\
                    l' = lesson_with_order l (Z.of_nat i)) /\
       ecourse_modules (onDragEnd result course)
         = <[k := Obj (module_with_lessons m lessons')]> (ecourse_modules course) /\
       course_with_modules (onDragEnd result course) []
         = course_with_modules course []).
Proof.
  intros Hdst. split.
  - intros Htype. unfold onDragEnd. rewrite Hdst, Htype. simpl.
    split_and!; [| | done].
    + apply reorder_renumbered; apply module_order_laws.
    + intros i m'. apply reorder_elements.
  - intros k m Hm Hocc Htype.
    destruct (lessons_type_names_module _ Hocc) as (Hnot & Hprefix & Hsplit).
    exists (reorder lesson_with_order (index (source result)) (index dst)
              (emodule_lessons m)).
    split_and!.
    + apply reorder_renumbered; apply lesson_order_laws.
    + intros i l'. apply reorder_elements.
    + unfold onDragEnd. rewrite Hdst, Htype, Hnot, Hprefix, Hsplit.
      rewrite (find_the_module _ _ _ Hm). simpl.
      destruct Hm as [Hk Honly].
      apply list_eq. intros i. rewrite list_lookup_fmap.
      destruct (decide (i = k)) as [-> | Hne].
      * rewrite Hk, list_lookup_insert_eq by (by eapply lookup_lt_Some).
        simpl. by rewrite bool_decide_eq_true_2.
      * rewrite list_lookup_insert_ne by done.
        destruct (ecourse_modules course !! i) as [[m' | o] |] eqn:Hi;
          simpl; [| done | done].
        rewrite bool_decide_eq_false_2; [done |].
        intros [= Hid]. apply Hne. by eapply Honly.
    + unfold onDragEnd. rewrite Hdst, Htype, Hnot, Hprefix, Hsplit.
      by rewrite (find_the_module _ _ _ Hm).
Qed.

(** Without a destination nothing changes. *)
Lemma onDragEnd_without_destination result course :
  destination result = None -> onDragEnd result course = course.
Proof. intros Hdst. unfold onDragEnd. by rewrite Hdst. Qed.

(** C6, on [sample_course]: the second module dropped in front of the
    first, and the first lesson of the first module dropped at the end. *)
Lemma onDragEnd_renumbers_siblings_witness :
  renumbered module_with_order emodule_order 1 0
    (ecourse_modules (sample_course "t-1"))
    (ecourse_modules (onDragEnd module_drag (sample_course "t-1"))) /\
  exists lessons',
    renumbered lesson_with_order lesson_order 0 2
      (emodule_lessons first_module) lessons' /\
    ecourse_modules (onDragEnd lesson_drag (sample_course "t-1"))
      = [ Obj (module_with_lessons first_module lessons'); Obj second_module ].
Proof.
  split.
  - destruct (onDragEnd_renumbers_siblings module_drag (sample_course "t-1")
                (at_index 0) eq_refl) as [Hmodules _].
    destruct (Hmodules eq_refl) as (Hre & _). exact Hre.
  - destruct (onDragEnd_renumbers_siblings lesson_drag (sample_course "t-1")
                (at_index 2) eq_refl) as [_ Hlessons].
    destruct (Hlessons 0%nat first_module) as (lessons' & Hre & _ & Hmods & _).
    + split; [reflexivity |].
      intros [| [| j]] m' Hj Hid; [reflexivity | | done].
      simpl in Hj. injection Hj as <-. discriminate Hid.
    + reflexivity.
    + reflexivity.
    + exists lessons'. split; [exact Hre | exact Hmods].
Defined.

Example module_drag_result :
  ecourse_modules (onDragEnd module_drag (sample_course "t-1"))
  = [ Obj (module_with_order second_module 0);
      Obj (module_with_order first_module 1) ].
Proof. reflexivity. Qed.

Example lesson_drag_result :
  ecourse_modules (onDragEnd lesson_drag (sample_course "t-1"))
  = [ Obj (module_with_lessons first_module
             (Obj <$> [ sample_lesson "9b3d-02" "L2" 0;
                        sample_lesson "9b3d-03" "L3" 1;
                        sample_lesson "9b3d-01" "L1" 2 ]));
      Obj second_module ].
Proof. reflexivity. Qed.

End DragAndDrop.

(** ** Lesson files: what [handleFileChange] refuses *)

Section Upload.
Import Types Editor.

Lemma eqb_neq_false (a b : string) : a <> b -> String.eqb a b = false.
Proof. intros Hne. by apply String.eqb_neq. Qed.

(** The first guard: without a file, or without a teacher id on the
    course, the handler returns and does nothing at all. *)
Lemma handleFileChange_first_guard env files moduleId lessonId st :
  files = None \/ files = Some [] \/ ecourse_teacher_id (course st) = "" ->
  handleFileChange env files moduleId lessonId st = (st, []).
Proof.
  intros [-> | [-> | Hteacher]]; [done | done |].
  unfold handleFileChange. destruct files as [[| file rest] |]; [done | | done].
  by rewrite Hteacher.
Qed.

(** C7 as stated fails on a course without a teacher id: the PNG is
    refused, nothing is transferred and nothing changes, but no error is
    reported, because the handler returns at its first guard, before it
    looks at the type of the file. *)
Lemma handleFileChange_silent_without_teacher_id :
  file_type png <> "video/mp4" /\
  file_type png <> "application/pdf" /\
  handleFileChange sample_env (Some [png]) "6f1c2a7e-0001" "9b3d-01"
    (sample_editor "") = (sample_editor "", []) /\
  ~ exists message,
      toast_error message
      ∈ snd (handleFileChange sample_env (Some [png]) "6f1c2a7e-0001" "9b3d-01"
               (sample_editor "")).
Proof.
  split_and!; [discriminate | discriminate | reflexivity |].
  intros [message Hin]. simpl in Hin. by apply elem_of_nil in Hin.
Qed.

(** C7, as amended.  A file that is neither an MP4 video nor a PDF is
    refused before any transfer: the state of the editor (the course with
    the content of every lesson, the upload progress and the upload
    status) is the one before, and no upload is asked of the storage.
    When the course has a teacher id, the one effect is the error
    message; without one, there is no effect. *)
Theorem handleFileChange_rejects_unsupported env file rest moduleId lessonId st :
  file_type file <> "video/mp4" ->
  file_type file <> "application/pdf" ->
  fst (handleFileChange env (Some (file :: rest)) moduleId lessonId st) = st /\
  ~ uploads (snd (handleFileChange env (Some (file :: rest)) moduleId lessonId st)) /\
  (ecourse_teacher_id (course st) <> "" ->
     snd (handleFileChange env (Some (file :: rest)) moduleId lessonId st)
     = [toast_error "Tipo de archivo no soportado. Sube un video MP4 o un PDF."]) /\
  (ecourse_teacher_id (course st) = "" ->
     snd (handleFileChange env (Some (file :: rest)) moduleId lessonId st) = []).
Proof.
  intros Hmp4 Hpdf. unfold handleFileChange.
  rewrite (eqb_neq_false _ _ Hmp4), (eqb_neq_false _ _ Hpdf). simpl.
  destruct (String.eqb (ecourse_teacher_id (course st)) "") eqn:Hteacher; simpl.
  - apply String.eqb_eq in Hteacher.
    split_and!; [done | | done | done].
    intros (bucket & path & f & Hin). by apply elem_of_nil in Hin.
  - apply String.eqb_neq in Hteacher.
    split_and!; [done | | done | done].
    intros (bucket & path & f & Hin).
    apply list_elem_of_singleton in Hin. discriminate Hin.
Qed.

Lemma handleFileChange_rejects_unsupported_witness :
  fst (handleFileChange sample_env (Some [png]) "6f1c2a7e-0001" "9b3d-01"
         (sample_editor "t-1")) = sample_editor "t-1" /\
  snd (handleFileChange sample_env (Some [png]) "6f1c2a7e-0001" "9b3d-01"
         (sample_editor "t-1"))
  = [toast_error "Tipo de archivo no soportado. Sube un video MP4 o un PDF."].
Proof.
  destruct (handleFileChange_rejects_unsupported sample_env png []
              "6f1c2a7e-0001" "9b3d-01" (sample_editor "t-1"))
    as (Hstate & _ & Herror & _); [discriminate | discriminate |].
  split; [exact Hstate | apply Herror; discriminate].
Defined.

(** A supported file is transferred: with a teacher id, an MP4 or a PDF
    makes the handler ask the storage for the upload. *)
Lemma handleFileChange_uploads_supported env file rest moduleId lessonId st :
  ecourse_teacher_id (course st) <> "" ->
  file_type file = "video/mp4" \/ file_type file = "application/pdf" ->
  uploads (snd (handleFileChange env (Some (file :: rest)) moduleId lessonId st)).
Proof.
  intros Hteacher Hsupported. unfold handleFileChange.
  rewrite (eqb_neq_false _ _ Hteacher).
  assert (negb (String.eqb (file_type file) "video/mp4")
          && negb (String.eqb (file_type file) "application/pdf") = false) as ->.
  { destruct Hsupported as [-> | ->]; reflexivity. }
  destruct (env_upload env) as [message | path]; simpl;
    do 3 eexists; apply elem_of_cons; left; reflexivity.
Qed.

End Upload.

(** ** Media kinds on the way to the database and back *)

Section MediaPaths.
Import Db.

(** Whatever MIME type a lesson file carries, the type [handleSaveCourse]
    puts in the payload is a value of the enum: the cast of migration 12
    never refuses it.  Every [video/...] type is stored as [video], and
    every other type, supported or not, as [pdf]. *)
Theorem payload_type_is_enum_value (mimeType : string) :
  exists t,
    cast_file_type (Some (Media.payload_type mimeType)) = Ok (Some t) /\
    (t = video <->
       mimeType <> "application/pdf" /\ String.prefix "video/" mimeType = true).
Proof.
  unfold Media.payload_type, Media.normalizeFileType.
  destruct (String.eqb mimeType "application/pdf") eqn:Hpdf.
  - apply String.eqb_eq in Hpdf. exists pdf. split; [reflexivity |].
    split; [discriminate | intros [Hne _]; done].
  - apply String.eqb_neq in Hpdf.
    destruct (String.prefix "video/" mimeType) eqn:Hvideo.
    + exists video. split; [reflexivity |]. split; [done | done].
    + exists pdf. split; [reflexivity |].
      split; [discriminate | intros [_ ?]; discriminate].
Qed.

(** The teacher's fetch passes the stored enum value through
    [normalizeFileType], which expects a MIME type.  Whatever the column
    holds ([pdf], [video] or NULL), the editor gets [application/pdf]; and
    when the course is saved from the editor, [pdf] is what goes back into
    the column.  The student's fetch, on the same column, gives the MIME
    type of the stored value. *)
Theorem teacher_fetch_turns_every_file_into_pdf (stored : option file_type) :
  Media.teacher_fetch_type (file_type_label <$> stored) = "application/pdf" /\
  cast_file_type
    (Some (Media.payload_type
             (Media.teacher_fetch_type (file_type_label <$> stored))))
  = Ok (Some pdf) /\
  (forall t, stored = Some t ->
     cast_file_type
       (Some (Media.payload_type
                (Media.student_fetch_type (file_type_label <$> stored))))
     = Ok stored).
Proof.
  split_and!.
  - by destruct stored as [[] |].
  - by destruct stored as [[] |].
  - intros t ->. by destruct t.
Qed.

End MediaPaths.

(** ** The progress figure of the dashboard *)

Section DashboardFigures.
Import Types Dashboard.

Lemma totalLessons_foldl (ms : list Module_) (acc : nat) :
  foldl (fun acc m => acc + length (module_lessons m))%nat acc ms
  = (acc + length (flat_map (fun m => map lesson_id (module_lessons m)) ms))%nat.
Proof.
  revert acc. induction ms as [| m ms IH]; intros acc; simpl; [lia |].
  rewrite IH, length_app, length_map. lia.
Qed.

Lemma totalLessons_length (course : Course) :
  totalLessons course = length (courseLessonIds course).
Proof. unfold totalLessons, courseLessonIds. by rewrite totalLessons_foldl. Qed.

Lemma includes_elem_of (l : list string) (x : string) :
  includes l x = true <-> x ∈ l.
Proof.
  unfold includes. rewrite existsb_exists. split.
  - intros (y & Hy & Heq). apply String.eqb_eq in Heq as ->.
    by apply list_elem_of_In.
  - intros Hx. exists x. split; [by apply list_elem_of_In | apply String.eqb_refl].
Qed.

(** With one progress row per lesson at most, the rows counted for a
    course are no more than its lessons. *)
Lemma completedLessons_le_total (progress : list Progress) (course : Course) :
  NoDup (progress_lesson_id <$> progress) ->
  (completedLessons progress course <= totalLessons course)%nat.
Proof.
  intros Hnd. rewrite totalLessons_length. unfold completedLessons.
  set (keep := fun p => includes (courseLessonIds course) (progress_lesson_id p)
                        && progress_is_completed p).
  rewrite <- (length_fmap progress_lesson_id (List.filter keep progress)).
  apply submseteq_length, NoDup_submseteq.
  - clear -Hnd. induction progress as [| p ps IH]; simpl; [constructor |].
    apply NoDup_cons in Hnd as [Hp Hps].
    destruct (keep p); [| by apply IH].
    simpl. apply NoDup_cons. split; [| by apply IH].
    intros Hin. apply Hp.
    apply list_elem_of_fmap in Hin as (q & -> & Hq).
    apply list_elem_of_fmap. exists q. split; [done |].
    apply list_elem_of_In in Hq. apply filter_In in Hq as [Hq _].
    by apply list_elem_of_In.
  - intros x Hx. apply list_elem_of_fmap in Hx as (q & -> & Hq).
    apply list_elem_of_In in Hq. apply filter_In in Hq as [_ Hq].
    unfold keep in Hq. apply andb_true_iff in Hq as [Hq _].
    by apply includes_elem_of.
Qed.

Section Rounding.
Variable rnd : Q -> Q.
Hypothesis rnd_mono : forall x y, (x <= y)%Q -> (rnd x <= rnd y)%Q.
Hypothesis rnd_0 : (rnd 0 == 0)%Q.
Hypothesis rnd_1 : (rnd 1 == 1)%Q.
Hypothesis rnd_100 : (rnd (inject_Z 100) == inject_Z 100)%Q.

(** A monotone rounding gives equal results on equal rationals. *)
Lemma rnd_Qeq (x y : Q) : (x == y)%Q -> (rnd x == rnd y)%Q.
Proof using rnd_mono.
  intros Hxy. apply Qle_antisym; apply rnd_mono; rewrite Hxy; apply Qle_refl.
Qed.

Lemma Math_round_mono (x y : Q) : (x <= y)%Q -> (Math_round x <= Math_round y)%Z.
Proof. intros Hxy. apply Qfloor_resp_le. by apply Qplus_le_l. Qed.

Lemma Math_round_Qeq (x y : Q) : (x == y)%Q -> Math_round x = Math_round y.
Proof.
  intros Hxy. apply Z.le_antisymm; apply Math_round_mono; rewrite Hxy;
    apply Qle_refl.
Qed.

Lemma count_ratio_mono (c c' t : nat) :
  (c <= c')%nat ->
  (inject_Z (Z.of_nat c) / inject_Z (Z.of_nat t)
   <= inject_Z (Z.of_nat c') / inject_Z (Z.of_nat t))%Q.
Proof.
  intros Hc. unfold Qdiv. apply Qmult_le_compat_r.
  - rewrite <- Zle_Qle. lia.
  - apply Qinv_le_0_compat. change 0%Q with (inject_Z 0).
    rewrite <- Zle_Qle. lia.
Qed.

(** The figure never goes down when more rows count as completed. *)
Lemma getCourseProgress_mono progress progress' course :
  (completedLessons progress course <= completedLessons progress' course)%nat ->
  (getCourseProgress rnd progress course
   <= getCourseProgress rnd progress' course)%Z.
Proof using rnd_mono.
  intros Hc. unfold getCourseProgress.
  destruct (Nat.eqb (totalLessons course) 0); [done |].
  unfold fmul, fdiv. apply Math_round_mono, rnd_mono.
  apply Qmult_le_compat_r; [| done].
  by apply rnd_mono, count_ratio_mono.
Qed.

Lemma getCourseProgress_none progress course :
  completedLessons progress course = 0%nat ->
  getCourseProgress rnd progress course = 0%Z.
Proof using rnd_mono rnd_0.
  intros Hc. unfold getCourseProgress.
  destruct (Nat.eqb (totalLessons course) 0); [done |].
  rewrite Hc. unfold fmul, fdiv.
  transitivity (Math_round 0%Q); [| reflexivity].
  apply Math_round_Qeq.
  assert (Hq : (rnd (inject_Z (Z.of_nat 0)
                     / inject_Z (Z.of_nat (totalLessons course))) == 0)%Q).
  { apply Qeq_trans with (rnd 0%Q); [| exact rnd_0].
    apply rnd_Qeq. unfold Qdiv. apply Qmult_0_l. }
  apply Qeq_trans with (rnd 0%Q); [| exact rnd_0].
  apply rnd_Qeq. rewrite Hq. apply Qmult_0_l.
Qed.

Lemma getCourseProgress_all progress course :
  totalLessons course <> 0%nat ->
  completedLessons progress course = totalLessons course ->
  getCourseProgress rnd progress course = 100%Z.
Proof using rnd_mono rnd_1 rnd_100.
  intros Ht Hc. unfold getCourseProgress.
  apply Nat.eqb_neq in Ht as Ht'. rewrite Ht', Hc. unfold fmul, fdiv.
  transitivity (Math_round (inject_Z 100)); [| reflexivity].
  apply Math_round_Qeq.
  assert (Hq : (rnd (inject_Z (Z.of_nat (totalLessons course))
                     / inject_Z (Z.of_nat (totalLessons course))) == 1)%Q).
  { apply Qeq_trans with (rnd 1%Q); [| exact rnd_1].
    apply rnd_Qeq. unfold Qdiv. apply Qmult_inv_r.
    intros H0. change 0%Q with (inject_Z 0) in H0.
    rewrite inject_Z_injective in H0. lia. }
  apply Qeq_trans with (rnd (inject_Z 100)); [| exact rnd_100].
  apply rnd_Qeq. rewrite Hq. apply Qmult_1_l.
Qed.

Lemma getCourseProgress_between progress course :
  (completedLessons progress course <= totalLessons course)%nat ->
  (0 <= getCourseProgress rnd progress course <= 100)%Z.
Proof using rnd_mono rnd_0 rnd_1 rnd_100.
  intros Hle. unfold getCourseProgress.
  destruct (Nat.eqb (totalLessons course) 0) eqn:Ht; [lia |].
  apply Nat.eqb_neq in Ht.
  apply Math_round_between. unfold fmul, fdiv.
  destruct (ratio_in_unit_interval _ _ Hle Ht) as [Hq0 Hq1].
  split.
  - apply Qle_trans with (rnd 0%Q); [rewrite rnd_0; apply Qle_refl |].
    apply rnd_mono. apply Qmult_le_0_compat; [| done].
    apply Qle_trans with (rnd 0%Q); [rewrite rnd_0; apply Qle_refl |].
    by apply rnd_mono.
  - apply Qle_trans with (rnd (inject_Z 100));
      [| rewrite rnd_100; apply Qle_refl].
    apply rnd_mono.
    apply Qle_trans with (1 * inject_Z 100)%Q;
      [| rewrite Qmult_1_l; apply Qle_refl].
    apply Qmult_le_compat_r; [| done].
    apply Qle_trans with (rnd 1%Q); [by apply rnd_mono |].
    rewrite rnd_1. apply Qle_refl.
Qed.

(** The rows of one student carry [UNIQUE(student_id, lesson_id)]: no two
    of them name the same lesson.  On such rows the figure is a
    percentage, whatever the course: the condition on the two counts
    follows from the constraint. *)
Theorem getCourseProgress_is_a_percentage progress course :
  NoDup (progress_lesson_id <$> progress) ->
  (0 <= getCourseProgress rnd progress course <= 100)%Z.
Proof using rnd_mono rnd_0 rnd_1 rnd_100.
  intros Hnd. by apply getCourseProgress_between, completedLessons_le_total.
Qed.

(** The two ends of the scale.  A course none of whose lessons has a
    completed row reads 0.  A course with a lesson, whose lessons have
    distinct ids and each a completed row among the rows of the student,
    reads 100. *)
Theorem getCourseProgress_endpoints progress course :
  ((forall p, p ∈ progress -> progress_is_completed p = true ->
      progress_lesson_id p ∉ courseLessonIds course) ->
   getCourseProgress rnd progress course = 0%Z) /\
  (totalLessons course <> 0%nat ->
   NoDup (courseLessonIds course) ->
   NoDup (progress_lesson_id <$> progress) ->
   (forall id, id ∈ courseLessonIds course ->
      exists p, p ∈ progress /\ progress_lesson_id p = id /\
                progress_is_completed p = true) ->
   getCourseProgress rnd progress course = 100%Z).
Proof using rnd_mono rnd_0 rnd_1 rnd_100.
  split.
  - intros Hnone. apply getCourseProgress_none. unfold completedLessons.
    apply length_zero_iff_nil.
    induction progress as [| p ps IH]; simpl; [done |].
    destruct (includes _ _ && _) eqn:Hkeep.
    + apply andb_true_iff in Hkeep as [Hin Hdone].
      apply includes_elem_of in Hin.
      exfalso. apply (Hnone p); [set_solver | done | done].
    + apply IH. intros q Hq. apply Hnone. set_solver.
  - intros Ht Hids Hrows Hall. apply getCourseProgress_all; [done |].
    rewrite totalLessons_length. unfold completedLessons.
    set (keep := fun p => includes (courseLessonIds course) (progress_lesson_id p)
                          && progress_is_completed p).
    rewrite <- (length_fmap progress_lesson_id (List.filter keep progress)).
    apply Permutation_length, NoDup_Permutation; [| done |].
    + clear -Hrows. induction progress as [| p ps IH]; simpl; [constructor |].
      apply NoDup_cons in Hrows as [Hp Hps].
      destruct (keep p); [| by apply IH].
      simpl. apply NoDup_cons. split; [| by apply IH].
      intros Hin. apply Hp.
      apply list_elem_of_fmap in Hin as (q & -> & Hq).
      apply list_elem_of_fmap. exists q. split; [done |].
      apply list_elem_of_In in Hq. apply filter_In in Hq as [Hq _].
      by apply list_elem_of_In.
    + intros id. split.
      * intros Hx. apply list_elem_of_fmap in Hx as (q & -> & Hq).
        apply list_elem_of_In in Hq. apply filter_In in Hq as [_ Hq].
        unfold keep in Hq. apply andb_true_iff in Hq as [Hq _].
        by apply includes_elem_of.
      * intros Hid. destruct (Hall id Hid) as (p & Hp & <- & Hdone).
        apply list_elem_of_fmap. exists p. split; [done |].
        apply list_elem_of_In, filter_In. split; [by apply list_elem_of_In |].
        unfold keep. apply andb_true_iff. split; [| done].
        by apply includes_elem_of.
Qed.

(** A further row never lowers the figure: the rows [progress] with any
    rows [more] after them read at least what [progress] reads. *)
Theorem getCourseProgress_grows progress more course :
  (getCourseProgress rnd progress course
   <= getCourseProgress rnd (progress ++ more) course)%Z.
Proof using rnd_mono.
  apply getCourseProgress_mono. unfold completedLessons.
  rewrite List.filter_app, length_app. lia.
Qed.

End Rounding.

Lemma getCourseProgress_is_a_percentage_witness :
  (0 <= getCourseProgress (fun x => x) all_done_progress half_done_course
     <= 100)%Z.
Proof.
  apply (getCourseProgress_is_a_percentage (fun x => x)).
  - intros x y H. exact H.
  - reflexivity.
  - reflexivity.
  - reflexivity.
  - apply (bool_decide_unpack _). vm_compute. reflexivity.
Defined.

Lemma getCourseProgress_endpoints_witness :
  getCourseProgress (fun x => x) [] half_done_course = 0%Z /\
  getCourseProgress (fun x => x) all_done_progress half_done_course = 100%Z.
Proof.
  assert (Hmono : forall x y : Q, (x <= y)%Q -> (x <= y)%Q) by (intros x y H; exact H).
  split.
  - apply (proj1 (getCourseProgress_endpoints (fun x => x) Hmono
                    (Qeq_refl _) (Qeq_refl _) (Qeq_refl _) [] half_done_course)).
    intros p Hp. by apply elem_of_nil in Hp.
  - apply (proj2 (getCourseProgress_endpoints (fun x => x) Hmono
                    (Qeq_refl _) (Qeq_refl _) (Qeq_refl _)
                    all_done_progress half_done_course)).
    + vm_compute. discriminate.
    + apply (bool_decide_unpack _). vm_compute. reflexivity.
    + apply (bool_decide_unpack _). vm_compute. reflexivity.
    + intros id Hid. vm_compute in Hid.
      apply elem_of_cons in Hid as [-> | Hid].
      { eexists. split; [apply list_elem_of_here |]. split; reflexivity. }
      apply elem_of_cons in Hid as [-> | Hid]; [| by apply elem_of_nil in Hid].
      eexists. split; [apply list_elem_of_further, list_elem_of_here |].
      split; reflexivity.
Defined.

Lemma getCourseProgress_grows_witness :
  (getCourseProgress (fun x => x) half_done_progress half_done_course
   <= getCourseProgress (fun x => x) all_done_progress half_done_course)%Z.
Proof.
  apply (getCourseProgress_grows (fun x => x)). intros x y H. exact H.
Defined.


End DashboardFigures.

(** ** The editor: adding, renaming and deleting *)

Section EditorHandlers.
Import Types Editor.

(** *** Arrays with one element of a given id *)

Section OneOfAnId.
Context {A : Type} (id : A -> string).

Lemma map_the_one_at (f : A -> A) array k a :
  the_one_at id array k a ->
  (fun c => match c with
            | Obj a' => if String.eqb (id a') (id a) then Obj (f a') else c
            | OrderOnly _ => c
            end) <$> array
  = <[k := Obj (f a)]> array.
Proof.
  intros [Hk Honly]. apply list_eq. intros i. rewrite list_lookup_fmap.
  destruct (decide (i = k)) as [-> | Hne].
  - rewrite Hk, list_lookup_insert_eq by (by eapply lookup_lt_Some).
    simpl. by rewrite String.eqb_refl.
  - rewrite list_lookup_insert_ne by done.
    destruct (array !! i) as [[a' | o] |] eqn:Hi; simpl; [| done | done].
    destruct (String.eqb (id a') (id a)) eqn:Heq; [| done].
    apply String.eqb_eq in Heq. exfalso. apply Hne. by eapply Honly.
Qed.

Lemma map_absent (f : A -> A) (array : list (cell A)) x :
  Some x ∉ cell_id id <$> array ->
  (fun c => match c with
            | Obj a' => if String.eqb (id a') x then Obj (f a') else c
            | OrderOnly _ => c
            end) <$> array
  = array.
Proof.
  intros Hout. apply list_eq. intros i. rewrite list_lookup_fmap.
  destruct (array !! i) as [[a' | o] |] eqn:Hi; simpl; [| done | done].
  destruct (String.eqb (id a') x) eqn:Heq; [| done].
  apply String.eqb_eq in Heq. exfalso. apply Hout.
  apply list_elem_of_fmap. exists (Obj a'). split; [by rewrite <- Heq |].
  by eapply list_elem_of_lookup_2.
Qed.

Lemma filter_the_one_at array k a :
  the_one_at id array k a ->
  filter (fun c => cell_id id c <> Some (id a)) array = delete k array.
Proof.
  intros [Hk Honly]. revert k Hk Honly.
  induction array as [| c cs IH]; intros k Hk Honly; [done |].
  destruct k as [| k]; simpl in Hk.
  - injection Hk as ->. rewrite filter_cons_False by (simpl; naive_solver).
    simpl. apply filter_all. intros c Hc.
    apply list_elem_of_lookup_1 in Hc as [j Hj].
    destruct c as [a' | o]; simpl; [| done].
    intros [= Heq]. by specialize (Honly (S j) a' Hj Heq).
  - assert (Hc : cell_id id c <> Some (id a)).
    { destruct c as [a' | o]; simpl; [| done].
      intros [= Heq]. by specialize (Honly 0%nat a' eq_refl Heq). }
    rewrite filter_cons_True by done. simpl. f_equal.
    apply IH; [done |]. intros j a' Hj Heq.
    specialize (Honly (S j) a' Hj Heq). lia.
Qed.

Lemma find_the_one_at array k a :
  the_one_at id array k a ->
  List.find (fun c => bool_decide (cell_id id c = Some (id a))) array
  = Some (Obj a).
Proof.
  intros [Hk Honly].
  destruct (List.find _ array) as [c |] eqn:Hfind.
  - apply find_some in Hfind as [Hin Hid].
    apply bool_decide_eq_true in Hid.
    destruct c as [a' | o]; [| done]. simpl in Hid. injection Hid as Hid.
    apply list_elem_of_In, list_elem_of_lookup_1 in Hin as [j Hj].
    assert (j = k) as -> by (by eapply Honly). congruence.
  - apply list_elem_of_lookup_2, list_elem_of_In in Hk.
    eapply find_none in Hfind; [| exact Hk].
    simpl in Hfind. by rewrite bool_decide_eq_true_2 in Hfind.
Qed.

Lemma find_absent (array : list (cell A)) x :
  Some x ∉ cell_id id <$> array ->
  List.find (fun c => bool_decide (cell_id id c = Some x)) array = None.
Proof.
  intros Hout. destruct (List.find _ array) as [c |] eqn:Hfind; [| done].
  apply find_some in Hfind as [Hin Hid].
  apply bool_decide_eq_true in Hid. exfalso. apply Hout.
  apply list_elem_of_fmap. exists c. split; [done | by apply list_elem_of_In].
Qed.

End OneOfAnId.

(** *** Numbered arrays *)

Lemma numbered_snoc {A} (order : A -> Z) (array : list (cell A)) (c : cell A) :
  numbered order array ->
  cell_order order c = Z.of_nat (length array) ->
  numbered order (array ++ [c]).
Proof.
  intros Hnum Hc i c' Hi.
  apply lookup_app_Some in Hi as [Hi | [Hlen Hi]]; [by apply Hnum |].
  apply list_lookup_singleton_Some in Hi as [Hi ->].
  rewrite Hc. f_equal. lia.
Qed.

Lemma course_with_its_modules (course : ECourse) :
  course_with_modules course (ecourse_modules course) = course.
Proof. by destruct course. Qed.

Lemma NoDup_snoc_fresh {A} (l : list A) (x : A) :
  NoDup l -> x ∉ l -> NoDup (l ++ [x]).
Proof.
  intros Hnd Hx. apply NoDup_app. split_and!; [done | | apply NoDup_singleton].
  intros y Hy Hy'. apply list_elem_of_singleton in Hy' as ->. done.
Qed.

(** *** Adding *)

(** [handleAddModule] and [handleAddLesson] put the new element at the
    end, with the length of the array as [order].  So an array whose
    elements have their indexes as [order] stays such an array, and with a
    fresh id the ids stay distinct.  The new module has no lessons, the new
    lesson no file; a lesson asked for under a module id that the course
    does not have changes nothing. *)
Theorem adding_keeps_numbering_and_ids fresh course :
  (let course' := handleAddModule fresh course in
   (exists m,
      ecourse_modules course' = ecourse_modules course ++ [Obj m] /\
      emodule_id m = fresh /\ emodule_lessons m = []) /\
   (numbered emodule_order (ecourse_modules course) ->
    numbered emodule_order (ecourse_modules course')) /\
   (NoDup (module_cell_ids (ecourse_modules course)) ->
    Some fresh ∉ module_cell_ids (ecourse_modules course) ->
    NoDup (module_cell_ids (ecourse_modules course'))) /\
   course_with_modules course' [] = course_with_modules course []) /\
  (forall moduleId,
     Some moduleId ∉ module_cell_ids (ecourse_modules course) ->
     handleAddLesson fresh moduleId course = course) /\
  (forall k m,
     the_module_at (ecourse_modules course) k m ->
     exists l,
       handleAddLesson fresh (emodule_id m) course
       = course_with_modules course
           (<[k := Obj (module_with_lessons m (emodule_lessons m ++ [Obj l]))]>
              (ecourse_modules course)) /\
       lesson_id l = fresh /\ lesson_content l = None /\
       (numbered lesson_order (emodule_lessons m) ->
        numbered lesson_order (emodule_lessons m ++ [Obj l])) /\
       (NoDup (lesson_cell_ids (emodule_lessons m)) ->
        Some fresh ∉ lesson_cell_ids (emodule_lessons m) ->
        NoDup (lesson_cell_ids (emodule_lessons m ++ [Obj l])))).
Proof.
  split_and!.
  - simpl. split_and!.
    + eexists. split; [reflexivity |]. by split.
    + intros Hnum. by apply numbered_snoc.
    + intros Hnd Hfresh. unfold module_cell_ids. rewrite fmap_app.
      by apply NoDup_snoc_fresh.
    + reflexivity.
  - intros moduleId Hout. unfold handleAddLesson.
    replace (List.find _ _) with (@None (cell EModule));
      [done | symmetry; by apply (find_absent emodule_id)].
  - intros k m Hm. unfold handleAddLesson.
    replace (List.find _ _) with (Some (Obj m));
      [| symmetry; apply (find_the_one_at emodule_id _ _ _ Hm)].
    eexists. split_and!.
    + unfold map_module. rewrite (map_the_one_at emodule_id _ _ _ _ Hm).
      reflexivity.
    + reflexivity.
    + reflexivity.
    + intros Hnum. by apply numbered_snoc.
    + intros Hnd Hfresh. unfold lesson_cell_ids. rewrite fmap_app.
      by apply NoDup_snoc_fresh.
Qed.

(** *** Renaming and deleting a lesson *)

(** With one module of the id and one lesson of the id, a title edit or
    the deletion of a lesson changes the addressed element and nothing
    else: the other modules and lessons, and the [order] of every element
    that stays, are as before.  An edit of the title of a module the
    course does not have changes nothing. *)
Theorem edits_change_the_addressed_element title course k m :
  the_module_at (ecourse_modules course) k m ->
  handleUpdateModuleTitle (emodule_id m) title course
  = course_with_modules course
      (<[k := Obj (module_with_title m title)]> (ecourse_modules course)) /\
  (forall j l,
     the_lesson_at (emodule_lessons m) j l ->
     handleUpdateLessonTitle (emodule_id m) (lesson_id l) title course
     = course_with_modules course
         (<[k := Obj (module_with_lessons m
                        (<[j := Obj (lesson_with_title l title)]>
                           (emodule_lessons m)))]>
            (ecourse_modules course)) /\
     handleDeleteLesson (emodule_id m) (lesson_id l) course
     = course_with_modules course
         (<[k := Obj (module_with_lessons m (delete j (emodule_lessons m)))]>
            (ecourse_modules course))) /\
  (forall moduleId lessonId,
     Some moduleId ∉ module_cell_ids (ecourse_modules course) ->
     handleUpdateModuleTitle moduleId title course = course /\
     handleUpdateLessonTitle moduleId lessonId title course = course /\
     handleDeleteLesson moduleId lessonId course = course).
Proof.
  intros Hm. split_and!.
  - unfold handleUpdateModuleTitle, map_module.
    by rewrite (map_the_one_at emodule_id _ _ _ _ Hm).
  - intros j l Hl. split.
    + unfold handleUpdateLessonTitle. f_equal.
      unfold map_module. rewrite (map_the_one_at emodule_id _ _ _ _ Hm).
      unfold map_lesson. by rewrite (map_the_one_at lesson_id _ _ _ _ Hl).
    + unfold handleDeleteLesson. f_equal.
      unfold map_module. rewrite (map_the_one_at emodule_id _ _ _ _ Hm).
      do 3 f_equal. apply (filter_the_one_at lesson_id _ _ _ Hl).
  - intros moduleId lessonId Hout.
    unfold handleUpdateModuleTitle, handleUpdateLessonTitle, handleDeleteLesson,
      map_module.
    rewrite !(map_absent emodule_id) by done.
    by rewrite course_with_its_modules.
Qed.

(** *** Deleting a module *)

(** [handleDeleteModule] takes the module out and leaves the [order] of
    the others as it was.  When the module was not the last one, the array
    is therefore no longer numbered by its indexes, and the module that
    [handleAddModule] then adds gets the [order] the last module already
    has. *)
Theorem deleted_module_leaves_a_gap fresh course k m :
  numbered emodule_order (ecourse_modules course) ->
  the_module_at (ecourse_modules course) k m ->
  (S k < length (ecourse_modules course))%nat ->
  ecourse_modules (handleDeleteModule (emodule_id m) course)
  = delete k (ecourse_modules course) /\
  ~ numbered emodule_order
      (ecourse_modules (handleDeleteModule (emodule_id m) course)) /\
  exists i c c',
    ecourse_modules
      (handleAddModule fresh (handleDeleteModule (emodule_id m) course)) !! i
    = Some c /\
    ecourse_modules
      (handleAddModule fresh (handleDeleteModule (emodule_id m) course)) !! S i
    = Some c' /\
    cell_order emodule_order c = cell_order emodule_order c'.
Proof.
  intros Hnum Hm Hlen.
  assert (Hdel : ecourse_modules (handleDeleteModule (emodule_id m) course)
                 = delete k (ecourse_modules course)).
  { unfold handleDeleteModule. simpl.
    apply (filter_the_one_at emodule_id _ _ _ Hm). }
  set (modules := ecourse_modules course) in *.
  remember (length modules) as n eqn:En.
  assert (Hn : length (delete k modules) = pred n).
  { rewrite length_delete; [lia |]. apply lookup_lt_is_Some. lia. }
  destruct (lookup_lt_is_Some_2 modules (pred n)) as [c Hc]; [lia |].
  assert (Hc' : delete k modules !! pred (pred n) = Some c).
  { rewrite list_lookup_delete_ge by lia.
    replace (S (pred (pred n))) with (pred n) by lia. done. }
  assert (Horder : cell_order emodule_order c = Z.of_nat (pred n))
    by (by apply Hnum).
  split_and!.
  - done.
  - rewrite Hdel. intros Hnum'. specialize (Hnum' _ _ Hc'). lia.
  - exists (pred (pred n)), c. eexists.
    remember (handleDeleteModule (emodule_id m) course) as course1.
    unfold handleAddModule. simpl. rewrite Hdel. split_and!.
    + by apply lookup_app_l_Some.
    + rewrite lookup_app_r by lia.
      replace (S (pred (pred n)) - length (delete k modules))%nat
        with 0%nat by lia.
      reflexivity.
    + simpl. rewrite Horder, Hn. done.
Qed.

Lemma sample_course_numbered teacher_id :
  numbered emodule_order (ecourse_modules (sample_course teacher_id)).
Proof. intros [| [| i]] c Hi; simpl in Hi; by simplify_eq. Qed.

Lemma first_module_at_0 teacher_id :
  the_module_at (ecourse_modules (sample_course teacher_id)) 0 first_module.
Proof.
  split; [reflexivity |].
  intros [| [| j]] m' Hj Hid; [reflexivity | | done].
  simpl in Hj. injection Hj as <-. discriminate Hid.
Qed.

Lemma first_lesson_at_0 :
  the_lesson_at (emodule_lessons first_module) 0
    (sample_lesson "9b3d-01" "L1" 0).
Proof.
  split; [reflexivity |].
  intros [| [| [| i]]] l' Hi Hid; [reflexivity | | | done];
    simpl in Hi; injection Hi as <-; discriminate Hid.
Qed.

Lemma edits_change_the_addressed_element_witness :
  ecourse_modules
    (handleDeleteLesson "6f1c2a7e-0001" "9b3d-01" (sample_course "t-1"))
  = [ Obj (module_with_lessons first_module
             (Obj <$> [ sample_lesson "9b3d-02" "L2" 1;
                        sample_lesson "9b3d-03" "L3" 2 ]));
      Obj second_module ].
Proof.
  destruct (edits_change_the_addressed_element "T" (sample_course "t-1") 0
              first_module (first_module_at_0 "t-1")) as (_ & Hlesson & _).
  destruct (Hlesson 0%nat _ first_lesson_at_0) as [_ Hdelete].
  simpl in Hdelete. rewrite Hdelete. reflexivity.
Defined.

Lemma deleted_module_leaves_a_gap_witness :
  ~ numbered emodule_order
      (ecourse_modules (handleDeleteModule "6f1c2a7e-0001" (sample_course "t-1"))).
Proof.
  apply (deleted_module_leaves_a_gap "0a0b" (sample_course "t-1") 0 first_module).
  - apply sample_course_numbered.
  - apply first_module_at_0.
  - simpl. lia.
Defined.

End EditorHandlers.

(** ** Lesson files: a transfer from start to end *)

Section UploadPaths.
Import Types Editor.

(** *** Splitting at a character *)

Lemma split_on_not_nil sep s : split_on sep s <> [].
Proof.
  destruct s as [| c s]; [done |]. simpl.
  destruct (Ascii.eqb c sep); [done |]. by destruct (split_on sep s).
Qed.

(** The pieces joined with the separator are the string. *)
Lemma join_split_on sep s : join_with sep (split_on sep s) = s.
Proof.
  induction s as [| c s IH]; [done |]. simpl.
  destruct (Ascii.eqb c sep) eqn:Hc.
  - apply Ascii.eqb_eq in Hc as ->.
    destruct (split_on sep s) as [| piece pieces] eqn:Hs;
      [by apply split_on_not_nil in Hs |].
    simpl. simpl in IH. by rewrite IH.
  - destruct (split_on sep s) as [| piece pieces] eqn:Hs;
      [by apply split_on_not_nil in Hs |].
    destruct pieces as [| piece' pieces]; [simpl in *; by rewrite IH |].
    change (String c (join_with sep (piece :: piece' :: pieces)) = String c s).
    by rewrite IH.
Qed.

(** No piece holds the separator. *)
Lemma split_on_pieces sep s :
  Forall (fun piece => occurs sep piece = false) (split_on sep s).
Proof.
  induction s as [| c s IH]; [by repeat constructor |]. simpl.
  destruct (Ascii.eqb c sep) eqn:Hc; [by constructor |].
  destruct (split_on sep s) as [| piece pieces];
    [repeat constructor; simpl; by rewrite Hc |].
  apply Forall_cons in IH as [Hpiece Hpieces].
  constructor; [| done]. simpl. by rewrite Hc.
Qed.

(** A character of a piece is a character of the string. *)
Lemma split_on_occurs sep c s piece :
  piece ∈ split_on sep s -> occurs c piece = true -> occurs c s = true.
Proof.
  revert piece. induction s as [| c' s IH]; intros piece; simpl.
  - intros Hin. by apply list_elem_of_singleton in Hin as ->.
  - destruct (Ascii.eqb c' sep) eqn:Hc.
    + intros Hin Hocc. apply elem_of_cons in Hin as [-> | Hin]; [done |].
      rewrite (IH _ Hin Hocc). apply orb_true_r.
    + destruct (split_on sep s) as [| p ps] eqn:Hs;
        [by apply split_on_not_nil in Hs |].
      intros Hin Hocc. apply elem_of_cons in Hin as [-> | Hin].
      * simpl in Hocc. apply orb_true_iff in Hocc as [-> | Hocc]; [done |].
        rewrite (IH p); [apply orb_true_r | set_solver | done].
      * rewrite (IH piece); [apply orb_true_r | set_solver | done].
Qed.

(** A string without the separator, the separator, and a rest. *)
Lemma split_on_app sep a b :
  occurs sep a = false ->
  split_on sep (a +:+ String sep b) = a :: split_on sep b.
Proof.
  induction a as [| c a IH]; simpl.
  - intros _. by rewrite Ascii.eqb_refl.
  - intros Hocc. apply orb_false_iff in Hocc as [Hc Ha].
    rewrite Hc, (IH Ha). done.
Qed.

Lemma append_assoc (a b c : string) : (a +:+ b) +:+ c = a +:+ (b +:+ c).
Proof.
  induction a as [| x a IH]; [done |].
  change (String x ((a +:+ b) +:+ c) = String x (a +:+ b +:+ c)). by f_equal.
Qed.

Lemma occurs_app c a b : occurs c (a +:+ b) = occurs c a || occurs c b.
Proof.
  induction a as [| c' a IH]; [done |]. simpl. rewrite IH. apply orb_assoc.
Qed.

(** *** The simulated progress *)

(** [n] ticks after the progress of a lesson was set to 0 it is at
    [10 * n], and at 90 from the ninth tick on; no other entry changes. *)
Lemma ticks_from_zero lessonId n (prev : gmap string Z) :
  Nat.iter n (tick lessonId) (<[lessonId := 0%Z]> prev)
  = <[lessonId := Z.min (10 * Z.of_nat n) 90]> prev.
Proof.
  induction n as [| n IH]; [done |].
  rewrite Nat.iter_succ, IH. unfold tick.
  rewrite lookup_insert_eq. simpl. case_bool_decide as Hge.
  - f_equal. lia.
  - rewrite insert_insert_eq. f_equal. lia.
Qed.

Lemma supported_type_passes file :
  file_type file = "video/mp4" \/ file_type file = "application/pdf" ->
  negb (String.eqb (file_type file) "video/mp4")
  && negb (String.eqb (file_type file) "application/pdf") = false.
Proof. intros [-> | ->]; reflexivity. Qed.

Lemma teacher_id_passes (st : editor) :
  ecourse_teacher_id (course st) <> "" ->
  String.eqb (ecourse_teacher_id (course st)) "" = false.
Proof. intros Hne. by apply String.eqb_neq. Qed.

Lemma attach_the_lesson newFile modules k m j l :
  the_module_at modules k m ->
  the_lesson_at (emodule_lessons m) j l ->
  attach (emodule_id m) (lesson_id l) newFile modules
  = <[k := Obj (module_with_lessons m
                  (<[j := Obj (lesson_with_content l (Some newFile))]>
                     (emodule_lessons m)))]> modules.
Proof.
  intros Hm Hl. unfold attach.
  rewrite (map_the_one_at emodule_id
             (fun m' => module_with_lessons m'
                          ((fun c => match c with
                                     | Obj l' =>
                                         if String.eqb (lesson_id l') (lesson_id l)
                                         then Obj (lesson_with_content l' (Some newFile))
                                         else c
                                     | OrderOnly _ => c
                                     end) <$> emodule_lessons m'))
             _ _ _ Hm).
  do 3 f_equal.
  apply (map_the_one_at lesson_id (fun l' => lesson_with_content l' (Some newFile))
           _ _ _ Hl).
Qed.

Lemma attach_absent newFile modules moduleId lessonId :
  Some moduleId ∉ module_cell_ids modules ->
  attach moduleId lessonId newFile modules = modules.
Proof. intros Hout. unfold attach. by apply (map_absent emodule_id). Qed.

(** *** A transfer that succeeds *)

(** For a supported file on a course with a teacher id, when the storage
    accepts the upload: the entries of the lesson in the upload status and
    the upload progress are gone and every other entry is as before; the
    one lesson of the id, in the one module of the id, holds the file with
    its name, type and size and the public URL, and shows the file row;
    every other lesson and module is as before.  With no module of the id
    the course is as before, though the file was stored. *)
Theorem handleFileChange_attaches_the_file
    env file rest moduleId lessonId st path :
  ecourse_teacher_id (course st) <> "" ->
  file_type file = "video/mp4" \/ file_type file = "application/pdf" ->
  env_upload env = inr path ->
  uploadStatus (handleFileChange env (Some (file :: rest)) moduleId lessonId st).1
  = delete lessonId (uploadStatus st) /\
  uploadProgress (handleFileChange env (Some (file :: rest)) moduleId lessonId st).1
  = delete lessonId (uploadProgress st) /\
  (forall k m j l,
     the_module_at (ecourse_modules (course st)) k m -> emodule_id m = moduleId ->
     the_lesson_at (emodule_lessons m) j l -> lesson_id l = lessonId ->
     course (handleFileChange env (Some (file :: rest)) moduleId lessonId st).1
     = course_with_modules (course st)
         (<[k := Obj (module_with_lessons m
                        (<[j := Obj (lesson_with_content l
                                       (Some (new_file env file)))]>
                           (emodule_lessons m)))]>
            (ecourse_modules (course st))) /\
     lesson_panel_of
       (handleFileChange env (Some (file :: rest)) moduleId lessonId st).1
       (lesson_with_content l (Some (new_file env file)))
     = FileRow (new_file env file)) /\
  (Some moduleId ∉ module_cell_ids (ecourse_modules (course st)) ->
   course (handleFileChange env (Some (file :: rest)) moduleId lessonId st).1
   = course st) /\
  exists stored,
    (handleFileChange env (Some (file :: rest)) moduleId lessonId st).2
    = [storage_upload "lesson-files" stored file;
       storage_getPublicUrl "lesson-files" path].
Proof.
  intros Hteacher Hsupported Hupload. unfold handleFileChange.
  rewrite (teacher_id_passes _ Hteacher), (supported_type_passes _ Hsupported),
    Hupload.
  simpl. split_and!.
  - by rewrite !delete_insert_eq.
  - by rewrite ticks_from_zero, !delete_insert_eq.
  - intros k m j l Hm <- Hl <-. split; [| reflexivity].
    f_equal. by apply attach_the_lesson.
  - intros Hout. rewrite attach_absent by done.
    apply course_with_its_modules.
  - eexists. reflexivity.
Qed.

(** *** A transfer that fails *)

(** When the storage refuses the upload, the course is as before, the one
    message names the error of the storage, the progress entry of the
    lesson is gone and its status entry says [error].  Nothing removes
    that entry afterwards: a lesson of the id without a file shows the
    progress panel, at 0 with the error, and not the file input. *)
Theorem handleFileChange_failed_upload
    env file rest moduleId lessonId st message :
  ecourse_teacher_id (course st) <> "" ->
  file_type file = "video/mp4" \/ file_type file = "application/pdf" ->
  env_upload env = inl message ->
  course (handleFileChange env (Some (file :: rest)) moduleId lessonId st).1
  = course st /\
  uploadStatus (handleFileChange env (Some (file :: rest)) moduleId lessonId st).1
  = <[lessonId := error]> (uploadStatus st) /\
  uploadProgress (handleFileChange env (Some (file :: rest)) moduleId lessonId st).1
  = delete lessonId (uploadProgress st) /\
  (exists stored,
     (handleFileChange env (Some (file :: rest)) moduleId lessonId st).2
     = [storage_upload "lesson-files" stored file;
        toast_error ("Error al subir el archivo: " +:+ message)]) /\
  (forall l,
     lesson_id l = lessonId -> lesson_content l = None ->
     lesson_panel_of
       (handleFileChange env (Some (file :: rest)) moduleId lessonId st).1 l
     = ProgressPanel 0 error).
Proof.
  intros Hteacher Hsupported Hupload. unfold handleFileChange.
  rewrite (teacher_id_passes _ Hteacher), (supported_type_passes _ Hsupported),
    Hupload.
  simpl. split_and!.
  - reflexivity.
  - by rewrite !insert_insert_eq.
  - by rewrite ticks_from_zero, delete_insert_eq.
  - eexists. reflexivity.
  - intros l <- Hnone. unfold lesson_panel_of. rewrite Hnone. simpl.
    by rewrite lookup_insert_eq, lookup_delete_eq.
Qed.

(** *** The progress shown during a transfer *)

(** While the upload runs, the timer moves the progress of the lesson in
    steps of 10 from 0 and stops it at 90: after [n] ticks it is
    [min (10 n) 90], so never 100, and the entries of the other lessons
    are not touched. *)
Theorem simulated_progress_stops_at_90 lessonId n (prev : gmap string Z) :
  Nat.iter n (tick lessonId) (<[lessonId := 0%Z]> prev) !! lessonId
  = Some (Z.min (10 * Z.of_nat n) 90) /\
  (forall other, other <> lessonId ->
     Nat.iter n (tick lessonId) (<[lessonId := 0%Z]> prev) !! other
     = prev !! other) /\
  Nat.iter (S n) (tick lessonId) (<[lessonId := 0%Z]> prev)
  = (if bool_decide (9 <= n)%nat
     then Nat.iter n (tick lessonId) (<[lessonId := 0%Z]> prev)
     else <[lessonId := (10 * Z.of_nat n + 10)%Z]> prev).
Proof.
  rewrite !ticks_from_zero. split_and!.
  - apply lookup_insert_eq.
  - intros other Hne. by rewrite lookup_insert_ne.
  - case_bool_decide; f_equal; lia.
Qed.

(** *** Where the file goes *)

Lemma join_with_last sep pieces :
  pieces <> [] ->
  exists base, join_with sep pieces = base +:+ default "" (last pieces).
Proof.
  induction pieces as [| piece pieces IH]; [done |]. intros _.
  destruct pieces as [| piece' pieces]; [by exists "" |].
  destruct IH as [base IH]; [done |].
  exists (piece +:+ String sep base).
  change (join_with sep (piece :: piece' :: pieces))
    with (piece +:+ String sep (join_with sep (piece' :: pieces))).
  rewrite IH. change (last (piece :: piece' :: pieces)) with (last (piece' :: pieces)).
  by rewrite append_assoc.
Qed.

(** [extension name] is what follows the last dot of [name], and all of
    [name] when it has no dot. *)
Lemma extension_is_the_suffix name :
  occurs "." (extension name) = false /\
  (exists base, name = base +:+ extension name) /\
  (occurs "." name = false -> extension name = name) /\
  (forall c, occurs c (extension name) = true -> occurs c name = true).
Proof.
  unfold extension.
  destruct (last (split_on "." name)) as [ext |] eqn:Hlast; simpl.
  - apply last_Some_elem_of in Hlast as Hin. split_and!.
    + pose proof (split_on_pieces "." name) as Hall.
      rewrite Forall_forall in Hall. by apply Hall.
    + destruct (join_with_last "." (split_on "." name)) as [base Hbase];
        [apply split_on_not_nil |].
      rewrite join_split_on, Hlast in Hbase. by exists base.
    + intros Hnone. rewrite (split_on_without _ _ Hnone) in Hlast.
      by injection Hlast.
    + intros c. by apply (split_on_occurs "."%char).
  - apply last_None in Hlast. by apply split_on_not_nil in Hlast.
Qed.

(** The object is stored under [teacher/course/module/lesson/uuid.ext]:
    with ids that hold no slash, the path has these five segments, the
    first of them the teacher id of the course, and the last segment ends
    with what follows the last dot of the name of the file (with the whole
    name, when it has no dot). *)
Theorem upload_path_has_five_segments env file rest moduleId lessonId st :
  ecourse_teacher_id (course st) <> "" ->
  file_type file = "video/mp4" \/ file_type file = "application/pdf" ->
  occurs "/" (ecourse_teacher_id (course st)) = false ->
  occurs "/" (ecourse_id (course st)) = false ->
  occurs "/" moduleId = false ->
  occurs "/" lessonId = false ->
  occurs "/" (env_uuid env) = false ->
  occurs "/" (file_name file) = false ->
  exists stored,
    head (handleFileChange env (Some (file :: rest)) moduleId lessonId st).2
    = Some (storage_upload "lesson-files" stored file) /\
    split_on "/" stored
    = [ ecourse_teacher_id (course st); ecourse_id (course st); moduleId;
        lessonId; env_uuid env +:+ "." +:+ extension (file_name file) ] /\
    occurs "." (extension (file_name file)) = false /\
    (exists base, file_name file = base +:+ extension (file_name file)) /\
    (occurs "." (file_name file) = false ->
     extension (file_name file) = file_name file).
Proof.
  intros Hteacher Hsupported Ht Hc Hm Hl Hu Hn.
  destruct (extension_is_the_suffix (file_name file))
    as (Hdot & Hbase & Hwhole & Hchars).
  eexists. split_and!; [| | done | done | done].
  - unfold handleFileChange.
    rewrite (teacher_id_passes _ Hteacher), (supported_type_passes _ Hsupported).
    destruct (env_upload env); reflexivity.
  - assert (Hslash : forall x, "/" +:+ x = String "/" x) by done.
    rewrite !Hslash, !split_on_app by done. do 4 f_equal.
    apply split_on_without.
    rewrite occurs_app, Hu. simpl.
    destruct (occurs "/" (extension (file_name file))) eqn:Hocc; [| done].
    apply Hchars in Hocc. congruence.
Qed.

Lemma handleFileChange_attaches_the_file_witness :
  uploadStatus
    (handleFileChange sample_env (Some [mp4]) "6f1c2a7e-0001" "9b3d-01"
       (sample_editor "t-1")).1 = ∅ /\
  lesson_panel_of
    (handleFileChange sample_env (Some [mp4]) "6f1c2a7e-0001" "9b3d-01"
       (sample_editor "t-1")).1
    (lesson_with_content (sample_lesson "9b3d-01" "L1" 0)
       (Some (new_file sample_env mp4)))
  = FileRow (new_file sample_env mp4).
Proof.
  destruct (handleFileChange_attaches_the_file sample_env mp4 []
              "6f1c2a7e-0001" "9b3d-01" (sample_editor "t-1") "stored/path")
    as (Hstatus & _ & Hlesson & _); [discriminate | by left | reflexivity |].
  split.
  - rewrite Hstatus. reflexivity.
  - apply (Hlesson 0%nat first_module 0%nat (sample_lesson "9b3d-01" "L1" 0));
      [ apply (first_module_at_0 "t-1") | reflexivity
      | apply first_lesson_at_0 | reflexivity ].
Defined.

Lemma handleFileChange_failed_upload_witness :
  lesson_panel_of
    (handleFileChange refusing_env (Some [mp4]) "6f1c2a7e-0001" "9b3d-01"
       (sample_editor "t-1")).1
    (sample_lesson "9b3d-01" "L1" 0)
  = ProgressPanel 0 error.
Proof.
  destruct (handleFileChange_failed_upload refusing_env mp4 []
              "6f1c2a7e-0001" "9b3d-01" (sample_editor "t-1")
              "The resource already exists")
    as (_ & _ & _ & _ & Hpanel); [discriminate | by left | reflexivity |].
  by apply Hpanel.
Defined.

Lemma upload_path_has_five_segments_witness :
  exists stored,
    head (handleFileChange sample_env (Some [mp4]) "6f1c2a7e-0001" "9b3d-01"
            (sample_editor "t-1")).2
    = Some (storage_upload "lesson-files" stored mp4) /\
    split_on "/" stored
    = [ "t-1"; "c0ffee00-0000"; "6f1c2a7e-0001"; "9b3d-01"; "0a0b0c0d.mp4" ].
Proof.
  destruct (upload_path_has_five_segments sample_env mp4 []
              "6f1c2a7e-0001" "9b3d-01" (sample_editor "t-1"))
    as (stored & Hhead & Hsplit & _);
    [discriminate | by left | reflexivity..|].
  exists stored. split; [exact Hhead | rewrite Hsplit; reflexivity].
Defined.

End UploadPaths.

(** ** The player: from lesson to lesson *)

Section LessonNavigation.
Import Types Navigation.

Lemma first_index_Some {A} (p : A -> bool) l i :
  first_index p l = Some i ->
  exists x, l !! i = Some x /\ p x = true /\
            forall j y, (j < i)%nat -> l !! j = Some y -> p y = false.
Proof.
  revert i. induction l as [| x l IH]; intros i; simpl; [done |].
  destruct (p x) eqn:Hx.
  - intros [= <-]. exists x. split_and!; [done | done | intros; lia].
  - destruct (first_index p l) as [i' |]; [| done].
    intros [= <-]. destruct (IH i' eq_refl) as (y & Hy & Hpy & Hbefore).
    exists y. split_and!; [done | done |].
    intros [| j] z Hj Hz; simpl in Hz; [by injection Hz as <- |].
    apply (Hbefore j); [lia | done].
Qed.

Lemma first_index_None {A} (p : A -> bool) l :
  first_index p l = None -> forall x, x ∈ l -> p x = false.
Proof.
  induction l as [| x l IH]; simpl; [intros _ y Hy; by apply elem_of_nil in Hy |].
  destruct (p x) eqn:Hx; [done |].
  destruct (first_index p l); [done |]. intros _ y Hy.
  apply elem_of_cons in Hy as [-> | Hy]; [done | by apply IH].
Qed.

(** With distinct ids, the index found for a lesson of the list is its
    index. *)
Lemma findIndex_of_element (lessons : list Lesson) i current :
  NoDup (lesson_id <$> lessons) ->
  lessons !! i = Some current ->
  findIndex (fun l => String.eqb (lesson_id l) (lesson_id current)) lessons
  = Z.of_nat i.
Proof.
  intros Hnd Hi. unfold findIndex.
  destruct (first_index _ lessons) as [j |] eqn:Hj.
  - apply first_index_Some in Hj as (x & Hx & Heq & _).
    apply String.eqb_eq in Heq. f_equal.
    eapply NoDup_lookup; [exact Hnd | |];
      rewrite list_lookup_fmap; [rewrite Hx | rewrite Hi]; simpl;
      by rewrite ?Heq.
  - eapply first_index_None in Hj; [| by eapply list_elem_of_lookup_2].
    by rewrite String.eqb_refl in Hj.
Qed.

Lemma element_of_nat {A} (l : list A) (i : nat) : element l (Z.of_nat i) = l !! i.
Proof.
  unfold element. destruct (Z.ltb_spec (Z.of_nat i) 0); [lia |].
  by rewrite Nat2Z.id.
Qed.

(** The player starts on the first lesson of the course, and on none when
    the course has no lesson.  Wherever it is, also on a lesson that the
    course does not have, [navigateLesson] ends on the lesson it started
    on or on a lesson of the course; without a current lesson it does
    nothing, so the player of a course without lessons never gets one. *)
Theorem navigateLesson_stays_in_course course d current :
  initialLesson course = head (allLessons course) /\
  navigateLesson course d None = None /\
  exists l, navigateLesson course d (Some current) = Some l /\
            (l = current \/ l ∈ allLessons course).
Proof.
  split; [unfold initialLesson; by destruct (allLessons course) |].
  split; [done |]. unfold navigateLesson.
  set (lessons := allLessons course).
  set (idx := findIndex _ lessons).
  assert (Hidx : (-1 <= idx < Z.of_nat (length lessons))%Z).
  { unfold idx, findIndex.
    destruct (first_index _ lessons) as [j |] eqn:Hj; [| lia].
    apply first_index_Some in Hj as (x & Hx & _).
    apply lookup_lt_Some in Hx. lia. }
  destruct d.
  - destruct (Z.ltb_spec idx (Z.of_nat (length lessons) - 1)); [| eauto].
    unfold element. destruct (Z.ltb_spec (idx + 1) 0); [lia |].
    destruct (lookup_lt_is_Some_2 lessons (Z.to_nat (idx + 1))) as [l Hl];
      [lia |].
    exists l. split; [done |]. right. by eapply list_elem_of_lookup_2.
  - destruct (Z.ltb_spec 0 idx); [| eauto].
    unfold element. destruct (Z.ltb_spec (idx - 1) 0); [lia |].
    destruct (lookup_lt_is_Some_2 lessons (Z.to_nat (idx - 1))) as [l Hl];
      [lia |].
    exists l. split; [done |]. right. by eapply list_elem_of_lookup_2.
Qed.

(** In a course whose lessons have distinct ids, [navigateLesson] moves
    by one place in the flattened list of lessons (the last lesson of a
    module is followed by the first of the next), stays on the last lesson
    for [next] and on the first for [prev], which are the two cases in
    which the button is disabled; and [prev] undoes [next]. *)
Theorem navigateLesson_moves_one_place course i current :
  NoDup (lesson_id <$> allLessons course) ->
  allLessons course !! i = Some current ->
  navigateLesson course next (Some current)
  = Some (default current (allLessons course !! S i)) /\
  navigateLesson course prev (Some current)
  = Some (default current (allLessons course !! pred i)) /\
  (next_disabled course current = true <-> S i = length (allLessons course)) /\
  (prev_disabled course current = true <-> i = 0%nat) /\
  (forall following,
     allLessons course !! S i = Some following ->
     navigateLesson course prev (navigateLesson course next (Some current))
     = Some current).
Proof.
  intros Hnd Hi.
  pose proof (lookup_lt_Some _ _ _ Hi) as Hlen.
  assert (Hnext : navigateLesson course next (Some current)
                  = Some (default current (allLessons course !! S i))).
  { unfold navigateLesson. rewrite (findIndex_of_element _ _ _ Hnd Hi).
    destruct (Z.ltb_spec (Z.of_nat i) (Z.of_nat (length (allLessons course)) - 1)).
    - replace (Z.of_nat i + 1)%Z with (Z.of_nat (S i)) by lia.
      rewrite element_of_nat.
      destruct (lookup_lt_is_Some_2 (allLessons course) (S i)) as [l ->];
        [lia | done].
    - rewrite lookup_ge_None_2 by lia. done. }
  assert (Hprev : forall j l,
            allLessons course !! j = Some l ->
            navigateLesson course prev (Some l)
            = Some (default l (allLessons course !! pred j))).
  { intros j l Hj. unfold navigateLesson.
    rewrite (findIndex_of_element _ _ _ Hnd Hj).
    destruct (Z.ltb_spec 0 (Z.of_nat j)).
    - replace (Z.of_nat j - 1)%Z with (Z.of_nat (pred j)) by lia.
      rewrite element_of_nat.
      destruct (lookup_lt_is_Some_2 (allLessons course) (pred j)) as [l' ->];
        [apply lookup_lt_Some in Hj; lia | done].
    - assert (j = 0%nat) as -> by lia. cbn [pred]. by rewrite Hj. }
  split_and!.
  - exact Hnext.
  - by apply Hprev.
  - unfold next_disabled. rewrite (findIndex_of_element _ _ _ Hnd Hi).
    rewrite Z.eqb_eq. lia.
  - unfold prev_disabled. rewrite (findIndex_of_element _ _ _ Hnd Hi).
    rewrite Z.eqb_eq. lia.
  - intros following Hfollowing. rewrite Hnext, Hfollowing.
    change (default current (Some following)) with following.
    rewrite (Hprev (S i) following Hfollowing). cbn [pred]. by rewrite Hi.
Qed.

Lemma navigateLesson_moves_one_place_witness :
  navigateLesson Dashboard.half_done_course next
    (Some {| lesson_id := "l1"; lesson_title := "a"; lesson_content := None;
             lesson_order := 0 |})
  = Some {| lesson_id := "l2"; lesson_title := "b"; lesson_content := None;
            lesson_order := 1 |}.
Proof.
  apply (navigateLesson_moves_one_place Dashboard.half_done_course 0).
  - apply (bool_decide_unpack _). vm_compute. reflexivity.
  - reflexivity.
Defined.

End LessonNavigation.

(** ** The save of migration 12: who, and what it keeps *)

Section SaveCallers.
Import Db Migration12 Scenario.

(** A caller who is signed in and is not the [teacher_id] of the payload
    gets the error and changes nothing, on the example. *)
Lemma migration12_rejects_other_user_witness :
  save_course_with_children (as_user 2) emptied_course scenario_db
  = Err insufficient_privilege /\
  rpc (as_user 2) emptied_course scenario_db
  = (scenario_db, Some insufficient_privilege).
Proof.
  apply (migration12_rejects_other_user (as_user 2) emptied_course scenario_db 2);
    [reflexivity | discriminate].
Defined.

Lemma upsert_course_same_now ctx ctx' c db :
  now ctx' = now ctx -> upsert_course ctx' c db = upsert_course ctx c db.
Proof. intros Hnow. unfold upsert_course. by rewrite Hnow. Qed.

Lemma upsert_module_same_now ctx ctx' co m db :
  now ctx' = now ctx -> upsert_module ctx' co m db = upsert_module ctx co m db.
Proof. intros Hnow. unfold upsert_module. by rewrite Hnow. Qed.

Lemma upsert_lesson_same_now ctx ctx' mo l db :
  now ctx' = now ctx -> upsert_lesson ctx' mo l db = upsert_lesson ctx mo l db.
Proof. intros Hnow. unfold upsert_lesson. by rewrite Hnow. Qed.

(** The check compares [teacher_id_val] with [auth.uid()] by [!=] and
    tests only [teacher_id_val] for NULL.  For a caller without a user (a
    request with the anon key: the function is [SECURITY DEFINER] and
    nothing revokes its execution) the comparison is NULL and the check
    passes: the call does what the call of the teacher named in the
    payload does at the same time, for every payload that names one. *)
Theorem call_without_user_is_the_owners_call ctx ctx' course_data db teacher :
  auth_uid ctx = None ->
  auth_uid ctx' = Some teacher ->
  cj_teacher_id course_data = Some teacher ->
  now ctx = now ctx' ->
  save_course_with_children ctx course_data db
  = save_course_with_children ctx' course_data db /\
  rpc ctx course_data db = rpc ctx' course_data db.
Proof.
  intros Hnone Hsome Hteacher Hnow.
  assert (Hsave : save_course_with_children ctx course_data db
                  = save_course_with_children ctx' course_data db).
  { unfold save_course_with_children, check_owner.
    rewrite Hteacher, Hnone, Hsome, decide_True by done. simpl.
    rewrite (upsert_course_same_now ctx' ctx) by done.
    destruct (upsert_course ctx' course_data db) as [db1 | e]; [simpl | done].
    assert (Hloop : forall d,
              for_each
                (fun module_json db =>
                   db ← upsert_module ctx (cj_id course_data) module_json db;
                   db ← for_each (upsert_lesson ctx (mj_id module_json))
                                 (mj_lessons module_json) db;
                   Ok (delete_lessons_not_in (mj_id module_json)
                         (lj_id <$> mj_lessons module_json) db))
                (cj_modules course_data) d
              = for_each
                  (fun module_json db =>
                     db ← upsert_module ctx' (cj_id course_data) module_json db;
                     db ← for_each (upsert_lesson ctx' (mj_id module_json))
                                   (mj_lessons module_json) db;
                     Ok (delete_lessons_not_in (mj_id module_json)
                           (lj_id <$> mj_lessons module_json) db))
                  (cj_modules course_data) d).
    { intros d. apply for_each_ext. intros m d'.
      rewrite (upsert_module_same_now ctx' ctx) by done.
      destruct (upsert_module ctx' _ m d') as [d2 | e]; [simpl | done].
      erewrite for_each_ext; [reflexivity |].
      intros l d3. by apply upsert_lesson_same_now. }
    by rewrite Hloop. }
  split; [exact Hsave |]. unfold rpc. by rewrite Hsave.
Qed.

Lemma call_without_user_is_the_owners_call_witness :
  rpc anonymous emptied_course scenario_db
  = rpc (as_user 1) emptied_course scenario_db.
Proof.
  apply (call_without_user_is_the_owners_call anonymous (as_user 1)
           emptied_course scenario_db 1); reflexivity.
Defined.

(** The check compares the caller with the [teacher_id] of the payload,
    not with the [teacher_id] of the stored course, and the upsert of an
    existing course leaves its [teacher_id] as it is.  So for a course
    that exists, a signed-in caller who puts the own id in the payload
    gets through, and the call does what the call of any other user with
    that user's id in the payload does at the same time: the owner of the
    course among them. *)
Theorem save_checks_the_payload_not_the_stored_owner
    ctx ctx' course_data db cid row caller owner :
  cj_id course_data = Some cid ->
  courses db !! cid = Some row ->
  auth_uid ctx = Some caller ->
  auth_uid ctx' = Some owner ->
  now ctx = now ctx' ->
  save_course_with_children ctx (Integrity.claimed_by caller course_data) db
  = save_course_with_children ctx' (Integrity.claimed_by owner course_data) db.
Proof.
  intros Hcid Hrow Hcaller Howner Hnow.
  unfold save_course_with_children, check_owner. simpl.
  rewrite Hcaller, Howner, !decide_True by done. simpl.
  assert (Hcourse : upsert_course ctx (Integrity.claimed_by caller course_data) db
                    = upsert_course ctx' (Integrity.claimed_by owner course_data) db).
  { unfold upsert_course. simpl. rewrite Hcid. simpl.
    destruct (cj_title course_data); [simpl | done].
    destruct (cj_description course_data); [simpl | done].
    destruct (cj_category course_data); [simpl | done].
    destruct (cj_is_published course_data); [simpl | done].
    by rewrite Hrow. }
  rewrite Hcourse.
  destruct (upsert_course ctx' _ db) as [db1 | e]; [simpl | done].
  assert (Hloop : forall d,
            for_each
              (fun module_json db =>
                 db ← upsert_module ctx (cj_id course_data) module_json db;
                 db ← for_each (upsert_lesson ctx (mj_id module_json))
                               (mj_lessons module_json) db;
                 Ok (delete_lessons_not_in (mj_id module_json)
                       (lj_id <$> mj_lessons module_json) db))
              (cj_modules course_data) d
            = for_each
                (fun module_json db =>
                   db ← upsert_module ctx' (cj_id course_data) module_json db;
                   db ← for_each (upsert_lesson ctx' (mj_id module_json))
                                 (mj_lessons module_json) db;
                   Ok (delete_lessons_not_in (mj_id module_json)
                         (lj_id <$> mj_lessons module_json) db))
                (cj_modules course_data) d).
  { intros d. apply for_each_ext. intros m d'.
    rewrite (upsert_module_same_now ctx' ctx) by done.
    destruct (upsert_module ctx' _ m d') as [d2 | e]; [simpl | done].
    erewrite for_each_ext; [reflexivity |].
    intros l d3. by apply upsert_lesson_same_now. }
  by rewrite Hloop.
Qed.

Lemma save_checks_the_payload_not_the_stored_owner_witness :
  save_course_with_children (as_user 2)
    (Integrity.claimed_by 2 emptied_course) scenario_db
  = save_course_with_children (as_user 1)
      (Integrity.claimed_by 1 emptied_course) scenario_db /\
  exists db', save_course_with_children (as_user 2)
                (Integrity.claimed_by 2 emptied_course) scenario_db = Ok db' /\
              modules db' = ∅.
Proof.
  split.
  - apply (save_checks_the_payload_not_the_stored_owner (as_user 2) (as_user 1)
             emptied_course scenario_db 10 (stored_course 1 "Course C") 2 1);
      reflexivity.
  - eexists. split; [vm_compute; reflexivity | reflexivity].
Defined.

End SaveCallers.

(** ** What a save reaches, and what it leaves alone *)

Section SaveReach.
Import Db Migration12 Integrity.
Context (ctx : session).

(** *** Progress rows under the two deletes *)

Lemma elem_of_progress_delete_lessons P `{!forall x, Decision (P x)} db p :
  p ∈ progress (delete_lessons P db) <->
  p ∈ progress db /\
  ~ (exists row, lessons db !! p_lesson_id p = Some row /\ P (p_lesson_id p, row)).
Proof.
  unfold delete_lessons. simpl. rewrite list_elem_of_filter.
  rewrite map_lookup_filter_None. split.
  - intros [Hgone Hin]. split; [done |]. intros (row & Hrow & HP).
    destruct Hgone as [Hnone | Hnot]; [congruence | by eapply Hnot].
  - intros [Hin Hnot]. split; [| done].
    destruct (lessons db !! p_lesson_id p) as [row |] eqn:Hrow; [| by left].
    right. intros row' [= <-] HP. apply Hnot. by exists row.
Qed.

Lemma elem_of_progress_delete_lessons_not_in mo ids db p :
  p ∈ progress (delete_lessons_not_in mo ids db) <->
  p ∈ progress db /\
  ~ (exists row, lessons db !! p_lesson_id p = Some row /\
                 mo = Some (l_module_id row) /\ sql_not_in (p_lesson_id p) ids).
Proof.
  unfold delete_lessons_not_in. destruct mo as [mid |].
  - rewrite elem_of_progress_delete_lessons. simpl. naive_solver.
  - naive_solver.
Qed.

Lemma elem_of_progress_delete_modules_not_in co ids db p :
  p ∈ progress (delete_modules_not_in co ids db) <->
  p ∈ progress db /\
  ~ (exists lrow mrow,
       lessons db !! p_lesson_id p = Some lrow /\
       modules db !! l_module_id lrow = Some mrow /\
       co = Some (m_course_id mrow) /\ sql_not_in (l_module_id lrow) ids).
Proof.
  unfold delete_modules_not_in. destruct co as [cid |].
  - unfold delete_modules. rewrite elem_of_progress_delete_lessons. simpl.
    unfold is_Some. setoid_rewrite map_lookup_filter_Some. simpl.
    naive_solver.
  - naive_solver.
Qed.

(** No statement adds or rewrites a progress row. *)
Lemma exec_progress_sublist s db db' :
  exec ctx s db = Ok db' -> progress db' `sublist_of` progress db.
Proof.
  intros Hexec.
  destruct s as [t | c | co m | mo l | mo ids | co ids]; simpl in Hexec.
  - by apply check_owner_Ok in Hexec as ->.
  - apply upsert_course_Ok in Hexec
      as (? & ? & ? & ? & ? & ? & _ & _ & _ & _ & _ & _ &
          [(? & _ & ->) | (_ & _ & ->)]); done.
  - apply upsert_module_Ok in Hexec
      as (? & ? & ? & ? & _ & _ & _ & _ & [(? & _ & ->) | (_ & _ & ->)]); done.
  - apply upsert_lesson_Ok in Hexec
      as (? & ? & ? & ? & ? & _ & _ & _ & _ & _ &
          [(? & _ & ->) | (_ & _ & ->)]); done.
  - injection Hexec as <-. unfold delete_lessons_not_in.
    destruct mo; [apply sublist_filter | done].
  - injection Hexec as <-. unfold delete_modules_not_in.
    destruct co; [apply sublist_filter | done].
Qed.

Lemma run_progress_sublist ss db db' :
  run ctx ss db = Ok db' -> progress db' `sublist_of` progress db.
Proof.
  intros Hrun.
  apply (run_preserves ctx (fun d => progress d `sublist_of` progress db)
           (fun _ => True)) with (ss := ss) (db := db);
    [| by apply Forall_true | done | done].
  intros s d d' _ Hexec Hsub. etrans; [by eapply exec_progress_sublist | done].
Qed.

Lemma exec_profiles s db db' : exec ctx s db = Ok db' -> profiles db' = profiles db.
Proof.
  intros Hexec.
  destruct s as [t | c | co m | mo l | mo ids | co ids]; simpl in Hexec.
  - by apply check_owner_Ok in Hexec as ->.
  - apply upsert_course_Ok in Hexec
      as (? & ? & ? & ? & ? & ? & _ & _ & _ & _ & _ & _ &
          [(? & _ & ->) | (_ & _ & ->)]); done.
  - apply upsert_module_Ok in Hexec
      as (? & ? & ? & ? & _ & _ & _ & _ & [(? & _ & ->) | (_ & _ & ->)]); done.
  - apply upsert_lesson_Ok in Hexec
      as (? & ? & ? & ? & ? & _ & _ & _ & _ & _ &
          [(? & _ & ->) | (_ & _ & ->)]); done.
  - injection Hexec as <-. by destruct mo.
  - injection Hexec as <-. by destruct co.
Qed.

(** *** A lesson that stays, with the progress on it *)

(** A lesson stored under [mid], and a progress row on it, outlast every
    statement that cannot delete the lesson: an upsert of the lesson
    leaves it where it is. *)
Lemma exec_spares_lesson s db db' lid mid p :
  spares_lesson lid mid s -> exec ctx s db = Ok db' ->
  (exists row, lessons db !! lid = Some row /\ l_module_id row = mid) ->
  p ∈ progress db -> p_lesson_id p = lid ->
  (exists row, lessons db' !! lid = Some row /\ l_module_id row = mid) /\
  p ∈ progress db'.
Proof.
  intros Hs Hexec (row & Hrow & Hmid) Hp Hlid.
  destruct s as [t | c | co m | mo l | mo ids | co ids]; simpl in Hexec, Hs.
  - apply check_owner_Ok in Hexec as ->. eauto.
  - apply upsert_course_Ok in Hexec
      as (? & ? & ? & ? & ? & ? & _ & _ & _ & _ & _ & _ &
          [(? & _ & ->) | (_ & _ & ->)]); eauto.
  - apply upsert_module_Ok in Hexec
      as (? & ? & ? & ? & _ & _ & _ & _ & [(? & _ & ->) | (_ & _ & ->)]); eauto.
  - apply upsert_lesson_Ok in Hexec
      as (id & ? & ? & ? & ? & _ & _ & _ & _ & _ &
          [(old & Hold & ->) | (Hnone & _ & ->)]); simpl; (split; [| done]).
    + destruct (decide (id = lid)) as [-> | Hne].
      * rewrite lookup_insert_eq. eexists. split; [done |]. simpl. congruence.
      * rewrite lookup_insert_ne by done. eauto.
    + rewrite lookup_insert_ne by congruence. eauto.
  - injection Hexec as <-. split.
    + exists row. split; [| done]. apply lookup_delete_lessons_not_in.
      split; [done |]. intros [-> [_ Hnotin]].
      destruct Hs as [? | ?]; [congruence | done].
    + apply elem_of_progress_delete_lessons_not_in. split; [done |].
      rewrite Hlid. intros (row' & Hrow' & -> & _ & Hnotin).
      assert (row' = row) as -> by congruence.
      destruct Hs as [? | ?]; [congruence | done].
  - injection Hexec as <-. split.
    + exists row. split; [| done]. apply lookup_lessons_delete_modules_not_in.
      split; [done |]. intros (mrow & _ & _ & _ & Hnotin). congruence.
    + apply elem_of_progress_delete_modules_not_in. split; [done |].
      rewrite Hlid. intros (lrow & mrow & Hrow' & _ & _ & _ & Hnotin).
      assert (lrow = row) as -> by congruence. congruence.
Qed.

Lemma same_id_same_module c m m' :
  NoDup (module_ids c) -> m ∈ cj_modules c -> m' ∈ cj_modules c ->
  mj_id m' = mj_id m -> m' = m.
Proof.
  unfold module_ids. intros Hnd Hm Hm' Hid.
  apply list_elem_of_lookup_1 in Hm as [i Hi].
  apply list_elem_of_lookup_1 in Hm' as [j Hj].
  assert (j = i) as ->; [| congruence].
  apply (NoDup_lookup _ j i (mj_id m) Hnd); rewrite list_lookup_fmap;
    [rewrite Hj; simpl; by rewrite Hid | by rewrite Hi].
Qed.

Lemma save_spares_listed_lesson c m l mid lid :
  NoDup (module_ids c) ->
  m ∈ cj_modules c -> l ∈ mj_lessons m ->
  mj_id m = Some mid -> lj_id l = Some lid ->
  Forall (spares_lesson lid mid) (save_stmts c).
Proof.
  intros Hnd Hm Hl Hmid Hlid. unfold save_stmts.
  repeat (apply Forall_cons; split; [done |]).
  apply Forall_app. split.
  - apply Forall_bind_module_stmts. intros m' Hm'.
    apply Forall_module_stmts. simpl. split_and!; [done | by apply Forall_true |].
    destruct (decide (mj_id m' = Some mid)) as [Heq | Hne]; [| by left].
    right. rewrite <- Hmid in Heq.
    rewrite (same_id_same_module _ _ _ Hnd Hm Hm' Heq).
    unfold lesson_ids. rewrite <- Hlid. by apply list_elem_of_fmap_2.
  - apply Forall_singleton. simpl. unfold module_ids.
    rewrite <- Hmid. by apply list_elem_of_fmap_2.
Qed.

(** A save does not lose the progress of the students on a lesson that
    stays.  For a payload with distinct module ids that lists a stored
    lesson under the module it is stored in, every progress row on that
    lesson is there after the call; and no call adds a progress row or
    changes one: the rows afterwards are rows from before, in their
    order. *)
Theorem save_keeps_progress_on_listed_lessons
    course_data db db' m l mid lid row :
  save_course_with_children ctx course_data db = Ok db' ->
  NoDup (module_ids course_data) ->
  m ∈ cj_modules course_data -> l ∈ mj_lessons m ->
  mj_id m = Some mid -> lj_id l = Some lid ->
  lessons db !! lid = Some row -> l_module_id row = mid ->
  progress db' `sublist_of` progress db /\
  (forall p, p ∈ progress db -> p_lesson_id p = lid -> p ∈ progress db').
Proof.
  rewrite save_as_statements. intros Hrun Hnd Hm Hl Hmid Hlid Hrow Hunder.
  split; [by eapply run_progress_sublist |].
  intros p Hp Hplid.
  pose proof (save_spares_listed_lesson _ _ _ _ _ Hnd Hm Hl Hmid Hlid) as Hall.
  eapply proj2.
  apply (run_preserves ctx
           (fun d => (exists r, lessons d !! lid = Some r /\ l_module_id r = mid)
                     /\ p ∈ progress d)
           (spares_lesson lid mid)) with (ss := save_stmts course_data) (db := db);
    [| done | done | by eauto].
  intros s d d' Hs Hexec [Hlesson Hin]. by eapply exec_spares_lesson.
Qed.

(** *** Rows of other courses *)

Lemma exec_passes_by s db db' cid mid lid mrow lrow (kept : list progress_row) :
  passes_module cid mid s -> passes_lesson mid lid s ->
  exec ctx s db = Ok db' ->
  m_course_id mrow <> cid -> l_module_id lrow = mid ->
  modules db !! mid = Some mrow /\ lessons db !! lid = Some lrow /\
  (forall p, p ∈ kept -> p_lesson_id p = lid -> p ∈ progress db) ->
  modules db' !! mid = Some mrow /\ lessons db' !! lid = Some lrow /\
  (forall p, p ∈ kept -> p_lesson_id p = lid -> p ∈ progress db').
Proof.
  intros Hm Hl Hexec Hcourse Hunder (Hmrow & Hlrow & Hkept).
  destruct s as [t | c | co m | mo l | mo ids | co ids];
    simpl in Hexec, Hm, Hl.
  - by apply check_owner_Ok in Hexec as ->.
  - apply upsert_course_Ok in Hexec
      as (? & ? & ? & ? & ? & ? & _ & _ & _ & _ & _ & _ &
          [(? & _ & ->) | (_ & _ & ->)]); done.
  - apply upsert_module_Ok in Hexec
      as (id & ? & ? & ? & Hid & _ & _ & _ & [(? & _ & ->) | (_ & _ & ->)]);
      simpl; (split_and!; [| done | done]);
      rewrite lookup_insert_ne; congruence.
  - apply upsert_lesson_Ok in Hexec
      as (id & ? & ? & ? & ? & Hid & _ & _ & _ & _ &
          [(? & _ & ->) | (_ & _ & ->)]);
      simpl; (split_and!; [done | | done]);
      rewrite lookup_insert_ne; congruence.
  - injection Hexec as <-. split_and!.
    + by rewrite modules_delete_lessons_not_in.
    + apply lookup_delete_lessons_not_in. split; [done |].
      intros [-> _]. congruence.
    + intros p Hp Hlid. apply elem_of_progress_delete_lessons_not_in.
      split; [by apply Hkept |]. rewrite Hlid.
      intros (row' & Hrow' & -> & _). congruence.
  - injection Hexec as <-. subst co. split_and!.
    + apply lookup_modules_delete_modules_not_in. split; [done |].
      intros [[= Heq] _]. congruence.
    + apply lookup_lessons_delete_modules_not_in. split; [done |].
      intros (mrow' & Hmrow' & [= Heq] & _). congruence.
    + intros p Hp Hlid. apply elem_of_progress_delete_modules_not_in.
      split; [by apply Hkept |]. rewrite Hlid.
      intros (lrow' & mrow' & Hlrow' & Hmrow' & [= Heq] & _). congruence.
Qed.

Lemma exec_passes_module s db db' cid mid mrow :
  passes_module cid mid s -> exec ctx s db = Ok db' ->
  m_course_id mrow <> cid ->
  modules db !! mid = Some mrow -> modules db' !! mid = Some mrow.
Proof.
  intros Hm Hexec Hcourse Hmrow.
  destruct s as [t | c | co m | mo l | mo ids | co ids]; simpl in Hexec, Hm.
  - by apply check_owner_Ok in Hexec as ->.
  - apply upsert_course_Ok in Hexec
      as (? & ? & ? & ? & ? & ? & _ & _ & _ & _ & _ & _ &
          [(? & _ & ->) | (_ & _ & ->)]); done.
  - apply upsert_module_Ok in Hexec
      as (id & ? & ? & ? & Hid & _ & _ & _ & [(? & _ & ->) | (_ & _ & ->)]);
      simpl; rewrite lookup_insert_ne; congruence.
  - apply upsert_lesson_Ok in Hexec
      as (? & ? & ? & ? & ? & _ & _ & _ & _ & _ &
          [(? & _ & ->) | (_ & _ & ->)]); done.
  - injection Hexec as <-. by rewrite modules_delete_lessons_not_in.
  - injection Hexec as <-. subst co.
    apply lookup_modules_delete_modules_not_in. split; [done |].
    intros [[= Heq] _]. congruence.
Qed.

Lemma save_passes_module c cid mid :
  cj_id c = Some cid -> Some mid ∉ module_ids c ->
  Forall (passes_module cid mid) (save_stmts c).
Proof.
  intros Hcid Hout. unfold save_stmts.
  repeat (apply Forall_cons; split; [done |]).
  apply Forall_app. split; [| by apply Forall_singleton].
  apply Forall_bind_module_stmts. intros m Hm.
  apply Forall_module_stmts. simpl. split_and!; [| by apply Forall_true | done].
  intros Heq. apply Hout. unfold module_ids. rewrite <- Heq.
  by apply list_elem_of_fmap_2.
Qed.

Lemma save_passes_lesson c mid lid :
  Some mid ∉ module_ids c -> Some lid ∉ tree_lesson_ids c ->
  Forall (passes_lesson mid lid) (save_stmts c).
Proof.
  intros Hmid Hlid. unfold save_stmts.
  repeat (apply Forall_cons; split; [done |]).
  apply Forall_app. split; [| by apply Forall_singleton].
  apply Forall_bind_module_stmts. intros m Hm.
  apply Forall_module_stmts. simpl. split_and!; [done | |].
  - apply Forall_forall. intros l Hl Heq. apply Hlid.
    unfold tree_lesson_ids. apply list_elem_of_bind. exists m.
    split; [| done]. unfold lesson_ids. rewrite <- Heq.
    by apply list_elem_of_fmap_2.
  - intros Heq. apply Hmid. unfold module_ids. rewrite <- Heq.
    by apply list_elem_of_fmap_2.
Qed.

(** A save of the course [cid] writes to the row of that course and to
    the rows the payload names, and deletes under that course and under
    the modules the payload names.  Everything else is as before: the
    profiles, the rows of the other courses, every module of another
    course whose id the payload does not carry, and under such a module
    every lesson whose id the payload does not carry, with the progress
    rows on it. *)
Theorem save_leaves_other_courses_alone course_data db db' cid :
  save_course_with_children ctx course_data db = Ok db' ->
  cj_id course_data = Some cid ->
  profiles db' = profiles db /\
  (forall other, other <> cid -> courses db' !! other = courses db !! other) /\
  (forall mid mrow,
     modules db !! mid = Some mrow -> m_course_id mrow <> cid ->
     Some mid ∉ module_ids course_data ->
     modules db' !! mid = Some mrow /\
     forall lid lrow,
       lessons db !! lid = Some lrow -> l_module_id lrow = mid ->
       Some lid ∉ tree_lesson_ids course_data ->
       lessons db' !! lid = Some lrow /\
       forall p, p ∈ progress db -> p_lesson_id p = lid -> p ∈ progress db').
Proof.
  intros Hsave Hcid. pose proof Hsave as Hrun.
  rewrite save_as_statements in Hrun. split_and!.
  - apply (run_preserves ctx (fun d => profiles d = profiles db) (fun _ => True))
      with (ss := save_stmts course_data) (db := db);
      [| by apply Forall_true | done | done].
    intros s d d' _ Hexec <-. by eapply exec_profiles.
  - intros other Hother. unfold save_stmts in Hrun.
    apply run_cons_Ok in Hrun as (d1 & Hcheck & Hrun).
    apply run_cons_Ok in Hrun as (d2 & Hupc & Hrun).
    simpl in Hcheck, Hupc. apply check_owner_Ok in Hcheck as ->.
    assert (Hrest : courses db' = courses d2).
    { eapply (run_keeps_courses ctx); [| exact Hrun].
      apply Forall_app. split; [apply modules_keep_courses |].
      by apply Forall_singleton. }
    rewrite Hrest.
    apply upsert_course_Ok in Hupc
      as (id & ? & ? & ? & ? & ? & Hid & _ & _ & _ & _ & _ &
          [(? & _ & ->) | (_ & _ & ->)]);
      simpl; rewrite lookup_insert_ne; congruence.
  - intros mid mrow Hmrow Hcourse Hmid. split.
    + apply (run_preserves ctx (fun d => modules d !! mid = Some mrow)
               (passes_module cid mid))
        with (ss := save_stmts course_data) (db := db);
        [| by apply save_passes_module | done | done].
      intros s d d' Hs Hexec Hd. by eapply exec_passes_module.
    + intros lid lrow Hlrow Hunder Hlid.
      assert (Hinv : modules db' !! mid = Some mrow /\
                     lessons db' !! lid = Some lrow /\
                     (forall p, p ∈ progress db -> p_lesson_id p = lid ->
                        p ∈ progress db')).
      { apply (run_preserves ctx
                 (fun d => modules d !! mid = Some mrow /\
                           lessons d !! lid = Some lrow /\
                           (forall p, p ∈ progress db -> p_lesson_id p = lid ->
                              p ∈ progress d))
                 (fun s => passes_module cid mid s /\ passes_lesson mid lid s))
          with (ss := save_stmts course_data) (db := db);
          [| | done | by split_and!].
        - intros s d d' [Hs1 Hs2] Hexec Hd. by eapply exec_passes_by.
        - apply Forall_and. split;
            [by apply save_passes_module | by apply save_passes_lesson]. }
      destruct Hinv as (_ & ? & ?). by split.
Qed.

(** *** Modules the payload names *)

Lemma exec_spares_module s db db' cid mid :
  spares_module cid mid s -> exec ctx s db = Ok db' ->
  (exists row, modules db !! mid = Some row /\ m_course_id row = cid) ->
  exists row, modules db' !! mid = Some row /\ m_course_id row = cid.
Proof.
  intros Hs Hexec (row & Hrow & Hcourse).
  destruct s as [t | c | co m | mo l | mo ids | co ids]; simpl in Hexec, Hs.
  - apply check_owner_Ok in Hexec as ->. eauto.
  - apply upsert_course_Ok in Hexec
      as (? & ? & ? & ? & ? & ? & _ & _ & _ & _ & _ & _ &
          [(? & _ & ->) | (_ & _ & ->)]); eauto.
  - apply upsert_module_Ok in Hexec
      as (id & ? & ? & ? & _ & _ & _ & _ &
          [(old & Hold & ->) | (Hnone & _ & ->)]); simpl.
    + destruct (decide (id = mid)) as [-> | Hne].
      * rewrite lookup_insert_eq. eexists. split; [done |]. simpl. congruence.
      * rewrite lookup_insert_ne by done. eauto.
    + rewrite lookup_insert_ne by congruence. eauto.
  - apply upsert_lesson_Ok in Hexec
      as (? & ? & ? & ? & ? & _ & _ & _ & _ & _ &
          [(? & _ & ->) | (_ & _ & ->)]); eauto.
  - injection Hexec as <-. rewrite modules_delete_lessons_not_in. eauto.
  - injection Hexec as <-. exists row. split; [| done].
    apply lookup_modules_delete_modules_not_in. split; [done |].
    intros [-> [_ Hnotin]]. destruct Hs as [? | ?]; [congruence | done].
Qed.

(** The ownership check looks at the course row only.  A module entry of
    the payload is matched to the stored row by its id alone: when a row
    with the id exists, under whatever course, that row gets the title and
    the order of the entry and stays under its course, and every lesson
    stored under it that the entry does not list is deleted.  So the
    owner of one course can rewrite and empty a module of another. *)
Theorem save_reaches_any_module_it_names course_data db db' m mid mrow :
  save_course_with_children ctx course_data db = Ok db' ->
  NoDup (module_ids course_data) ->
  m ∈ cj_modules course_data -> mj_id m = Some mid ->
  modules db !! mid = Some mrow ->
  (exists row,
     modules db' !! mid = Some row /\
     m_course_id row = m_course_id mrow /\ module_row_matches m row) /\
  lessons_within mid (lesson_ids m) db'.
Proof.
  intros Hsave Hnd Hm Hmid Hmrow. split.
  - destruct (save_module_settled ctx _ _ _ _ _ Hsave Hnd Hm Hmid)
      as (row & Hrow & Hmatch).
    exists row. split_and!; [done | | done].
    rewrite save_as_statements in Hsave.
    assert (Hinv : exists r, modules db' !! mid = Some r /\
                             m_course_id r = m_course_id mrow).
    { apply (run_preserves ctx
               (fun d => exists r, modules d !! mid = Some r /\
                                   m_course_id r = m_course_id mrow)
               (spares_module (m_course_id mrow) mid))
        with (ss := save_stmts course_data) (db := db); [| | done | by eauto].
      - intros s d d' Hs Hexec Hd. by eapply exec_spares_module.
      - unfold save_stmts. repeat (apply Forall_cons; split; [done |]).
        apply Forall_app. split.
        + apply Forall_bind_module_stmts. intros m' _.
          apply Forall_module_stmts. simpl.
          split_and!; [done | by apply Forall_true | done].
        + apply Forall_singleton. simpl. right. unfold module_ids.
          rewrite <- Hmid. by apply list_elem_of_fmap_2. }
    destruct Hinv as (r & Hr & Hcourse). congruence.
  - eapply save_lessons_within; [exact Hsave | | exact Hmid].
    by apply distinct_module_is_last.
Qed.

End SaveReach.

Section SaveReachExamples.
Import Db Migration12 Integrity Scenario.

Lemma save_keeps_progress_on_listed_lessons_witness :
  completed 90 3 31 ∈ progress spec_example_after.
Proof.
  apply (save_keeps_progress_on_listed_lessons (as_user 1) spec_example
           scenario_db spec_example_after
           (module_entry 20 "M1" 0
              [ lesson_entry 33 "L3" 0 (Some "pdf");
                lesson_entry 31 "L1" 1 (Some "video") ])
           (lesson_entry 31 "L1" 1 (Some "video")) 20 31
           (stored_lesson 20 "L1" 0 (Some video) 0)).
  - vm_compute. reflexivity.
  - apply (bool_decide_unpack _). vm_compute. reflexivity.
  - simpl. set_solver.
  - simpl. set_solver.
  - reflexivity.
  - reflexivity.
  - vm_compute. reflexivity.
  - reflexivity.
  - simpl. set_solver.
  - reflexivity.
Defined.

Example own_payload_runs :
  save_course_with_children (as_user 2) own_payload two_courses_db
  = Ok own_payload_after.
Proof. vm_compute. reflexivity. Qed.

Example reaching_payload_runs :
  save_course_with_children (as_user 2) reaching_payload two_courses_db
  = Ok reaching_payload_after.
Proof. vm_compute. reflexivity. Qed.

Lemma save_leaves_other_courses_alone_witness :
  modules own_payload_after !! 20%N = Some (stored_module 10 "M1" 0) /\
  lessons own_payload_after !! 31%N
  = Some (stored_lesson 20 "L1" 0 (Some video) 0) /\
  completed 90 3 31 ∈ progress own_payload_after.
Proof.
  destruct (save_leaves_other_courses_alone (as_user 2) own_payload
              two_courses_db own_payload_after 11 own_payload_runs eq_refl)
    as (_ & _ & Hrows).
  destruct (Hrows 20%N (stored_module 10 "M1" 0)) as [Hmodule Hlessons].
  - vm_compute. reflexivity.
  - discriminate.
  - simpl. set_solver.
  - destruct (Hlessons 31%N (stored_lesson 20 "L1" 0 (Some video) 0))
      as [Hlesson Hprogress].
    + vm_compute. reflexivity.
    + reflexivity.
    + simpl. set_solver.
    + split_and!; [done | done |].
      apply Hprogress; [simpl; set_solver | reflexivity].
Defined.

Lemma save_reaches_any_module_it_names_witness :
  (exists row,
     modules reaching_payload_after !! 20%N = Some row /\
     m_course_id row = 10%N /\
     module_row_matches (module_entry 20 "Mine now" 0 []) row) /\
  lessons_within 20 [] reaching_payload_after.
Proof.
  apply (save_reaches_any_module_it_names (as_user 2) reaching_payload
           two_courses_db reaching_payload_after
           (module_entry 20 "Mine now" 0 []) 20 (stored_module 10 "M1" 0)).
  - exact reaching_payload_runs.
  - apply (bool_decide_unpack _). vm_compute. reflexivity.
  - simpl. set_solver.
  - reflexivity.
  - vm_compute. reflexivity.
Defined.

End SaveReachExamples.

(** ** The save of the setup script and the progress of the students *)

Section SetupProgress.
Import Db SetupCompleto Scenario.

Lemma setup_insert_lessons_progress ctx mo ls db db' :
  for_each (insert_lesson ctx mo) ls db = Ok db' -> progress db' = progress db.
Proof.
  revert db. induction ls as [| l ls IH]; intros db; simpl.
  - by intros [= <-].
  - destruct (insert_lesson ctx mo l db) as [d |] eqn:Hl; [simpl | done].
    intros Hrest. rewrite (IH _ Hrest). clear -Hl.
    unfold insert_lesson in Hl.
    repeat match type of Hl with
           | context [?r ≫= _] => destruct r as [? |]; simpl in Hl; [| done]
           end.
    destruct (lessons db !! _); [done |]. case_decide; [| done].
    by injection Hl as <-.
Qed.

Lemma setup_insert_modules_progress ctx co ms db db' :
  for_each
    (fun v_module db =>
       db ← insert_module ctx co v_module db;
       for_each (insert_lesson ctx (mj_id v_module)) (mj_lessons v_module) db)
    ms db = Ok db' ->
  progress db' = progress db.
Proof.
  revert db. induction ms as [| m ms IH]; intros db; simpl.
  - by intros [= <-].
  - destruct (insert_module ctx co m db) as [d |] eqn:Hm; [simpl | done].
    destruct (for_each (insert_lesson ctx (mj_id m)) (mj_lessons m) d)
      as [d' |] eqn:Hls; [simpl | done].
    intros Hrest. rewrite (IH _ Hrest).
    rewrite (setup_insert_lessons_progress _ _ _ _ _ Hls). clear -Hm.
    unfold insert_module in Hm.
    repeat match type of Hm with
           | context [?r ≫= _] => destruct r as [? |]; simpl in Hm; [| done]
           end.
    destruct (modules db !! _); [done |]. case_decide; [| done].
    by injection Hm as <-.
Qed.

(** The function of the setup script deletes every module of the course
    before it inserts the modules of the payload, and the delete cascades
    to the lessons and from there to [progress].  The lessons come back
    with the payload, the progress rows do not: after a call that goes
    through, no progress row on a lesson that was stored under the course
    is left, whether the payload lists the lesson or not. *)
Theorem setup_save_drops_the_progress_of_the_course
    ctx course_data db db' cid p lrow mrow :
  save_course_with_children ctx course_data db = Ok db' ->
  cj_id course_data = Some cid ->
  lessons db !! p_lesson_id p = Some lrow ->
  modules db !! l_module_id lrow = Some mrow ->
  m_course_id mrow = cid ->
  p ∉ progress db'.
Proof.
  unfold save_course_with_children. intros Hsave Hcid Hlrow Hmrow Hcourse.
  destruct (upsert_course ctx course_data db) as [d1 |] eqn:Hup;
    [simpl in Hsave | done].
  apply setup_insert_modules_progress in Hsave. rewrite Hsave.
  assert (Hd1 : modules d1 = modules db /\ lessons d1 = lessons db /\
                progress d1 = progress db).
  { clear -Hup. unfold upsert_course in Hup.
    repeat match type of Hup with
           | context [?r ≫= _] => destruct r as [? |]; simpl in Hup; [| done]
           end.
    destruct (courses db !! _); [by injection Hup as <- |].
    case_decide; [| done]. by injection Hup as <-. }
  destruct Hd1 as (Hmods & Hless & Hprog).
  rewrite Hcid. unfold delete_modules_of, delete_modules, delete_lessons. simpl.
  rewrite list_elem_of_filter. intros [Hgone _].
  rewrite Hless, Hmods in Hgone.
  apply map_lookup_filter_None in Hgone as [Hnone | Hnot]; [congruence |].
  apply (Hnot lrow Hlrow). simpl. exists mrow.
  by apply map_lookup_filter_Some.
Qed.

Lemma setup_save_drops_the_progress_of_the_course_witness :
  completed 90 3 31 ∉ progress taken_over.
Proof.
  apply (setup_save_drops_the_progress_of_the_course (as_user 2) emptied_course
           scenario_db taken_over 10 (completed 90 3 31)
           (stored_lesson 20 "L1" 0 (Some video) 0) (stored_module 10 "M1" 0));
    vm_compute; reflexivity.
Defined.

End SetupProgress.

(** ** A lesson listed under another module *)

Section MovedLesson.
Import Db Migration12 Integrity.
Context (ctx : session).

Lemma exec_leaves_under s db db' lid mid :
  leaves_under mid s -> exec ctx s db = Ok db' ->
  stored_under lid mid db -> stored_under lid mid db'.
Proof.
  intros Hs Hexec (row & Hrow & Hmid). unfold stored_under.
  destruct s as [t | c | co m | mo l | mo ids | co ids]; simpl in Hs, Hexec.
  - apply check_owner_Ok in Hexec as ->. eauto.
  - apply upsert_course_Ok in Hexec
      as (? & ? & ? & ? & ? & ? & _ & _ & _ & _ & _ & _
          & [(? & _ & ->) | (_ & _ & ->)]); eauto.
  - apply upsert_module_Ok in Hexec
      as (? & ? & ? & ? & _ & _ & _ & _ & [(? & _ & ->) | (_ & _ & ->)]); eauto.
  - apply upsert_lesson_Ok in Hexec
      as (id & ? & ? & ? & ? & _ & _ & _ & _ & _
          & [(old & Hold & ->) | (Hnone & _ & ->)]); simpl.
    + destruct (decide (id = lid)) as [-> | Hne].
      * rewrite lookup_insert_eq. eexists. split; [done |]. simpl. congruence.
      * rewrite lookup_insert_ne by done. eauto.
    + rewrite lookup_insert_ne by congruence. eauto.
  - injection Hexec as <-. exists row. split; [| done].
    apply lookup_delete_lessons_not_in. split; [done |].
    intros [Hmo _]. apply Hs. congruence.
  - done.
Qed.

Lemma modules_leave_under mid cid ms :
  Some mid ∉ mj_id <$> ms ->
  Forall (leaves_under mid) (ms ≫= module_stmts cid).
Proof.
  intros Hout. apply Forall_bind_module_stmts. intros m Hm.
  apply Forall_module_stmts. split_and!; [done | by apply Forall_true |].
  simpl. intros Heq. apply Hout. rewrite <- Heq. by apply list_elem_of_fmap_2.
Qed.

Lemma moved_lesson_after_the_call c db db' m1 m2 l mid1 lid :
  save_course_with_children ctx c db = Ok db' ->
  distinct_ids c ->
  m1 ∈ cj_modules c -> mj_id m1 = Some mid1 ->
  m2 ∈ cj_modules c -> l ∈ mj_lessons m2 -> lj_id l = Some lid ->
  mj_id m2 <> Some mid1 ->
  stored_under lid mid1 db ->
  (forall p, p ∈ progress db' -> p_lesson_id p <> lid) /\
  ~ stored_under lid mid1 db'.
Proof.
  intros Hsave [Hmods Hless] Hm1 Hmid1 Hm2 Hl Hlid Hother Hstored.
  assert (Hnot_listed : Some lid ∉ lesson_ids m1).
  { pose proof Hm2 as Hm2'.
    apply list_elem_of_split in Hm2' as (ms1' & ms2' & Hms').
    pose proof Hl as Hl'. apply list_elem_of_split in Hl' as (ls1 & ls2 & Hls).
    destruct (distinct_lesson_split _ _ _ _ _ _ _ Hless Hms' Hls)
      as (Hbefore & _ & _ & Hafter).
    rewrite Hlid in Hbefore, Hafter.
    rewrite Hms' in Hm1.
    apply elem_of_app in Hm1 as [Hm1 | Hm1].
    - intros Hin. apply Hbefore. apply list_elem_of_bind. eauto.
    - apply elem_of_cons in Hm1 as [-> | Hm1]; [congruence |].
      intros Hin. apply Hafter. apply list_elem_of_bind. eauto. }
  split.
  2:{ intros (row & Hrow & Hunder). apply Hnot_listed.
      eapply (save_lessons_within ctx c db db' m1 mid1);
        [done | by apply distinct_module_is_last | done | done | done]. }
  rewrite save_as_statements in Hsave.
  pose proof Hm1 as Hm1'. apply list_elem_of_split in Hm1' as (ms1 & ms2 & Hms).
  destruct (distinct_module_split _ _ _ _ Hmods Hms) as [Hbefore _].
  rewrite Hmid1 in Hbefore.
  rewrite (save_stmts_at_module _ _ _ _ Hms) in Hsave.
  apply run_app_Ok in Hsave as (d1 & Hpre & Hsave).
  apply run_app_Ok in Hsave as (d2 & Hmod & Hpost).
  apply run_module_stmts_Ok in Hmod as (d3 & d4 & Hum & Hls & ->).
  assert (Hd1 : stored_under lid mid1 d1).
  { apply (run_preserves ctx (stored_under lid mid1) (leaves_under mid1))
      with (ss := CheckOwner (cj_teacher_id c) :: UpsertCourse c ::
                    (ms1 ≫= module_stmts (cj_id c))) (db := db);
      [| | done | done].
    - intros s d d'. apply exec_leaves_under.
    - repeat (apply Forall_cons; split; [done |]).
      by apply modules_leave_under. }
  assert (Hd3 : stored_under lid mid1 d3).
  { by apply (exec_leaves_under (UpsertModule (cj_id c) m1) d1 d3 lid mid1). }
  assert (Hd4 : stored_under lid mid1 d4).
  { apply (run_preserves ctx (stored_under lid mid1) (leaves_under mid1))
      with (ss := UpsertLesson (mj_id m1) <$> mj_lessons m1) (db := d3);
      [| | done | done].
    - intros s d d'. apply exec_leaves_under.
    - apply Forall_fmap. by apply Forall_true. }
  intros p Hp Hplid.
  apply run_progress_sublist in Hpost.
  apply (fun H => elem_of_sublist _ _ _ H Hpost) in Hp.
  apply elem_of_progress_delete_lessons_not_in in Hp as [_ Hkept].
  apply Hkept. destruct Hd4 as (row & Hrow & Hunder).
  exists row. rewrite Hplid. split_and!; [done | congruence |].
  split; [| done]. by eapply run_lessons_ids.
Qed.

(** The conflict update of the lesson upsert leaves [module_id] as it is.
    So for a payload the call goes through on, with distinct ids, that
    lists a stored lesson under another module than the one it is stored
    in, and lists that module too: the call returns, and it has deleted
    every progress row on the lesson, wherever the two modules stand in
    the payload; and the lesson is no longer stored under its old
    module. *)
Theorem moved_lesson_loses_its_progress c db m1 m2 l mid1 lid :
  Acceptance.accepted ctx c db ->
  distinct_ids c ->
  m1 ∈ cj_modules c -> mj_id m1 = Some mid1 ->
  m2 ∈ cj_modules c -> l ∈ mj_lessons m2 -> lj_id l = Some lid ->
  mj_id m2 <> Some mid1 ->
  stored_under lid mid1 db ->
  exists db',
    save_course_with_children ctx c db = Ok db' /\
    (forall p, p ∈ progress db' -> p_lesson_id p <> lid) /\
    ~ stored_under lid mid1 db'.
Proof.
  intros Hacc Hd Hm1 Hmid1 Hm2 Hl Hlid Hother Hstored.
  destruct (save_accepts ctx c db Hacc) as [db' Hsave].
  exists db'. split; [done |].
  exact (moved_lesson_after_the_call c db db' m1 m2 l mid1 lid
           Hsave Hd Hm1 Hmid1 Hm2 Hl Hlid Hother Hstored).
Qed.

End MovedLesson.

Section MovedLessonExample.
Import Db Migration12 Integrity Scenario.

(** On the example: the lesson 34, stored under module 21 and listed
    under module 20, and the progress row of the student 3 on it. *)
Lemma moved_lesson_loses_its_progress_witness :
  exists db',
    save_course_with_children (as_user 1) lesson_moved scenario_db = Ok db' /\
    completed 91 3 34 ∈ progress scenario_db /\
    completed 91 3 34 ∉ progress db'.
Proof.
  destruct (moved_lesson_loses_its_progress (as_user 1) lesson_moved
              scenario_db
              (module_entry 21 "M2" 1 [])
              (module_entry 20 "M1" 0
                 [ lesson_entry 31 "L1" 0 (Some "video");
                   lesson_entry 32 "L2" 1 None;
                   lesson_entry 34 "L4" 2 (Some "pdf") ])
              (lesson_entry 34 "L4" 2 (Some "pdf")) 21 34)
    as (db' & Hsave & Hgone & _).
  - apply lesson_moved_accepted.
  - apply lesson_moved_distinct.
  - simpl. set_solver.
  - reflexivity.
  - simpl. set_solver.
  - simpl. set_solver.
  - reflexivity.
  - discriminate.
  - eexists. split; [vm_compute; reflexivity | reflexivity].
  - exists db'. split_and!; [done | simpl; set_solver |].
    intros Hin. by apply (Hgone (completed 91 3 34)).
Defined.

End MovedLessonExample.

(** ** New users: the trigger and the form *)

Section NewUsers.
Import Db Profiles.

Lemma proposed_Ok email role e r :
  proposed email role = Ok (e, r) <->
  email = Some e /\ role = Some r /\ r ∈ roles.
Proof.
  unfold proposed. destruct email as [e' |]; simpl; [| naive_solver].
  destruct role as [r' |]; simpl; [| naive_solver].
  case_bool_decide; naive_solver.
Qed.

Lemma proposed_refuses_role e r :
  r ∉ roles -> proposed (Some e) (Some r) = Err check_violation.
Proof.
  intros Hr. unfold proposed, not_null, mbind, result_bind.
  by rewrite bool_decide_eq_false_2.
Qed.

Lemma coalesce_default {A} (x : option A) (d : A) :
  coalesce x d = Some (default d x).
Proof. by destruct x. Qed.

Lemma insert_profile_Ok now id email role first last full t t' :
  insert_profile now id email role first last full t = Ok t' <->
  exists e r,
    email = Some e /\ role = Some r /\ r ∈ roles /\
    t !! id = None /\ ~ email_taken id e t /\
    t' = <[id := {| pf_email := e; pf_role := r; pf_first_name := first;
                    pf_last_name := last; pf_full_name := full;
                    pf_created_at := now |}]> t.
Proof.
  unfold insert_profile.
  destruct (proposed email role) as [[e r] | err] eqn:Hp; simpl.
  - apply proposed_Ok in Hp as (-> & -> & Hr).
    destruct (t !! id) eqn:Hid; [naive_solver |].
    case_decide; naive_solver.
  - split; [done |]. intros (e & r & -> & -> & Hr & _).
    assert (proposed (Some e) (Some r) = Ok (e, r)) by (by apply proposed_Ok).
    congruence.
Qed.

Lemma well_formed_insert t id row :
  well_formed t -> pf_role row ∈ roles -> ~ email_taken id (pf_email row) t ->
  well_formed (<[id := row]> t).
Proof.
  intros [Hroles Hemails] Hrole Hfree. split.
  - intros k r Hk. apply lookup_insert_Some in Hk as [[<- <-] | [_ Hk]]; eauto.
  - intros k k' r r' Hk Hk' Heq.
    apply lookup_insert_Some in Hk as [[<- <-] | [Hne Hk]];
      apply lookup_insert_Some in Hk' as [[<- <-] | [Hne' Hk']]; try done.
    + exfalso. apply Hfree. exists k', r'. split; [done |]. by split.
    + exfalso. apply Hfree. exists k, r. split; [done |]. by split.
    + by eapply Hemails.
Qed.

(** The trigger of the setup script gives every new user a profile or
    fails the sign-up.  When it goes through, the table has one row more,
    for the id of the user, with the email of the user and the role of
    the metadata, [student] when the metadata has none; and the table
    still has a valid role in every row and no email twice.  It fails on
    a role that is none of the three, on a user without email, and on an
    email or an id the table already has. *)
Theorem handle_new_user_adds_a_valid_profile now new t :
  well_formed t ->
  (forall t',
     handle_new_user now new t = Ok t' ->
     well_formed t' /\ t !! nu_id new = None /\
     exists row,
       t' = <[nu_id new := row]> t /\
       nu_email new = Some (pf_email row) /\
       pf_role row = default "student" (nu_role new)) /\
  (forall email,
     nu_email new = Some email -> default "student" (nu_role new) ∈ roles ->
     t !! nu_id new = None -> ~ email_taken (nu_id new) email t ->
     exists t', handle_new_user now new t = Ok t') /\
  (forall email,
     nu_email new = Some email -> default "student" (nu_role new) ∉ roles ->
     handle_new_user now new t = Err check_violation) /\
  (nu_email new = None -> handle_new_user now new t = Err not_null_violation).
Proof.
  intros Hwf. unfold handle_new_user. split_and!.
  - intros t' Hok. apply insert_profile_Ok in Hok
      as (e & r & He & Hr & Hin & Hfresh & Hfree & ->).
    split_and!; [by apply well_formed_insert | done |].
    eexists. split; [done |]. simpl. split; [done |].
    destruct (nu_role new); simpl in *; congruence.
  - intros email He Hrole Hfresh Hfree. eexists.
    apply insert_profile_Ok. exists email, (default "student" (nu_role new)).
    split_and!; try done. by destruct (nu_role new).
  - intros email He Hrole. unfold insert_profile.
    by rewrite He, coalesce_default, proposed_refuses_role.
  - intros He. unfold insert_profile, proposed. by rewrite He.
Qed.

Lemma upsert_profile_Ok now id email role first last full t t' :
  upsert_profile now id email role first last full t = Ok t' <->
  exists e r,
    email = Some e /\ role = Some r /\ r ∈ roles /\ ~ email_taken id e t /\
    t' = <[id := {| pf_email := e; pf_role := r; pf_first_name := first;
                    pf_last_name := last; pf_full_name := full;
                    pf_created_at :=
                      match t !! id with
                      | Some old => pf_created_at old
                      | None => now
                      end |}]> t.
Proof.
  unfold upsert_profile.
  destruct (proposed email role) as [[e r] | err] eqn:Hp; simpl.
  - apply proposed_Ok in Hp as (-> & -> & Hr). case_decide; naive_solver.
  - split; [done |]. intros (e & r & -> & -> & Hr & _).
    assert (proposed (Some e) (Some r) = Ok (e, r)) by (by apply proposed_Ok).
    congruence.
Qed.

Lemma upsert_profile_Err now now' id email role first last full t e :
  upsert_profile now id email role first last full t = Err e ->
  upsert_profile now' id email role first last full t = Err e.
Proof.
  unfold upsert_profile.
  destruct (proposed email role) as [[? ?] | ?]; simpl; [| done].
  by case_decide.
Qed.

Lemma email_taken_insert id row email t :
  email_taken id email (<[id := row]> t) <-> email_taken id email t.
Proof.
  unfold email_taken, map_Exists. split.
  - intros (k & r & Hk & Hne & Heq).
    apply lookup_insert_Some in Hk as [[<- <-] | [_ Hk]]; [done |]. eauto.
  - intros (k & r & Hk & Hne & Heq). exists k, r.
    split; [| done]. by rewrite lookup_insert_ne.
Qed.

(** The trigger of [part_003] never fails the sign-up: it returns with
    the table changed or with the table untouched and a warning.  It
    keeps the table well formed; it leaves the table untouched exactly
    when the role is none of the three or another profile has the email,
    and then the new user has no profile; and running it again for the
    same user, at any later time, changes nothing more. *)
Theorem handle_new_user_robust_never_fails now now' new t :
  well_formed t ->
  well_formed (handle_new_user_robust now new t).1 /\
  ((handle_new_user_robust now new t).2 = None <->
   default "student" (nu_role new) ∈ roles /\
   ~ email_taken (nu_id new) (default "" (nu_email new)) t) /\
  ((handle_new_user_robust now new t).2 = None ->
   exists row,
     (handle_new_user_robust now new t).1 !! nu_id new = Some row /\
     pf_email row = default "" (nu_email new) /\
     pf_role row = default "student" (nu_role new)) /\
  ((handle_new_user_robust now new t).2 <> None ->
   (handle_new_user_robust now new t).1 = t) /\
  handle_new_user_robust now' new (handle_new_user_robust now new t).1
  = handle_new_user_robust now new t.
Proof.
  intros Hwf. unfold handle_new_user_robust.
  set (email := default "" (nu_email new)).
  set (role := default "student" (nu_role new)).
  assert (Hemail : coalesce (nu_email new) "" = Some email)
    by (unfold email; by destruct (nu_email new)).
  assert (Hrole : coalesce (nu_role new) "student" = Some role)
    by (unfold role; by destruct (nu_role new)).
  rewrite Hemail, Hrole.
  destruct (upsert_profile now (nu_id new) (Some email) (Some role) _ _ _ t)
    as [t' | e] eqn:Hup; simpl.
  - pose proof Hup as Hup'.
    apply upsert_profile_Ok in Hup'
      as (e & r & [= <-] & [= <-] & Hr & Hfree & Ht').
    split_and!.
    + rewrite Ht'. by apply well_formed_insert.
    + done.
    + intros _. rewrite Ht', lookup_insert_eq. by eexists.
    + done.
    + assert (Hagain : upsert_profile now' (nu_id new) (Some email) (Some role)
                         (coalesce (nu_first_name new) "")
                         (coalesce (nu_last_name new) "")
                         (coalesce (nu_full_name new) "") t' = Ok t').
      { apply upsert_profile_Ok. exists email, role. subst t'.
        split_and!; [done | done | done | by rewrite email_taken_insert |].
        rewrite lookup_insert_eq, insert_insert_eq. reflexivity. }
      by rewrite Hagain.
  - split_and!.
    + done.
    + split; [done |]. intros [Hr Hfree].
      assert (exists t', upsert_profile now (nu_id new) (Some email) (Some role)
                           (coalesce (nu_first_name new) "")
                           (coalesce (nu_last_name new) "")
                           (coalesce (nu_full_name new) "") t = Ok t')
        as [t' Hok]; [| congruence].
      eexists. apply upsert_profile_Ok. exists email, role. by split_and!.
    + done.
    + done.
    + by rewrite (upsert_profile_Err _ now' _ _ _ _ _ _ _ _ Hup).
Qed.

Lemma well_formed_empty : well_formed ∅.
Proof. split; intros *; by rewrite lookup_empty. Qed.

End NewUsers.

Section SignUp.
Import Db Profiles Auth.

Lemma role_value_valid r : role_value r ∈ roles.
Proof. destruct r; unfold roles; simpl; set_solver. Qed.

Lemma trim_start_head (s : units) (u : N) (rest : units) :
  trim_start s = (u :: rest)%list -> is_space u = false.
Proof.
  induction s as [| v s IH]; [done |]. simpl.
  destruct (is_space v) eqn:Hv; [exact IH |]. by intros [= <- _].
Qed.

Lemma trim_end_last (s kept : units) (u : N) :
  trim_end s = (kept ++ [u])%list -> is_space u = false.
Proof.
  revert kept. induction s as [| v s IH]; intros kept; simpl.
  - by destruct kept.
  - destruct (trim_end s) as [| w ws] eqn:Hs.
    + destruct (is_space v) eqn:Hv; [by destruct kept |].
      destruct kept as [| k [| ? ?]]; intros [=]; by subst.
    + destruct kept as [| k kept]; [by destruct ws |].
      intros [= <- Hrest]. by eapply IH.
Qed.

Lemma trim_end_head (s : units) (u : N) :
  trim_end (u :: s) = [] \/ exists kept, trim_end (u :: s) = (u :: kept)%list.
Proof.
  simpl. destruct (trim_end s); [destruct (is_space u) |]; eauto.
Qed.

(** In the registration mode [handleSubmit] calls [signUp] only for a
    form with a first and a last name that are more than white space, a
    password of eight code units or more, and a confirmation equal to the
    password; it passes the names trimmed (no white space at either end),
    the full name made of them, and a role that is one of the three of
    the table.  A form that fails one of the checks gives one error
    message and no call.  In every case the form is no longer loading
    afterwards. *)
Theorem handleSubmit_validates_the_registration env f :
  Auth.mode f = register ->
  isLoading (handleSubmit env f).1 = false /\
  (forall e p data,
     auth_signUp e p data ∈ (handleSubmit env f).2 ->
     trim (firstName f) <> [] /\ trim (lastName f) <> [] /\
     (8 <= length (password f))%nat /\
     confirmPassword f = password f /\
     e = Auth.email f /\ p = password f /\
     md_role data = role_value (Auth.role f) /\ md_role data ∈ roles /\
     md_first_name data = trim (firstName f) /\
     md_last_name data = trim (lastName f) /\
     md_full_name data = trim (firstName f) ++ 32%N :: trim (lastName f) /\
     (forall u, head (md_first_name data) = Some u \/
                last (md_first_name data) = Some u \/
                head (md_last_name data) = Some u \/
                last (md_last_name data) = Some u -> is_space u = false)) /\
  (trim (firstName f) = [] \/ trim (lastName f) = [] \/
   (length (password f) < 8)%nat \/ confirmPassword f <> password f ->
   exists message, (handleSubmit env f).2 = [toast_error message] /\
                   (handleSubmit env f).1 = with_loading f false).
Proof.
  intros Hmode. unfold handleSubmit. rewrite Hmode.
  case_bool_decide as Hfirst.
  { simpl. split_and!; [done | | eauto].
    intros e p data Hin. apply list_elem_of_singleton in Hin. discriminate. }
  case_bool_decide as Hlast.
  { simpl. split_and!; [done | | eauto].
    intros e p data Hin. apply list_elem_of_singleton in Hin. discriminate. }
  cbn [orb].
  destruct (Nat.ltb_spec (length (password f)) 8) as [Hshort | Hlong].
  { split_and!; [done | | eauto].
    intros e p data Hin. apply list_elem_of_singleton in Hin. discriminate. }
  case_bool_decide as Hsame; cbn [negb].
  2:{ split_and!; [done | | eauto].
      intros e p data Hin. apply list_elem_of_singleton in Hin. discriminate. }
  split_and!.
  - by destruct (env_signUp env).
  - intros e p data Hin.
    assert (Hcall : auth_signUp e p data
                    = auth_signUp (Auth.email f) (password f)
                        {| md_role := role_value (Auth.role f);
                           md_first_name := trim (firstName f);
                           md_last_name := trim (lastName f);
                           md_full_name :=
                             trim (firstName f) ++ 32%N :: trim (lastName f) |}).
    { destruct (env_signUp env); simpl in Hin;
        repeat (apply elem_of_cons in Hin as [Hin | Hin]; [done || exact Hin |]);
        by apply elem_of_nil in Hin. }
    injection Hcall as -> -> ->. simpl.
    split_and!; try done; [apply role_value_valid |].
    assert (Hends : forall s u,
              head (trim s) = Some u \/ last (trim s) = Some u ->
              is_space u = false).
    { intros s u [Hu | Hu]; unfold trim in Hu.
      - destruct (trim_start s) as [| v rest] eqn:Hs; [done |].
        destruct (trim_end_head rest v) as [Hnil | [kept Hkept]];
          rewrite ?Hnil, ?Hkept in Hu; [done |].
        injection Hu as <-. by eapply trim_start_head.
      - apply last_Some in Hu as [kept Hu]. by eapply trim_end_last. }
    intros u [Hu | [Hu | [Hu | Hu]]]; eapply Hends; eauto.
  - intros [? | [? | [? | ?]]]; [done | done | lia | congruence].
Qed.

Lemma handle_new_user_adds_a_valid_profile_witness :
  exists t',
    handle_new_user 1000
      {| nu_id := 7; nu_email := Some "ada@example.org";
         nu_role := Some "teacher"; nu_first_name := Some "Ada";
         nu_last_name := Some "Lovelace";
         nu_full_name := Some "Ada Lovelace" |} ∅
    = Ok t'.
Proof.
  destruct (handle_new_user_adds_a_valid_profile 1000
              {| nu_id := 7; nu_email := Some "ada@example.org";
                 nu_role := Some "teacher"; nu_first_name := Some "Ada";
                 nu_last_name := Some "Lovelace";
                 nu_full_name := Some "Ada Lovelace" |}
              ∅ well_formed_empty) as (_ & Hgoes & _).
  apply (Hgoes "ada@example.org").
  - reflexivity.
  - simpl. unfold roles. set_solver.
  - reflexivity.
  - intros (k & r & Hk & _). by rewrite lookup_empty in Hk.
Defined.

Lemma handle_new_user_robust_never_fails_witness :
  (handle_new_user_robust 1000
     {| nu_id := 7; nu_email := Some "x@example.org"; nu_role := Some "admin";
        nu_first_name := None; nu_last_name := None; nu_full_name := None |}
     ∅).1 = ∅.
Proof.
  destruct (handle_new_user_robust_never_fails 1000 2000
              {| nu_id := 7; nu_email := Some "x@example.org";
                 nu_role := Some "admin"; nu_first_name := None;
                 nu_last_name := None; nu_full_name := None |}
              ∅ well_formed_empty) as (_ & _ & _ & Hkept & _).
  apply Hkept. vm_compute. discriminate.
Defined.

(** The sample form is sent with the IDEOGRAPHIC SPACE of its first name
    stripped; a first name of such white space alone is refused. *)
Lemma handleSubmit_validates_the_registration_witness :
  isLoading (handleSubmit sample_auth_env sample_form).1 = false /\
  auth_signUp (ascii_units "ada@example.org") (ascii_units "analytical")
    {| md_role := "teacher"; md_first_name := ascii_units "Ada";
       md_last_name := ascii_units "Lovelace";
       md_full_name := ascii_units "Ada Lovelace" |}
  ∈ (handleSubmit sample_auth_env sample_form).2 /\
  exists message,
    (handleSubmit sample_auth_env blank_name_form).2 = [toast_error message].
Proof.
  split_and!.
  - apply (handleSubmit_validates_the_registration sample_auth_env sample_form).
    reflexivity.
  - vm_compute. apply list_elem_of_here.
  - destruct (handleSubmit_validates_the_registration sample_auth_env
                blank_name_form eq_refl) as (_ & _ & Hrefused).
    destruct Hrefused as (message & Hfx & _); [left; reflexivity |].
    by exists message.
Defined.

End SignUp.

(** ** Removing the file of a lesson *)

Section RemovedPaths.
Import Types Editor Removal.

(** *** Strings and their pieces *)

Lemma append_nil_r (s : string) : s +:+ "" = s.
Proof.
  induction s as [| c s IH]; [done |].
  change (String c (s +:+ "") = String c s). by f_equal.
Qed.

Lemma append_cons c (a b : string) : String c a +:+ b = String c (a +:+ b).
Proof. reflexivity. Qed.

Lemma length_append (a b : string) :
  String.length (a +:+ b) = (String.length a + String.length b)%nat.
Proof.
  induction a as [| c a IH]; [done |].
  rewrite append_cons. simpl. by rewrite IH.
Qed.

Lemma prefix_append sub b : String.prefix sub (sub +:+ b) = true.
Proof.
  induction sub as [| c sub IH]; [by destruct b |].
  rewrite append_cons. simpl.
  destruct (ascii_dec c c); [exact IH | done].
Qed.

(** Whether [sub] starts a text as long as [sub] or longer is settled by
    that text alone. *)
Lemma prefix_append_long sub t y :
  (String.length sub <= String.length t)%nat ->
  String.prefix sub (t +:+ y) = String.prefix sub t.
Proof.
  revert t. induction sub as [| c sub IH]; intros t Hlen.
  - by destruct t, y.
  - destruct t as [| c' t]; [simpl in Hlen; lia |].
    rewrite append_cons. simpl.
    destruct (ascii_dec c c'); [| done]. apply IH. simpl in Hlen. lia.
Qed.

Lemma append_nil_l (s : string) : "" +:+ s = s.
Proof. reflexivity. Qed.

Lemma includes_prefix sub s :
  String.prefix sub s = true -> Auth.includes sub s = true.
Proof. intros Hs. destruct s; cbn [Auth.includes]; by rewrite Hs. Qed.

Lemma includes_append sub a b : Auth.includes sub (a +:+ sub +:+ b) = true.
Proof.
  induction a as [| c a IH].
  - rewrite append_nil_l. apply includes_prefix, prefix_append.
  - rewrite append_cons. cbn [Auth.includes]. rewrite IH. apply orb_true_r.
Qed.

Lemma includes_cons sub c s :
  Auth.includes sub (String c s) = false ->
  String.prefix sub (String c s) = false /\ Auth.includes sub s = false.
Proof. cbn [Auth.includes]. apply orb_false_iff. Qed.

(** The characters of a separator found are passed over. *)
Lemma split_from_skip sep u s piece :
  split_from sep (u +:+ s) (String.length u) piece = split_from sep s 0 piece.
Proof.
  induction u as [| c u IH]; [done |]. rewrite append_cons. exact IH.
Qed.

(** A text without the separator is one piece. *)
Lemma split_from_whole sep s piece :
  Auth.includes sep s = false -> split_from sep s 0 piece = [piece +:+ s].
Proof.
  revert piece. induction s as [| c s IH]; intros piece Hout.
  - by rewrite append_nil_r.
  - apply includes_cons in Hout as [Hhere Hrest].
    cbn [split_from]. rewrite Hhere, (IH _ Hrest), append_assoc. done.
Qed.

(** A text cut at the first separator, when the rest has no other. *)
Lemma split_from_first init l a b piece :
  Auth.includes (init +:+ String l "") (a +:+ init) = false ->
  Auth.includes (init +:+ String l "") b = false ->
  split_from (init +:+ String l "") (a +:+ (init +:+ String l "") +:+ b) 0 piece
  = [piece +:+ a; b].
Proof.
  remember (init +:+ String l "") as sep eqn:Hsep.
  assert (Hlen : String.length sep = S (String.length init)).
  { subst sep. rewrite length_append. simpl. lia. }
  revert piece. induction a as [| c a IH]; intros piece Ha Hb.
  - rewrite append_nil_l, append_nil_r.
    destruct sep as [| c0 sep'] eqn:Hshape; [done |].
    rewrite append_cons. cbn [split_from].
    rewrite <- (append_cons c0 sep' b), prefix_append.
    replace (String.length (String c0 sep') - 1)%nat with (String.length sep')
      by (simpl; lia).
    rewrite split_from_skip, (split_from_whole _ _ _ Hb). done.
  - rewrite append_cons in Ha. apply includes_cons in Ha as [Hhere Hrest].
    rewrite append_cons. cbn [split_from].
    replace (String c (a +:+ sep +:+ b))
      with (String c (a +:+ init) +:+ String l b).
    2:{ rewrite Hsep, !append_cons, !append_assoc. done. }
    rewrite prefix_append_long, Hhere.
    2:{ rewrite Hlen. simpl. rewrite length_append. lia. }
    rewrite (IH _ Hrest Hb), append_assoc. done.
Qed.

(** *** The path of the object *)

Lemma split_at_the_bucket base path :
  Auth.includes "/lesson-files/" (base +:+ "/lesson-files") = false ->
  Auth.includes "/lesson-files/" path = false ->
  split "/lesson-files/" (base +:+ "/lesson-files/" +:+ path) = [base; path].
Proof.
  intros Hbase Hpath. unfold split.
  pose proof (split_from_first "/lesson-files" "/" base path "" Hbase Hpath)
    as Hsplit.
  change ("/lesson-files" +:+ "/") with "/lesson-files/" in Hsplit.
  by rewrite Hsplit, append_nil_l.
Qed.

(** For a URL [base/lesson-files/path] in which [/lesson-files/] comes
    neither earlier nor within [path], [removeFile] takes [path] as the
    path of the object, also when the URL is not the public address of
    the bucket; the path is never [undefined]. *)
Theorem filePath_of_is_what_follows_the_bucket pathname base path :
  Auth.includes "/lesson-files/" (base +:+ "/lesson-files") = false ->
  Auth.includes "/lesson-files/" path = false ->
  filePath_of pathname (base +:+ "/lesson-files/" +:+ path) = Some path.
Proof.
  intros Hbase Hpath. unfold filePath_of.
  rewrite (includes_append "/lesson-files/" base path).
  rewrite (split_at_the_bucket base path Hbase Hpath).
  destruct (Auth.includes "/storage/v1/object/public/lesson-files/" _);
    reflexivity.
Qed.

(** *** The lesson that loses its file *)

Lemma find_lesson_the_one modules_of k m j l :
  the_module_at (ecourse_modules modules_of) k m ->
  the_lesson_at (emodule_lessons m) j l ->
  find_lesson (emodule_id m) (lesson_id l) modules_of = Some l.
Proof.
  intros Hm Hl. unfold find_lesson.
  replace (List.find _ (ecourse_modules modules_of)) with (Some (Obj m)).
  2:{ symmetry. apply (find_the_one_at emodule_id _ _ _ Hm). }
  replace (List.find _ (emodule_lessons m)) with (Some (Obj l)).
  2:{ symmetry. apply (find_the_one_at lesson_id _ _ _ Hl). }
  done.
Qed.

Lemma lesson_with_its_content l :
  lesson_with_content l (lesson_content l) = l.
Proof. by destruct l. Qed.

Lemma module_with_its_lessons m : module_with_lessons m (emodule_lessons m) = m.
Proof. by destruct m. Qed.

(** [removeFile] on the one lesson of an id, in the one module of an id,
    when the lesson has a file and the storage removes the object. *)
Lemma removeFile_the_lesson env course0 k m j l content :
  the_module_at (ecourse_modules course0) k m ->
  the_lesson_at (emodule_lessons m) j l ->
  lesson_content l = Some content ->
  env_remove env = remove_done ->
  removeFile env (emodule_id m) (lesson_id l) course0
  = (course_with_modules course0
       (<[k := Obj (module_with_lessons m
                      (<[j := Obj (lesson_with_content l None)]>
                         (emodule_lessons m)))]>
          (ecourse_modules course0)),
     [storage_remove "lesson-files"
        [filePath_of (env_pathname env) (lf_url content)];
      toast_success "Archivo eliminado."]).
Proof.
  intros Hm Hl Hcontent Hdone. unfold removeFile.
  rewrite (find_lesson_the_one _ _ _ _ _ Hm Hl), Hcontent, Hdone.
  f_equal. f_equal. unfold map_module.
  rewrite (map_the_one_at emodule_id
             (fun m' => module_with_lessons m'
                          (map_lesson (lesson_id l)
                             (fun l' => lesson_with_content l' None)
                             (emodule_lessons m')))
             _ _ _ Hm).
  do 3 f_equal. unfold map_lesson.
  apply (map_the_one_at lesson_id (fun l' => lesson_with_content l' None)
           _ _ _ Hl).
Qed.

(** *** An upload and its removal *)

(** A file is uploaded to a lesson that has none, the storage serves it at
    an address [base/lesson-files/path] with the path of the upload, in
    which [/lesson-files/] comes neither earlier nor within the path, and
    the file is removed again: the object that [removeFile] asks the
    storage to remove is the object that [handleFileChange] stored, and
    the course is as it was before the upload. *)
Theorem removeFile_undoes_the_upload
    env renv file rest st k m j l stored base path :
  the_module_at (ecourse_modules (course st)) k m ->
  the_lesson_at (emodule_lessons m) j l ->
  lesson_content l = None ->
  ecourse_teacher_id (course st) <> "" ->
  file_type file = "video/mp4" \/ file_type file = "application/pdf" ->
  env_upload env = inr stored ->
  head (handleFileChange env (Some (file :: rest))
          (emodule_id m) (lesson_id l) st).2
  = Some (storage_upload "lesson-files" path file) ->
  env_publicUrl env = base +:+ "/lesson-files/" +:+ path ->
  Auth.includes "/lesson-files/" (base +:+ "/lesson-files") = false ->
  Auth.includes "/lesson-files/" path = false ->
  env_remove renv = remove_done ->
  removeFile renv (emodule_id m) (lesson_id l)
    (course (handleFileChange env (Some (file :: rest))
               (emodule_id m) (lesson_id l) st).1)
  = (course st,
     [storage_remove "lesson-files" [Some path];
      toast_success "Archivo eliminado."]).
Proof.
  intros Hm Hl Hnone Hteacher Hsupported Hupload Hstored Hurl Hbase Hpath Hdone.
  clear Hstored.
  assert (Hcourse :
    course (handleFileChange env (Some (file :: rest))
              (emodule_id m) (lesson_id l) st).1
    = course_with_modules (course st)
        (<[k := Obj (module_with_lessons m
                       (<[j := Obj (lesson_with_content l
                                      (Some (new_file env file)))]>
                          (emodule_lessons m)))]>
           (ecourse_modules (course st)))).
  { unfold handleFileChange.
    rewrite (teacher_id_passes _ Hteacher),
      (supported_type_passes _ Hsupported), Hupload.
    simpl. f_equal. by apply attach_the_lesson. }
  rewrite Hcourse.
  set (l1 := lesson_with_content l (Some (new_file env file))).
  set (m1 := module_with_lessons m (<[j := Obj l1]> (emodule_lessons m))).
  destruct Hm as [Hk Hmonly]. destruct Hl as [Hj Hlonly].
  assert (Hm1 : the_module_at
                  (ecourse_modules
                     (course_with_modules (course st)
                        (<[k := Obj m1]> (ecourse_modules (course st))))) k m1).
  { simpl. split.
    - apply list_lookup_insert_eq. by eapply lookup_lt_Some.
    - intros i m' Hi Hid. destruct (decide (i = k)) as [| Hne]; [done |].
      rewrite list_lookup_insert_ne in Hi by done. by eapply Hmonly. }
  assert (Hl1 : the_lesson_at (emodule_lessons m1) j l1).
  { simpl. split.
    - apply list_lookup_insert_eq. by eapply lookup_lt_Some.
    - intros i l' Hi Hid. destruct (decide (i = j)) as [| Hne]; [done |].
      rewrite list_lookup_insert_ne in Hi by done. by eapply Hlonly. }
  change (emodule_id m) with (emodule_id m1).
  change (lesson_id l) with (lesson_id l1).
  rewrite (removeFile_the_lesson renv _ k m1 j l1 (new_file env file)
             Hm1 Hl1 eq_refl Hdone).
  f_equal.
  - simpl. rewrite !list_insert_insert_eq.
    replace (lesson_with_content l1 None) with l.
    2:{ subst l1. destruct l; simpl in *; by subst. }
    rewrite (list_insert_id _ j (Obj l)) by done.
    replace (module_with_lessons m1 (emodule_lessons m)) with m
      by (subst m1; by destruct m).
    rewrite (list_insert_id _ k (Obj m)) by done.
    by destruct (course st).
  - simpl. rewrite Hurl. unfold filePath_of.
    rewrite (includes_append "/lesson-files/" base path).
    rewrite (split_at_the_bucket base path Hbase Hpath).
    destruct (Auth.includes "/storage/v1/object/public/lesson-files/" _);
      reflexivity.
Qed.

Lemma filePath_of_is_what_follows_the_bucket_witness :
  filePath_of (fun _ => None)
    "https://abc.supabase.co/storage/v1/object/sign/lesson-files/t-01/c/m/l/u.pdf"
  = Some "t-01/c/m/l/u.pdf".
Proof.
  apply (filePath_of_is_what_follows_the_bucket (fun _ => None)
           "https://abc.supabase.co/storage/v1/object/sign" "t-01/c/m/l/u.pdf");
    reflexivity.
Defined.

Lemma removeFile_undoes_the_upload_witness :
  removeFile removing_env "6f1c2a7e-0001" "9b3d-01"
    (course (handleFileChange serving_env (Some [mp4])
               "6f1c2a7e-0001" "9b3d-01" (sample_editor "t-01")).1)
  = (sample_course "t-01",
     [storage_remove "lesson-files"
        [Some "t-01/c0ffee00-0000/6f1c2a7e-0001/9b3d-01/0a0b0c0d.mp4"];
      toast_success "Archivo eliminado."]).
Proof.
  apply (removeFile_undoes_the_upload serving_env removing_env mp4 []
           (sample_editor "t-01") 0 first_module 0
           (sample_lesson "9b3d-01" "L1" 0)
           "t-01/c0ffee00-0000/6f1c2a7e-0001/9b3d-01/0a0b0c0d.mp4"
           "https://abc.supabase.co/storage/v1/object/public"
           "t-01/c0ffee00-0000/6f1c2a7e-0001/9b3d-01/0a0b0c0d.mp4").
  - apply first_module_at_0.
  - apply first_lesson_at_0.
  - reflexivity.
  - done.
  - by left.
  - reflexivity.
  - reflexivity.
  - reflexivity.
  - reflexivity.
  - reflexivity.
  - reflexivity.
Defined.

End RemovedPaths.
